(** * Terminal analytics visualizer: a shallow embedding of
      [analytics_visualizer.py] and the properties of its views.

    Conventions of the embedding.
    - A Python [str] is a [string]; [len] is [String.length].
    - A Python [int] is a [Z].  A finite Python [float] is the rational it
      denotes, a [Q]; float arithmetic is carried out exactly, so results
      that depend on binary rounding are idealised (noted where it matters).
    - A [dict] is an association list in insertion order with unique keys.
    - The console is the list of artifacts printed to it.
    - Library behaviour the module relies on but does not define (the text
      of [str(float)], pandas' memory estimate, the float square root) is
      collected in the [Runtime] class. *)

From Stdlib Require Import ZArith QArith Qabs Bool String Ascii List Lia.
From Stdlib Require Import Permutation Sorted DecimalString.
Import ListNotations.

Open Scope string_scope.
Open Scope Z_scope.

Set Warnings "-register-all".

(** ** Formatting primitives (the f-string mini-language used by the module) *)

Module Fmt.

(** [str(n)] for an integer. *)
Definition str_of_Z (z : Z) : string := NilZero.string_of_int (Z.to_int z).

Fixpoint repeat_char (c : ascii) (n : nat) : string :=
  match n with
  | O => EmptyString
  | S k => String c (repeat_char c k)
  end.

(** ["#" * k]: a non-positive count gives the empty string. *)
Definition str_mul (c : ascii) (k : Z) : string := repeat_char c (Z.to_nat k).

(** [f"{s:>w}"] and [f"{s:<w}"]: pad to a minimum width, never truncate. *)
Definition rjust (w : nat) (s : string) : string :=
  repeat_char " " (w - String.length s) ++ s.

Definition ljust (w : nat) (s : string) : string :=
  s ++ repeat_char " " (w - String.length s).

(** [s[:n]] for [n >= 0]. *)
Definition str_take (n : nat) (s : string) : string := substring 0 n s.

Fixpoint join (sep : string) (l : list string) : string :=
  match l with
  | [] => EmptyString
  | [s] => s
  | s :: r => s ++ sep ++ join sep r
  end.

(** Rounding to the nearest integer, ties to the even one: what the
    ['f'] presentation type does to the exact value of a float. *)
Definition round_half_even (q : Q) : Z :=
  let n := Qnum q in
  let d := Zpos (Qden q) in
  let fl := n / d in
  let r := n mod d in
  match (2 * r) ?= d with
  | Lt => fl
  | Gt => fl + 1
  | Eq => if Z.even fl then fl else fl + 1
  end.

(** [int(x)]: truncation toward zero. *)
Definition trunc (q : Q) : Z := Z.quot (Qnum q) (Zpos (Qden q)).

Definition pow10 (p : nat) : Z := 10 ^ Z.of_nat p.

(** [f"{q:.{p}f}"]. *)
Definition format_f (p : nat) (q : Q) : string :=
  let scaled := Z.abs (round_half_even (Qmult q (inject_Z (pow10 p)))) in
  let ds := str_of_Z scaled in
  let ds := repeat_char "0" (S p - String.length ds) ++ ds in
  let k := (String.length ds - p)%nat in
  let sign := if Qnum q <? 0 then "-" else "" in
  match p with
  | O => sign ++ ds
  | _ => sign ++ substring 0 k ds ++ "." ++ substring k p ds
  end.

Fixpoint group_rev (l : list ascii) (i : nat) : list ascii :=
  match l with
  | [] => []
  | c :: r =>
      if Nat.eqb i 3 then ","%char :: c :: group_rev r 1
      else c :: group_rev r (S i)
  end.

(** [f"{n:,}"] for a non-negative integer. *)
Definition thousands (n : nat) : string :=
  string_of_list_ascii
    (rev (group_rev (rev (list_ascii_of_string (str_of_Z (Z.of_nat n)))) 0)).

End Fmt.

(** ** Data model *)

(** A cell of a table or a key of a mapping. *)
Inductive scalar : Type :=
| SInt (z : Z)
| SFloat (q : Q)
| SStr (s : string)
| STimestamp (t : Z)
| SNull.

(** The value side of a label->value mapping handed to the bar chart:
    a Python [int], a Python [float], or a numpy integer (the type of the
    counts returned by [np.histogram], which is not an instance of [int]). *)
Inductive number : Type :=
| PyInt (z : Z)
| PyFloat (q : Q)
| NpInt (z : Z).

Inductive dtype : Type := int64 | float64 | object | string_dtype | datetime64.

Record Series : Type := mkSeries {
  s_name : string;
  s_dtype : dtype;
  s_values : list scalar
}.

(** [index_len] is [len(df)]: a frame may have rows and no columns. *)
Record DataFrame : Type := mkDataFrame {
  columns : list Series;
  index_len : nat
}.

(** Behaviour of the libraries underneath the module that it never
    inspects: the text of [str(x)] for a float and for a timestamp, pandas'
    estimate of a frame's memory footprint in bytes, and the square root
    used by [DataFrame.corr]. *)
Class Runtime : Type := {
  float_repr : Q -> string;
  timestamp_repr : Z -> string;
  memory_usage_sum : DataFrame -> Z;
  fsqrt : Q -> Q
}.

Definition is_null (v : scalar) : bool :=
  match v with SNull => true | _ => false end.

Definition num_Q (v : number) : Q :=
  match v with
  | PyInt z => inject_Z z
  | PyFloat q => q
  | NpInt z => inject_Z z
  end.

(** The numeric value of a cell of a numeric column. *)
Definition scalar_Q (v : scalar) : Q :=
  match v with
  | SInt z => inject_Z z
  | SFloat q => q
  | _ => 0%Q
  end.

(** [a == b] on scalars, as used for dict keys and for counting values:
    numbers compare by value across [int] and [float]. *)
Definition scalar_eqb (a b : scalar) : bool :=
  match a, b with
  | SInt x, SInt y => Z.eqb x y
  | SInt x, SFloat q | SFloat q, SInt x => Qeq_bool (inject_Z x) q
  | SFloat p, SFloat q => Qeq_bool p q
  | SStr s, SStr t => String.eqb s t
  | STimestamp s, STimestamp t => Z.eqb s t
  | SNull, SNull => true
  | _, _ => false
  end.

Definition py_str `{Runtime} (v : scalar) : string :=
  match v with
  | SInt z => Fmt.str_of_Z z
  | SFloat q => float_repr q
  | SStr s => s
  | STimestamp t => timestamp_repr t
  | SNull => "nan"
  end.

Definition is_number (d : dtype) : bool :=
  match d with int64 | float64 => true | _ => false end.

Definition is_text (d : dtype) : bool :=
  match d with object | string_dtype => true | _ => false end.

(** *** Python sequences and dicts *)

(** [l[:k]]: a negative bound counts from the end. *)
Definition slice_to {A : Type} (k : Z) (l : list A) : list A :=
  if 0 <=? k then firstn (Z.to_nat k) l
  else firstn (length l - Z.to_nat (- k)) l.

Definition Dict : Type := list (scalar * number).

(** [d[k] = v]: overwrite in place, or append. *)
Fixpoint dict_set (d : Dict) (k : scalar) (v : number) : Dict :=
  match d with
  | [] => [(k, v)]
  | (k', v') :: r =>
      if scalar_eqb k' k then (k', v) :: r else (k', v') :: dict_set r k v
  end.

(** [dict(items)]. *)
Definition dict_of_items (items : list (scalar * number)) : Dict :=
  fold_left (fun d kv => dict_set d (fst kv) (snd kv)) items [].

Fixpoint key_in (k : scalar) (d : Dict) : bool :=
  match d with
  | [] => false
  | (k', _) :: r => scalar_eqb k' k || key_in k r
  end.

(** Well-formedness of a dict: no key occurs twice. *)
Fixpoint dict_wf (d : Dict) : bool :=
  match d with
  | [] => true
  | (k, _) :: r => negb (key_in k r) && dict_wf r
  end.

(** [sorted(items, key=lambda x: x[1], reverse=True)]: Python's sort is
    stable also when reversed, so the result is the one stable arrangement
    in non-increasing key order; insertion sort computes it. *)
Section StableSort.
Context {A : Type} (key : A -> Q).

Fixpoint insert_desc (x : A) (l : list A) : list A :=
  match l with
  | [] => [x]
  | y :: r =>
      if Qle_bool (key y) (key x) then x :: y :: r
      else y :: insert_desc x r
  end.

Fixpoint sorted_desc (l : list A) : list A :=
  match l with
  | [] => []
  | x :: r => insert_desc x (sorted_desc r)
  end.

(** [a] may stand before [b] in descending order. *)
Definition desc (a b : A) : Prop := (key b <= key a)%Q.

End StableSort.

(** ** Renderable artifacts (the part of [rich] the module builds) *)

Record TableColumn : Type := mkColumn {
  col_header : string;
  col_attrs : list (string * string)
}.

Record Table : Type := mkTable {
  tbl_title : string;
  tbl_header_style : string;
  tbl_columns : list TableColumn;
  tbl_rows : list (list string)
}.

Record Text : Type := mkText {
  txt : string;
  txt_style : string;
  txt_justify : string
}.

Inductive body : Type :=
| BText (s : string)
| BTable (t : Table)
| BColumns (l : list Text).

Record Panel : Type := mkPanel {
  p_body : body;
  p_title : option string;
  p_border_style : string
}.

(** [Panel(text, title=title)] with rich's default border style. *)
Definition text_panel (s : string) (title : option string) : Panel :=
  mkPanel (BText s) title "none".

(** ** Bar chart renderer: [TerminalAnalytics.create_bar_chart] *)

(** A [pd.Series] of counts (the result of [value_counts]) and its
    [to_dict()]; the counts come back as Python ints. *)
Definition CountSeries : Type := list (scalar * Z).

Definition to_dict (s : CountSeries) : Dict :=
  dict_of_items (map (fun kc => (fst kc, PyInt (snd kc))) s).

Inductive chart_data : Type :=
| OfDict (d : Dict)
| OfSeries (s : CountSeries).

Definition as_dict (data : chart_data) : Dict :=
  match data with
  | OfDict d => d
  | OfSeries s => to_dict s
  end.

Definition sorted_data (d : Dict) (max_bars : Z) : Dict :=
  dict_of_items (slice_to max_bars (sorted_desc (fun kv => num_Q (snd kv)) d)).

Fixpoint Qmax_list (l : list Q) (acc : Q) : Q :=
  match l with
  | [] => acc
  | q :: r => Qmax_list r (if Qle_bool q acc then acc else q)
  end.

(** [max(sorted_data.values()) if sorted_data.values() else 1]. *)
Definition max_value (sd : Dict) : Q :=
  match map (fun kv => num_Q (snd kv)) sd with
  | [] => 1%Q
  | q :: r => Qmax_list r q
  end.

(** [max(len(str(k)) for k in sorted_data.keys()) if sorted_data else 10]. *)
Definition max_label_width `{Runtime} (sd : Dict) : nat :=
  match sd with
  | [] => 10%nat
  | _ => fold_right Nat.max 0%nat (map (fun kv => String.length (py_str (fst kv))) sd)
  end.

Definition Qpos_b (q : Q) : bool := 0 <? Qnum q.

Definition bar_width (value mx : Q) : Z :=
  if Qpos_b mx then Fmt.trunc (Qmult (Qdiv value mx) (inject_Z 40)) else 0.

Definition percentage (value mx : Q) : Q :=
  if Qpos_b mx then Qmult (Qdiv value mx) (inject_Z 100) else 0%Q.

(** [float(z)] for an [int], which the format [.0f] applies first: the
    double nearest to [z], a tie going to the even significand of 53
    bits, given as the integer it denotes; [None] is the [OverflowError]
    of an int too large for a double. *)
Definition float_of_int (z : Z) : option Z :=
  let a := Z.abs z in
  let e := Z.log2 a in
  if e <? 53 then Some z
  else
    let sh := e - 52 in
    let q := Z.shiftr a sh in
    let r := Z.land a (Z.ones sh) in
    let half := Z.shiftl 1 (sh - 1) in
    let q' := if (half <? r) || ((r =? half) && Z.odd q) then q + 1 else q in
    let d := Z.shiftl q' sh in
    if d <? 2 ^ 1024 then Some (Z.sgn z * d) else None.

(** [f"{value:>8.0f}" if isinstance(value, (int, float)) else f"{value:>8}"];
    [None] when the conversion of an int raises. *)
Definition value_str (v : number) : option string :=
  match v with
  | PyInt z =>
      option_map (fun d => Fmt.rjust 8 (Fmt.format_f 0 (inject_Z d))) (float_of_int z)
  | PyFloat q => Some (Fmt.rjust 8 (Fmt.format_f 0 q))
  | NpInt z => Some (Fmt.rjust 8 (Fmt.str_of_Z z))
  end.

Definition text_of (o : option string) : string :=
  match o with Some s => s | None => EmptyString end.

Definition label_str `{Runtime} (w : nat) (label : scalar) : string :=
  Fmt.ljust w (Fmt.str_take w (py_str label)).

Definition bar (value mx : Q) : string := Fmt.str_mul "#" (bar_width value mx).

(** One line of the chart.  A line is printed when its value formats;
    when it does not, the call raises on that line instead of returning,
    and the line is given here with its value field empty. *)
Definition chart_line `{Runtime} (w : nat) (mx : Q) (kv : scalar * number) : string :=
  label_str w (fst kv) ++ " | " ++ Fmt.ljust 40 (bar (num_Q (snd kv)) mx)
    ++ " | " ++ text_of (value_str (snd kv))
    ++ " (" ++ Fmt.rjust 5 (Fmt.format_f 1 (percentage (num_Q (snd kv)) mx)) ++ "%)".

Definition chart_lines `{Runtime} (d : Dict) (max_bars : Z) : list string :=
  let sd := sorted_data d max_bars in
  map (chart_line (max_label_width sd) (max_value sd)) sd.

Definition newline : string := String (ascii_of_nat 10) EmptyString.

Definition create_bar_chart `{Runtime} (data : chart_data) (title : string)
    (max_bars : Z) : Panel :=
  let d := as_dict data in
  match d with
  | [] => text_panel "[red]No data for chart[/red]" (Some title)
  | _ => mkPanel (BText (Fmt.join newline (chart_lines d max_bars))) (Some title) "blue"
  end.

(** ** The pandas operations the module calls *)

Definition df_empty (df : DataFrame) : bool :=
  Nat.eqb (length (columns df)) 0 || Nat.eqb (index_len df) 0.

Definition series_empty (s : Series) : bool := Nat.eqb (length (s_values s)) 0.

(** [df.select_dtypes(include=...).columns], in declaration order. *)
Definition select_dtypes (p : dtype -> bool) (df : DataFrame) : list Series :=
  filter (fun c => p (s_dtype c)) (columns df).

Definition dropna (s : Series) : Series :=
  mkSeries (s_name s) (s_dtype s) (filter (fun v => negb (is_null v)) (s_values s)).

Definition Qsum (l : list Q) : Q := fold_right Qplus 0%Q l.

Definition Qlen {A : Type} (l : list A) : Q := inject_Z (Z.of_nat (length l)).

Definition mean (l : list Q) : Q := Qdiv (Qsum l) (Qlen l).

Fixpoint Qmin_list (l : list Q) (acc : Q) : Q :=
  match l with
  | [] => acc
  | q :: r => Qmin_list r (if Qle_bool acc q then acc else q)
  end.

Definition Qmin_of (l : list Q) : Q :=
  match l with [] => 0%Q | q :: r => Qmin_list r q end.

Definition Qmax_of (l : list Q) : Q :=
  match l with [] => 0%Q | q :: r => Qmax_list r q end.

(** The numeric values of a series. *)
Definition numbers_of (s : Series) : list Q := map scalar_Q (s_values s).

(** Distinct values in first-seen order. *)
Fixpoint distinct (l : list scalar) : list scalar :=
  match l with
  | [] => []
  | x :: r => x :: filter (fun y => negb (scalar_eqb x y)) (distinct r)
  end.

Definition count_of (v : scalar) (l : list scalar) : Z :=
  Z.of_nat (length (filter (scalar_eqb v) l)).

(** [s.nunique()]: nulls are not counted. *)
Definition nunique (s : Series) : nat := length (distinct (s_values (dropna s))).

(** [s.value_counts()]: frequency of every non-null value, most frequent
    first.  The order among values of equal frequency is pandas' own and
    is not fixed by its interface; it is taken here as the order of first
    occurrence. *)
Definition value_counts (s : Series) : CountSeries :=
  let vals := s_values (dropna s) in
  sorted_desc (fun kc => inject_Z (snd kc))
    (map (fun v => (v, count_of v vals)) (distinct vals)).

(** [.head(n)]. *)
Definition head {A : Type} (n : Z) (l : list A) : list A := slice_to n l.

(** ** Summary statistics: [TerminalAnalytics.create_summary_stats] *)

Definition no_data_panel (title : string) : Panel :=
  text_panel "[red]No data available[/red]" (Some title).

(** The body of the loop over [numeric_cols[:5]]. *)
Definition numeric_rows (col : Series) : list (list string) :=
  let values := numbers_of (dropna col) in
  if (0 <? length values)%nat then
    [ ["  " ++ s_name col ++ " (avg)"; Fmt.format_f 2 (mean values)];
      ["  " ++ s_name col ++ " (min-max)";
       Fmt.format_f 2 (Qmin_of values) ++ " - " ++ Fmt.format_f 2 (Qmax_of values)] ]
  else [].

Definition numeric_section (df : DataFrame) : list (list string) :=
  let numeric_cols := select_dtypes is_number df in
  if (0 <? length numeric_cols)%nat then
    ["[bold]Numeric Columns[/bold]"; Fmt.str_of_Z (Z.of_nat (length numeric_cols))]
      :: flat_map numeric_rows (firstn 5 numeric_cols)
  else [].

Definition string_section (df : DataFrame) : list (list string) :=
  let string_cols := select_dtypes is_text df in
  if (0 <? length string_cols)%nat then
    ["[bold]Text Columns[/bold]"; Fmt.str_of_Z (Z.of_nat (length string_cols))]
      :: map (fun col => ["  " ++ s_name col ++ " (unique)";
                          Fmt.str_of_Z (Z.of_nat (nunique col))])
             (firstn 3 string_cols)
  else [].

Definition basic_rows `{Runtime} (df : DataFrame) : list (list string) :=
  [ ["Total Records"; Fmt.thousands (index_len df)];
    ["Columns"; Fmt.str_of_Z (Z.of_nat (length (columns df)))];
    ["Memory Usage";
     Fmt.format_f 1 (Qdiv (inject_Z (memory_usage_sum df)) (inject_Z 1024)) ++ " KB"] ].

Definition summary_rows `{Runtime} (df : DataFrame) : list (list string) :=
  basic_rows df ++ numeric_section df ++ string_section df.

Definition create_summary_stats `{Runtime} (df : DataFrame) (title : string) : Panel :=
  if df_empty df then no_data_panel title
  else
    mkPanel
      (BTable (mkTable title "bold cyan"
                 [ mkColumn "Metric" [("style", "yellow"); ("no_wrap", "True")];
                   mkColumn "Value" [("justify", "right")] ]
                 (summary_rows df)))
      None "green".

(** ** Data preview: [TerminalAnalytics.create_data_table] *)

(** [iterrows] yields each row as one Series: when every column is numeric
    and one of them is float64, the integers of the row arrive as floats. *)
Definition row_upcast (df : DataFrame) : bool :=
  forallb (fun c => is_number (s_dtype c)) (columns df)
  && existsb (fun c => match s_dtype c with float64 => true | _ => false end) (columns df).

Definition format_cell `{Runtime} (upcast : bool) (v : scalar) : string :=
  match v with
  | SNull => "[dim]NULL[/dim]"
  | SFloat q => Fmt.format_f 2 q
  | SInt z => if upcast then Fmt.format_f 2 (inject_Z z) else Fmt.str_of_Z z
  | SStr s => Fmt.str_take 50 s
  | STimestamp t => Fmt.str_take 50 (timestamp_repr t)
  end.

Definition create_data_table `{Runtime} (df : DataFrame) (title : string)
    (max_rows : Z) : Panel :=
  if df_empty df then no_data_panel title
  else
    let shown := head max_rows (seq 0 (index_len df)) in
    mkPanel
      (BTable (mkTable
                 (title ++ " (showing " ++ Fmt.str_of_Z (Z.of_nat (length shown))
                    ++ " of " ++ Fmt.str_of_Z (Z.of_nat (index_len df)) ++ " rows)")
                 "bold magenta"
                 (map (fun c => mkColumn (s_name c)
                                  [("overflow", "ellipsis"); ("max_width", "20")])
                      (columns df))
                 (map (fun i => map (fun c => format_cell (row_upcast df)
                                                (nth i (s_values c) SNull))
                                    (columns df))
                      shown)))
      None "cyan".

(** ** Distribution charts: [TerminalAnalytics.create_distribution_chart] *)

Definition is_numeric_scalar (v : scalar) : bool :=
  match v with SInt _ | SFloat _ => true | _ => false end.

Definition Qlt_b (a b : Q) : bool := negb (Qle_bool b a).

(** The [i]-th of the evenly spaced edges from [first] to [last]. *)
Definition bin_edge (first last : Q) (bins : nat) (i : nat) : Q :=
  Qplus first
    (Qdiv (Qmult (inject_Z (Z.of_nat i)) (Qminus last first))
          (inject_Z (Z.of_nat bins))).

(** The [bins + 1] edges. *)
Definition bin_edges (first last : Q) (bins : nat) : list Q :=
  map (bin_edge first last bins) (seq 0 (S bins)).

(** Membership in a bin: half-open, except that the last bin is closed. *)
Definition in_bin (lo hi : Q) (is_last : bool) (v : Q) : bool :=
  Qle_bool lo v && (Qlt_b v hi || (is_last && Qle_bool v hi)).

(** The bins delimited by consecutive edges; the flag marks the last. *)
Fixpoint intervals (edges : list Q) : list (Q * Q * bool) :=
  match edges with
  | lo :: ((hi :: rest) as tl) =>
      (lo, hi, match rest with [] => true | _ => false end) :: intervals tl
  | _ => []
  end.

Definition contains (v : Q) (iv : Q * Q * bool) : bool :=
  in_bin (fst (fst iv)) (snd (fst iv)) (snd iv) v.

Definition bin_counts (edges : list Q) (vals : list Q) : list Z :=
  map (fun iv => Z.of_nat (length (filter (fun v => contains v iv) vals)))
      (intervals edges).

(** Modelled from the spec: [np.histogram] is numpy's and not part of the
    repository.  [np.histogram(values, bins=bins)] bins the values into
    [bins] equal-width intervals over [[min, max]], all but the last
    half-open, and returns the counts and the [bins + 1] edges; it fails
    (here: [None]) when [bins] is not positive or a value is not a number.
    A range of a single point is widened by 0.5 on both sides, as numpy
    does, rather than treated as a failure. *)
Definition np_histogram (values : list scalar) (bins : Z) : option (list Z * list Q) :=
  if negb (forallb is_numeric_scalar values) then None
  else if bins <? 1 then None
  else
    match map scalar_Q values with
    | [] => None
    | (q :: r) as vals =>
        let mn := Qmin_list r q in
        let mx := Qmax_list r q in
        let first := if Qeq_bool mn mx then Qminus mn (1 # 2) else mn in
        let last := if Qeq_bool mn mx then Qplus mx (1 # 2) else mx in
        let edges := bin_edges first last (Z.to_nat bins) in
        Some (bin_counts edges vals, edges)
    end.

(** [f"{bin_edges[i]:.1f}-{bin_edges[i+1]:.1f}"]. *)
Definition bin_label (lo hi : Q) : string :=
  Fmt.format_f 1 lo ++ "-" ++ Fmt.format_f 1 hi.

(** The loop [for i in range(len(hist)): hist_data[label_i] = hist[i]]. *)
Fixpoint fill_hist (hist : list Z) (edges : list Q) (acc : Dict) : Dict :=
  match hist, edges with
  | h :: hs, lo :: ((hi :: _) as tl) =>
      fill_hist hs tl (dict_set acc (SStr (bin_label lo hi)) (NpInt h))
  | _, _ => acc
  end.

(** [clean_data.value_counts().head(bins).to_dict()]. *)
Definition frequency_data (clean : Series) (bins : Z) : Dict :=
  to_dict (head bins (value_counts clean)).

Definition hist_data (clean : Series) (bins : Z) : Dict :=
  if is_text (s_dtype clean) then frequency_data clean bins
  else
    match np_histogram (s_values clean) bins with
    | Some (hist, edges) => fill_hist hist edges []
    | None => frequency_data clean bins
    end.

Definition create_distribution_chart `{Runtime} (data : Series) (title : string)
    (bins : Z) : Panel :=
  if series_empty data then no_data_panel title
  else
    let clean_data := dropna data in
    if Nat.eqb (length (s_values clean_data)) 0 then
      text_panel "[red]No valid data after removing nulls[/red]" (Some title)
    else
      create_bar_chart (OfDict (hist_data clean_data bins)) (title ++ " Distribution") 20.

(** ** Correlation matrix: [TerminalAnalytics.create_correlation_matrix] *)

(** Rows on which both columns hold a value (pairwise deletion). *)
Definition paired (a b : Series) : list (Q * Q) :=
  map (fun p => (scalar_Q (fst p), scalar_Q (snd p)))
      (filter (fun p => negb (is_null (fst p)) && negb (is_null (snd p)))
              (combine (s_values a) (s_values b))).

(** Sum of products of deviations from the means. *)
Definition sum_dev (xs ys : list Q) : Q :=
  Qsum (map (fun p => Qmult (Qminus (fst p) (mean xs)) (Qminus (snd p) (mean ys)))
            (combine xs ys)).

Definition clip (q : Q) : Q :=
  if Qlt_b 1 q then 1%Q else if Qlt_b q (-1) then (-1)%Q else q.

(** Modelled from the spec: [DataFrame.corr] is pandas' and not part of
    the repository.  The entry for two columns is their Pearson
    coefficient, covariance over the root of the product of the two sums
    of squared deviations, kept within [[-1, 1]]; it is missing ([None],
    pandas' NaN) when no row is shared or that root is zero. *)
Definition pearson `{Runtime} (a b : Series) : option Q :=
  let ps := paired a b in
  let xs := map fst ps in
  let ys := map snd ps in
  match ps with
  | [] => None
  | _ =>
      let divisor := fsqrt (Qmult (sum_dev xs xs) (sum_dev ys ys)) in
      if Qeq_bool divisor 0 then None
      else Some (clip (Qdiv (sum_dev xs ys) divisor))
  end.

Definition corr `{Runtime} (cols : list Series) : list (list (option Q)) :=
  map (fun a => map (fun b => pearson a b) cols) cols.

(** [M[i][j]]; out of range reads as missing. *)
Definition entry (M : list (list (option Q))) (i j : nat) : option Q :=
  nth j (nth i M []) None.

Inductive tier : Type := strong | moderate | weak.

(** The cascade [abs(val) > 0.7] / [abs(val) > 0.3] / else. *)
Definition tier_of (val : Q) : tier :=
  if Qlt_b (7 # 10) (Qabs val) then strong
  else if Qlt_b (3 # 10) (Qabs val) then moderate
  else weak.

Definition corr_cell (val : option Q) : string :=
  match val with
  | None => "-"
  | Some v =>
      match tier_of v with
      | strong => "[bold red]" ++ Fmt.format_f 2 v ++ "[/bold red]"
      | moderate => "[yellow]" ++ Fmt.format_f 2 v ++ "[/yellow]"
      | weak => "[dim]" ++ Fmt.format_f 2 v ++ "[/dim]"
      end
  end.

Definition create_correlation_matrix `{Runtime} (df : DataFrame) (title : string) : Panel :=
  let numeric_data := select_dtypes is_number df in
  if df_empty (mkDataFrame numeric_data (index_len df))
     || (length numeric_data <? 2)%nat
  then text_panel "[yellow]Not enough numeric columns for correlation[/yellow]" (Some title)
  else
    let M := corr numeric_data in
    mkPanel
      (BTable (mkTable title "bold cyan"
                 (mkColumn "" [("style", "yellow")]
                    :: map (fun c => mkColumn (Fmt.str_take 10 (s_name c))
                                       [("justify", "center"); ("style", "dim")])
                           numeric_data)
                 (map (fun rc => Fmt.str_take 15 (s_name (fst rc)) :: map corr_cell (snd rc))
                      (combine numeric_data M))))
      None "magenta".

(** ** Layout tree *)

Inductive splitter : Type := Unsplit | ColumnSplit | RowSplit.

(** A [rich.layout.Layout] node; [renderable = None] is a layout nobody
    has updated, which rich draws as its own blank placeholder. *)
Inductive Layout : Type :=
| LNode (name : string) (size : option nat) (ratio : nat)
        (renderable : option Panel) (split : splitter) (children : list Layout).

Definition new_layout (name : string) (size : option nat) : Layout :=
  LNode name size 1 None Unsplit [].

(** Apply [f] to the first node called [name], searching the node, then
    its children in order. *)
Fixpoint at_name (name : string) (f : Layout -> Layout) (l : Layout) : option Layout :=
  match l with
  | LNode n s r c sp kids =>
      if String.eqb n name then Some (f l)
      else
        option_map (LNode n s r c sp)
          ((fix go (ks : list Layout) : option (list Layout) :=
              match ks with
              | [] => None
              | k :: rest =>
                  match at_name name f k with
                  | Some k' => Some (k' :: rest)
                  | None => option_map (cons k) (go rest)
                  end
              end) kids)
  end.

Fixpoint get_name (name : string) (l : Layout) : option Layout :=
  match l with
  | LNode n _ _ _ _ kids =>
      if String.eqb n name then Some l
      else
        (fix go (ks : list Layout) : option Layout :=
           match ks with
           | [] => None
           | k :: rest =>
               match get_name name k with
               | Some x => Some x
               | None => go rest
               end
           end) kids
  end.

Definition on_name (name : string) (f : Layout -> Layout) (l : Layout) : Layout :=
  match at_name name f l with Some l' => l' | None => l end.

(** [layout[name].update(panel)]. *)
Definition update (name : string) (p : Panel) (l : Layout) : Layout :=
  on_name name
    (fun x => match x with LNode n s r _ sp ks => LNode n s r (Some p) sp ks end) l.

(** [layout[name].split_column(...)] and [.split_row(...)]. *)
Definition split_into (name : string) (sp : splitter) (kids : list Layout)
    (l : Layout) : Layout :=
  on_name name
    (fun x => match x with LNode n s r c _ _ => LNode n s r c sp kids end) l.

(** What the pane called [name] shows. *)
Definition pane (name : string) (l : Layout) : option Panel :=
  match get_name name l with
  | Some (LNode _ _ _ c _ _) => c
  | None => None
  end.

(** ** Dashboard: [TerminalAnalytics.create_analytics_dashboard] *)

Definition skeleton (title now : string) : Layout :=
  let layout := new_layout "root" None in
  let layout := split_into "root" ColumnSplit
                  [new_layout "header" (Some 3%nat); new_layout "body" None] layout in
  let header_text := mkText title "bold bright_blue" "center" in
  let timestamp := mkText ("Generated: " ++ now) "dim" "center" in
  let layout := update "header"
                  (mkPanel (BColumns [header_text; timestamp]) None "blue") layout in
  let layout := split_into "body" RowSplit
                  [new_layout "left" None; new_layout "right" None] layout in
  let layout := split_into "left" ColumnSplit
                  [new_layout "stats" None; new_layout "preview" None] layout in
  split_into "right" ColumnSplit
    [new_layout "chart1" None; new_layout "chart2" None] layout.

(** [Panel("[yellow]Add more data for additional charts[/yellow]")]. *)
Definition add_more_data_panel : Panel :=
  mkPanel (BText "[yellow]Add more data for additional charts[/yellow]") None "none".

Definition top_values_chart `{Runtime} (col : Series) : Panel :=
  create_bar_chart (OfSeries (head 10 (value_counts col)))
    ("Top " ++ s_name col ++ " Values") 20.

(** The branching that fills the two chart panes. *)
Definition add_charts `{Runtime} (df : DataFrame) (layout : Layout) : Layout :=
  match select_dtypes is_number df with
  | n0 :: more =>
      let layout := update "chart1"
                      (create_distribution_chart n0 (s_name n0 ++ " Distribution") 10)
                      layout in
      match more with
      | _ :: _ => update "chart2" (create_correlation_matrix df "Correlation Matrix") layout
      | [] =>
          match select_dtypes is_text df with
          | c0 :: _ => update "chart2" (top_values_chart c0) layout
          | [] => layout
          end
      end
  | [] =>
      match select_dtypes is_text df with
      | c0 :: c1 :: _ =>
          update "chart2" (top_values_chart c1) (update "chart1" (top_values_chart c0) layout)
      | [c0] =>
          update "chart2" add_more_data_panel
            (update "chart1" (top_values_chart c0) layout)
      | [] => layout
      end
  end.

(** [now] is the text of [datetime.now().strftime('%Y-%m-%d %H:%M:%S')],
    the one reading of the clock the function makes. *)
Definition create_analytics_dashboard `{Runtime} (now : string) (df : DataFrame)
    (title : string) : Layout :=
  let layout := skeleton title now in
  let layout := update "stats" (create_summary_stats df "Dataset Overview") layout in
  let layout := update "preview" (create_data_table df "Data Preview" 10) layout in
  add_charts df layout.

(** ** Entry point: [TerminalAnalytics.display_analytics] *)

(** A record: a Python dict from column names to scalars. *)
Definition record : Type := list (string * scalar).

Inductive raw_data : Type :=
| RawList (records : list record)
| RawDict (d : record)
| RawFrame (df : DataFrame)
| RawOther.

Fixpoint record_get (k : string) (r : record) : scalar :=
  match r with
  | [] => SNull
  | (k', v) :: rest => if String.eqb k' k then v else record_get k rest
  end.

(** Keys of all records, in first-seen order. *)
Definition union_keys (records : list record) : list string :=
  fold_left
    (fun acc r =>
       fold_left (fun acc k => if existsb (String.eqb k) acc then acc else (acc ++ [k])%list)
                 (map fst r) acc)
    records [].

Definition to_float (v : scalar) : scalar :=
  match v with SInt z => SFloat (inject_Z z) | _ => v end.

Definition is_int_scalar (v : scalar) : bool :=
  match v with SInt _ => true | _ => false end.

Definition is_timestamp (v : scalar) : bool :=
  match v with STimestamp _ => true | _ => false end.

(** The type tag of a column, inferred once from its non-null cells.  A
    column of nulls only is tagged [object], the tag pandas gives to
    [None] (it gives [float64] to NaN, which the one null of this model
    does not tell apart), and every int is taken to fit [int64]. *)
Definition infer_column (name : string) (cells : list scalar) : Series :=
  let present := filter (fun v => negb (is_null v)) cells in
  match present with
  | [] => mkSeries name object cells
  | _ =>
      if forallb is_int_scalar present && Nat.eqb (length present) (length cells)
      then mkSeries name int64 cells
      else if forallb is_numeric_scalar present
      then mkSeries name float64 (map to_float cells)
      else if forallb is_timestamp present
      then mkSeries name datetime64 cells
      else mkSeries name object cells
  end.

(** [pd.DataFrame(records)]: one row per record, a column per key, a
    missing key read as null.  The constructor can raise on input outside
    this scalar model, hence the [option]; on records of scalars it
    always succeeds. *)
Definition frame_of_records (records : list record) : option DataFrame :=
  Some (mkDataFrame
          (map (fun k => infer_column k (map (record_get k) records))
               (union_keys records))
          (length records)).

Definition scalar_of_key (k : string) : scalar := SStr k.

(** [pd.DataFrame(list(data.items()), columns=['Key', 'Value'])]. *)
Definition key_value_frame (d : record) : DataFrame :=
  mkDataFrame
    [ infer_column "Key" (map (fun kv => scalar_of_key (fst kv)) d);
      infer_column "Value" (map snd d) ]
    (length d).

Inductive artifact : Type :=
| APanel (p : Panel)
| ALayout (l : Layout).

(** What a call leaves behind: the artifacts printed to the console, or
    an exception escaping the call. *)
Inductive outcome : Type :=
| Printed (out : list artifact)
| Raised.

(** The conversion at the head of [display_analytics]: [None] for an
    unsupported input, [Some None] when the [DataFrame] constructor raises
    outside a [try]. *)
Definition to_frame (data : raw_data) : option (option DataFrame) :=
  match data with
  | RawList records => Some (frame_of_records records)
  | RawDict d =>
      match frame_of_records [d] with
      | Some df => Some (Some df)
      | None => Some (Some (key_value_frame d))
      end
  | RawFrame df => Some (Some df)
  | RawOther => None
  end.

Definition no_analytics_panel (title : string) : Panel :=
  text_panel "[yellow]No data available for analytics[/yellow]" (Some title).

Definition display_analytics `{Runtime} (now : string) (data : raw_data)
    (analytics_type : string) (title : string) : outcome :=
  match to_frame data with
  | None =>
      Printed [APanel (text_panel "[red]Unsupported data type for analytics[/red]"
                         (Some "Error"))]
  | Some None => Raised
  | Some (Some df) =>
      if df_empty df then Printed [APanel (no_analytics_panel title)]
      else if String.eqb analytics_type "dashboard" then
        Printed [ALayout (create_analytics_dashboard now df title)]
      else if String.eqb analytics_type "summary" then
        Printed [APanel (create_summary_stats df title)]
      else if String.eqb analytics_type "table" then
        Printed [APanel (create_data_table df title 20)]
      else if String.eqb analytics_type "correlation" then
        Printed [APanel (create_correlation_matrix df title)]
      else
        Printed [ALayout (create_analytics_dashboard now df title)]
  end.

(** ** A concrete runtime, to run the model on examples *)

(** A rational square root, exact on squares of rationals and accurate to
    about 2^-53 elsewhere. *)
Definition model_sqrt (q : Q) : Q :=
  let s := 2 ^ 53 in
  Z.sqrt (Qnum q * Zpos (Qden q) * (s * s)) # (Qden q * Z.to_pos s).

(** Eight bytes per cell and 128 for the index. *)
Definition model_memory (df : DataFrame) : Z :=
  128 + 8 * Z.of_nat (length (columns df)) * Z.of_nat (index_len df).

Definition model_runtime : Runtime := {|
  float_repr := Fmt.format_f 1;
  timestamp_repr := Fmt.str_of_Z;
  memory_usage_sum := model_memory;
  fsqrt := model_sqrt
|}.

(** ** Sample data used by the examples *)

Module Sample.
Definition sales : Series := mkSeries "sales" int64 [SInt 100; SInt 150; SInt 90].
Definition profit : Series := mkSeries "profit" int64 [SInt 20; SInt 30; SInt 18].
Definition product : Series := mkSeries "product" object [SStr "A"; SStr "B"; SStr "A"].

(** One numeric column and nothing else. *)
Definition sales_only : DataFrame := mkDataFrame [sales] 3.
Definition shop : DataFrame := mkDataFrame [product; sales; profit] 3.
End Sample.

(** ** Vocabulary of the properties *)

(** The column has a value left after [dropna]. *)
Definition has_values (col : Series) : bool :=
  (0 <? length (s_values (dropna col)))%nat.

(** The "(avg)" and "(min-max)" rows of a column. *)
Definition stat_rows (col : Series) : list (list string) :=
  let values := numbers_of (dropna col) in
  [ ["  " ++ s_name col ++ " (avg)"; Fmt.format_f 2 (mean values)];
    ["  " ++ s_name col ++ " (min-max)";
     Fmt.format_f 2 (Qmin_of values) ++ " - " ++ Fmt.format_f 2 (Qmax_of values)] ].

Definition table_rows (p : Panel) : list (list string) :=
  match p_body p with
  | BTable t => tbl_rows t
  | _ => []
  end.

(** Six numeric columns, the first one all null: it takes a slot, so the
    rows shown are those of columns two to five, and the sixth column is
    left out although only four columns are shown. *)
Definition six_numeric : DataFrame :=
  mkDataFrame
    [ mkSeries "n1" float64 [SNull; SNull];
      mkSeries "n2" int64 [SInt 1; SInt 3];
      mkSeries "n3" int64 [SInt 2; SInt 2];
      mkSeries "n4" int64 [SInt 5; SInt 7];
      mkSeries "n5" float64 [SFloat (1 # 2); SNull];
      mkSeries "n6" int64 [SInt 9; SInt 9] ] 2.

Definition chart_sample : Dict :=
  [ (SStr "B", PyInt 150); (SStr "A", PyInt 190);
    (SStr "CC", PyFloat (5 # 2)); (SStr "D", PyInt 150) ].

(** The spacing of the doubles around [z]. *)
Definition ulp (z : Z) : Z := 2 ^ Z.max 0 (Z.log2 (Z.abs z) - 52).

(** Sample variance of a column's values. *)
Definition variance (vals : list Q) : Q :=
  Qdiv (sum_dev vals vals) (Qminus (Qlen vals) 1).

(** The square root returns the root of a square of a positive number. *)
Definition sqrt_exact `{Runtime} : Prop :=
  forall v : Q, (0 < v)%Q -> (fsqrt (v * v) == v)%Q.

Definition swap (p : Q * Q) : Q * Q := (snd p, fst p).






(** A count as [to_dict] hands it on. *)
Definition boxed (kc : scalar * Z) : scalar * number := (fst kc, PyInt (snd kc)).

(** The header panel of a dashboard built at the clock reading [now]. *)
Definition header_panel (title now : string) : Panel :=
  mkPanel (BColumns [ mkText title "bold bright_blue" "center";
                      mkText ("Generated: " ++ now) "dim" "center" ])
    None "blue".

(** The layout of a dashboard, given what its five leaves show. *)
Definition dashboard_tree (header stats preview : Panel) (chart1 chart2 : option Panel)
    : Layout :=
  LNode "root" None 1 None ColumnSplit
    [ LNode "header" (Some 3%nat) 1 (Some header) Unsplit [];
      LNode "body" None 1 None RowSplit
        [ LNode "left" None 1 None ColumnSplit
            [ LNode "stats" None 1 (Some stats) Unsplit [];
              LNode "preview" None 1 (Some preview) Unsplit [] ];
          LNode "right" None 1 None ColumnSplit
            [ LNode "chart1" None 1 chart1 Unsplit [];
              LNode "chart2" None 1 chart2 Unsplit [] ] ] ].

(** * Sessions and the tools built on them *)

(** ** JSON values, as [json.loads] returns them *)

Inductive json : Type :=
| JNull
| JBool (b : bool)
| JInt (z : Z)
| JFloat (q : Q)
| JStr (s : string)
| JList (l : list json)
| JObj (l : list (string * json)).

(** The JSON codec of the Python library: [json_loads s] is [None] when
    [json.loads(s)] raises [JSONDecodeError]; [json_dumps] is
    [json.dumps(v, indent=2)]. *)
Class JsonCodec : Type := {
  json_loads : string -> option json;
  json_dumps : json -> string
}.

(** Truth value of a Python object that is a JSON value. *)
Definition truthy (v : json) : bool :=
  match v with
  | JNull => false
  | JBool b => b
  | JInt z => negb (Z.eqb z 0)
  | JFloat q => negb (Qeq_bool q 0)
  | JStr s => negb (String.eqb s "")
  | JList l => match l with [] => false | _ => true end
  | JObj l => match l with [] => false | _ => true end
  end.

(** ** [session_manager.py] *)

(** An attribute that is [None] in Python is [None] here where its type is
    optional text, and [JNull] for [schema_info], which holds what
    [json.loads] returned. *)
Record DatabaseSession : Type := mkSession {
  session_id : string;
  db_uri : string;
  db_type : option string;
  connection_code : option string;
  schema_info : json;
  connected : bool;
  analyzed : bool
}.

(** [sessions] is the dict from ids to sessions, in insertion order. *)
Record SessionManager : Type := mkManager {
  sessions : list (string * DatabaseSession);
  current_session_id : option string
}.

(** [SessionManager()]. *)
Definition new_manager : SessionManager := mkManager [] None.

(** [self.sessions.get(id)]. *)
Fixpoint sessions_get (id : string) (l : list (string * DatabaseSession))
    : option DatabaseSession :=
  match l with
  | [] => None
  | (k, s) :: r => if String.eqb k id then Some s else sessions_get id r
  end.

(** [self.sessions[id] = s]. *)
Fixpoint sessions_set (l : list (string * DatabaseSession)) (id : string)
    (s : DatabaseSession) : list (string * DatabaseSession) :=
  match l with
  | [] => [(id, s)]
  | (k, s') :: r =>
      if String.eqb k id then (k, s) :: r else (k, s') :: sessions_set r id s
  end.

(** [uuid] is the text of [str(uuid.uuid4())], the one random draw of the
    call. *)
Definition create_session (uuid : string) (uri : string) (m : SessionManager)
    : DatabaseSession * SessionManager :=
  let session := mkSession uuid uri None None JNull false false in
  (session, mkManager (sessions_set (sessions m) uuid session) (Some uuid)).

Definition nonempty (s : string) : bool := negb (String.eqb s "").

(** [if session_id: ... elif self.current_session_id: ...]: an empty id
    is as good as none. *)
Definition get_session (id : option string) (m : SessionManager)
    : option DatabaseSession :=
  match id with
  | Some i =>
      if nonempty i then sessions_get i (sessions m)
      else match current_session_id m with
           | Some c => if nonempty c then sessions_get c (sessions m) else None
           | None => None
           end
  | None =>
      match current_session_id m with
      | Some c => if nonempty c then sessions_get c (sessions m) else None
      | None => None
      end
  end.

Definition field_names : list string :=
  [ "session_id"; "db_uri"; "db_type"; "connection_code"; "schema_info";
    "connected"; "analyzed" ].

(** A keyword for which [hasattr(session, key)] is false and which
    [update_session] can receive: not a field, not the name of a parameter
    of the method, and not a name in double underscores (some of those are
    attributes of every object). *)
Definition other_keyword (key : string) : bool :=
  negb (existsb (String.eqb key) ("self" :: field_names) || String.prefix "__" key).

(** One keyword argument of [update_session].  Six fields of a session
    can be named, with a value of the field's declared type; any other
    keyword is [Set_other].  There is no keyword [session_id]: it is the
    name of the positional parameter, and a call that also passes it by
    keyword is refused with [TypeError] before the body runs.  The
    keywords of one call ([kwargs], a list in the order given) are
    pairwise different. *)
Inductive attr : Type :=
| Set_db_uri (v : string)
| Set_db_type (v : option string)
| Set_connection_code (v : option string)
| Set_schema_info (v : json)
| Set_connected (v : bool)
| Set_analyzed (v : bool)
| Set_other (key : string) (v : json) (free : other_keyword key = true).

(** The name of the keyword. *)
Definition keyword (a : attr) : string :=
  match a with
  | Set_db_uri _ => "db_uri"
  | Set_db_type _ => "db_type"
  | Set_connection_code _ => "connection_code"
  | Set_schema_info _ => "schema_info"
  | Set_connected _ => "connected"
  | Set_analyzed _ => "analyzed"
  | Set_other key _ _ => key
  end.

(** [if hasattr(session, key): setattr(session, key, value)]. *)
Definition set_attr (s : DatabaseSession) (a : attr) : DatabaseSession :=
  match a with
  | Set_db_uri v =>
      mkSession (session_id s) v (db_type s) (connection_code s) (schema_info s)
        (connected s) (analyzed s)
  | Set_db_type v =>
      mkSession (session_id s) (db_uri s) v (connection_code s) (schema_info s)
        (connected s) (analyzed s)
  | Set_connection_code v =>
      mkSession (session_id s) (db_uri s) (db_type s) v (schema_info s)
        (connected s) (analyzed s)
  | Set_schema_info v =>
      mkSession (session_id s) (db_uri s) (db_type s) (connection_code s) v
        (connected s) (analyzed s)
  | Set_connected v =>
      mkSession (session_id s) (db_uri s) (db_type s) (connection_code s)
        (schema_info s) v (analyzed s)
  | Set_analyzed v =>
      mkSession (session_id s) (db_uri s) (db_type s) (connection_code s)
        (schema_info s) (connected s) v
  | Set_other _ _ _ => s
  end.

(** The session object is shared with the dict, so setting its attributes
    updates the entry under [id]. *)
Definition update_session (id : string) (kwargs : list attr) (m : SessionManager)
    : SessionManager :=
  match sessions_get id (sessions m) with
  | Some session =>
      mkManager (sessions_set (sessions m) id (fold_left set_attr kwargs session))
        (current_session_id m)
  | None => m
  end.

(** ** [llm_tools.py] *)

(** A result dict of a tool. *)
Definition result_dict : Type := list (string * json).

Definition startswith (s : string) (prefixes : list string) : bool :=
  existsb (fun p => String.prefix p s) prefixes.

(** The [if]/[elif] chain over the prefixes of the URI. *)
Definition db_type_of (uri : string) : string :=
  if startswith uri ["mysql://"; "mysql+pymysql://"] then "mysql"
  else if startswith uri ["postgresql://"; "postgres://"] then "postgresql"
  else if startswith uri ["mongodb://"; "mongodb+srv://"] then "mongodb"
  else if startswith uri ["redis://"] then "redis"
  else if startswith uri ["sqlite://"] then "sqlite"
  else "unknown".

Definition create_database_session (uuid : string) (uri : string) (m : SessionManager)
    : result_dict * SessionManager :=
  let (session, m) := create_session uuid uri m in
  let t := db_type_of uri in
  let m := update_session (session_id session) [Set_db_type (Some t)] m in
  ([ ("session_id", JStr (session_id session));
     ("db_uri", JStr uri);
     ("db_type", JStr t);
     ("status", JStr "created");
     ("message", JStr ("Session " ++ session_id session ++ " created for " ++ t
                         ++ " database")) ],
   m).

Definition opt_str (v : option string) : json :=
  match v with Some s => JStr s | None => JNull end.

Definition get_current_session (m : SessionManager) : result_dict :=
  match get_session None m with
  | None => [("error", JStr "No active session. Please create one first.")]
  | Some session =>
      [ ("session_id", JStr (session_id session));
        ("db_uri", JStr (db_uri session));
        ("db_type", opt_str (db_type session));
        ("connected", JBool (connected session));
        ("analyzed", JBool (analyzed session));
        ("schema_info", schema_info session) ]
  end.

Definition save_connection_code (id code : string) (m : SessionManager)
    : result_dict * SessionManager :=
  ([("status", JStr "success"); ("message", JStr "Connection code saved")],
   update_session id [Set_connection_code (Some code); Set_connected true] m).

Definition save_schema_info `{JsonCodec} (id text : string) (m : SessionManager)
    : result_dict * SessionManager :=
  match json_loads text with
  | Some schema_dict =>
      ([("status", JStr "success"); ("message", JStr "Schema information saved")],
       update_session id [Set_schema_info schema_dict; Set_analyzed true] m)
  | None => ([("error", JStr "Invalid JSON format for schema_info")], m)
  end.

(** ** [database_agents.py] *)

(** [s.split(sep)] for a non-empty separator: the pieces between the
    occurrences of [sep], found left to right without overlap.  [skip]
    counts the characters of a found occurrence still to pass, [cur] is
    the piece being read. *)
Fixpoint py_split_aux (sep : string) (skip : nat) (s cur : string) : list string :=
  match s with
  | EmptyString => [cur]
  | String c s' =>
      match skip with
      | S k => py_split_aux sep k s' cur
      | O =>
          if String.prefix sep s
          then cur :: py_split_aux sep (String.length sep - 1) s' EmptyString
          else py_split_aux sep 0 s' (cur ++ String c EmptyString)
      end
  end.

Definition py_split (sep s : string) : list string := py_split_aux sep 0 s EmptyString.

(** [sep in s] for a non-empty [sep]. *)
Fixpoint contains_str (sep s : string) : bool :=
  String.prefix sep s
  || match s with
     | EmptyString => false
     | String _ s' => contains_str sep s'
     end.

(** What an agent's [run] returns: an object with a [final_answer]
    attribute (here the text of [str(result.final_answer)]), or any other
    object (here the text of [str(result)]). *)
Inductive run_result : Type :=
| WithFinalAnswer (text : string)
| Plain (text : string).

Definition final_answer_marker : string := "Final answer: ".

(** The extraction repeated after every agent run:
    [str(r.final_answer)] if [r] has that attribute, else
    [str(r).split('Final answer: ')[-1]] if the marker occurs in [str(r)],
    else [str(r)]. *)
Definition clean_result (r : run_result) : string :=
  match r with
  | WithFinalAnswer text => text
  | Plain text =>
      if contains_str final_answer_marker text
      then last (py_split final_answer_marker text) EmptyString
      else text
  end.

(** The language-model agents.  A run gets a prompt and may call the
    tools, so it returns with a new state of the session manager; [None]
    is a run that raises. *)
Class Agents : Type := {
  querier_run : string -> SessionManager -> option run_result * SessionManager
}.

Definition is_some {A : Type} (o : option A) : bool :=
  match o with Some _ => true | None => false end.

(** [v is None]. *)
Definition is_none (v : json) : bool :=
  match v with JNull => true | _ => false end.

(** [str(True)], [str(False)]. *)
Definition py_bool (b : bool) : string := if b then "True" else "False".

(** [str(x)] for an optional string. *)
Definition str_opt (o : option string) : string :=
  match o with Some s => s | None => "None" end.

Definition connection_code_text (session : DatabaseSession) : string :=
  match connection_code session with
  | Some code => if nonempty code then code else "Not saved - create new connection"
  | None => "Not saved - create new connection"
  end.

Definition schema_info_text `{JsonCodec} (session : DatabaseSession) : string :=
  if truthy (schema_info session) then json_dumps (schema_info session)
  else "Not available".

Definition querier_prompt `{JsonCodec} (question : string) (session : DatabaseSession)
    : string :=
  "
            QUERY DATABASE MISSION

            User Question: "
    ++ question
    ++ "

            CONTEXT:
            - Session ID: "
    ++ session_id session
    ++ "
            - Database URI: "
    ++ db_uri session
    ++ "
            - Database Type: "
    ++ str_opt (db_type session)
    ++ "
            - Connection Code Available: "
    ++ py_bool (is_some (connection_code session))
    ++ "
            - Schema Info Available: "
    ++ py_bool (negb (is_none (schema_info session)))
    ++ "

            YOUR TASKS:
            1. Get the current session using get_current_session()
            2. Reconnect to the database using the saved connection approach
            3. Write and execute queries to answer: "
    ++ question
    ++ "
            4. Present the results clearly

            The connection code that worked before:
            "
    ++ connection_code_text session
    ++ "

            Schema information:
            "
    ++ schema_info_text session
    ++ "

            BE FLEXIBLE: Adapt your query approach to the database type and structure.
            ".

Definition no_connection_message : string :=
  "No active database connection. Please connect first.".

(** [DatabaseAgent.query_database]: the answer ([None] when the agent's
    run raises) and the state of the session manager afterwards. *)
Definition query_database `{JsonCodec} `{Agents} (question : string) (m : SessionManager)
    : option string * SessionManager :=
  match get_session None m with
  | None => (Some no_connection_message, m)
  | Some session =>
      if negb (connected session) then (Some no_connection_message, m)
      else
        match querier_run (querier_prompt question session) m with
        | (None, m') => (None, m')
        | (Some result, m') =>
            (Some ("**QUERY RESULT**" ++ newline ++ "Question: " ++ question
                     ++ newline ++ newline ++ clean_result result),
             m')
        end
  end.

(** No occurrence of [sep] in [cur ++ s] starts inside [cur]. *)
Definition no_start (sep cur s : string) : Prop :=
  forall a b, cur = a ++ b -> b <> "" -> String.prefix sep (b ++ s) = false.

(** * Messages of the command line: [main.py] *)

Inductive MessageType : Type := USER | ASSISTANT | SYSTEM | ERROR.

(** A [datetime], as far as the formats used here read it. *)
Record datetime : Type := mkDatetime {
  year : nat; month : nat; day : nat;
  hour : nat; minute : nat; second : nat
}.

Record Message : Type := mkMessage {
  msg_type : MessageType;
  msg_content : string;
  msg_timestamp : datetime
}.

(** A number below 100 on two digits. *)
Definition two_digits (n : nat) : string :=
  (if (n <? 10)%nat then "0" else "") ++ Fmt.str_of_Z (Z.of_nat n).

(** [strftime('%H:%M:%S')]. *)
Definition strftime_HMS (t : datetime) : string :=
  two_digits (hour t) ++ ":" ++ two_digits (minute t) ++ ":" ++ two_digits (second t).

(** What a message panel holds. *)
Inductive rich : Type :=
| RText (content style : string)
| RMarkdown (markup : string)
| RSyntax (code lexer theme : string)
| RGroup (renderables : list rich).

Record MessagePanel : Type := mkMessagePanel {
  mp_content : rich;
  mp_title : string;
  mp_border_style : string;
  mp_padding : nat * nat
}.

(** Text is held in UTF-8, one [ascii] per byte.  [str.isspace] is true of
    the characters U+0009 to U+000D, U+001C to U+0020, U+0085, U+00A0,
    U+1680, U+2000 to U+200A, U+2028, U+2029, U+202F, U+205F and U+3000,
    which take one, two or three bytes. *)
Definition is_space1 (c : ascii) : bool :=
  let n := nat_of_ascii c in
  ((9 <=? n) && (n <=? 13) || (28 <=? n) && (n <=? 32))%nat.

Definition is_space2 (c1 c2 : ascii) : bool :=
  let n1 := nat_of_ascii c1 in
  let n2 := nat_of_ascii c2 in
  ((n1 =? 194) && ((n2 =? 133) || (n2 =? 160)))%nat.

Definition is_space3 (c1 c2 c3 : ascii) : bool :=
  let n1 := nat_of_ascii c1 in
  let n2 := nat_of_ascii c2 in
  let n3 := nat_of_ascii c3 in
  ((n1 =? 225) && (n2 =? 154) && (n3 =? 128)
   || (n1 =? 226) && (n2 =? 128)
      && ((128 <=? n3) && (n3 <=? 138) || (n3 =? 168) || (n3 =? 169) || (n3 =? 175))
   || (n1 =? 226) && (n2 =? 129) && (n3 =? 159)
   || (n1 =? 227) && (n2 =? 128) && (n3 =? 128))%nat.

(** [s.lstrip()]. *)
Fixpoint lstrip (s : string) : string :=
  match s with
  | EmptyString => EmptyString
  | String c1 s1 =>
      if is_space1 c1 then lstrip s1
      else
        match s1 with
        | EmptyString => s
        | String c2 s2 =>
            if is_space2 c1 c2 then lstrip s2
            else
              match s2 with
              | EmptyString => s
              | String c3 s3 => if is_space3 c1 c2 c3 then lstrip s3 else s
              end
        end
  end.

(** [s.rstrip()]: the text up to where only white space is left. *)
Fixpoint rstrip (s : string) : string :=
  match s with
  | EmptyString => EmptyString
  | String c s' =>
      if String.eqb (lstrip s) EmptyString then EmptyString else String c (rstrip s')
  end.

(** [s.strip()]. *)
Definition strip (s : string) : string := rstrip (lstrip s).

(** [part.split('\n', 1)]: [None] when there is no newline (one piece),
    else the text before the first newline and the text after it. *)
Fixpoint split_first_line (s : string) : option (string * string) :=
  match s with
  | EmptyString => None
  | String c s' =>
      if Ascii.eqb c (ascii_of_nat 10) then Some (EmptyString, s')
      else match split_first_line s' with
           | Some (first, rest) => Some (String c first, rest)
           | None => None
           end
  end.

Definition fence : string := "```".

(** One part of a fenced message: text outside the fences is Markdown, a
    part inside them is code, its first line naming the language. *)
Definition render_part (i : nat) (part : string) : rich :=
  if Nat.even i then RMarkdown part
  else
    match split_first_line part with
    | Some (first, rest) =>
        RSyntax rest (if nonempty (strip first) then strip first else "text") "monokai"
    | None => RSyntax part "text" "monokai"
    end.

Fixpoint render_parts (i : nat) (parts : list string) : list rich :=
  match parts with
  | [] => []
  | part :: more => render_part i part :: render_parts (S i) more
  end.

(** The bullet of the titles, U+2022 in UTF-8. *)
Definition bullet : string :=
  String (ascii_of_nat 226) (String (ascii_of_nat 128) (String (ascii_of_nat 162) "")).

(** [CLIChatbot._render_message]. *)
Definition _render_message (message : Message) : MessagePanel :=
  let time := strftime_HMS (msg_timestamp message) in
  match msg_type message with
  | USER =>
      mkMessagePanel (RText (msg_content message) "cyan")
        ("[bold cyan]You[/bold cyan] " ++ bullet ++ " " ++ time) "cyan" (0, 1)%nat
  | ASSISTANT =>
      mkMessagePanel
        (if contains_str fence (msg_content message)
         then RGroup (render_parts 0 (py_split fence (msg_content message)))
         else RMarkdown (msg_content message))
        ("[bold green]Assistant[/bold green] " ++ bullet ++ " " ++ time) "green" (0, 1)%nat
  | SYSTEM =>
      mkMessagePanel (RText (msg_content message) "yellow")
        ("[bold yellow]System[/bold yellow] " ++ bullet ++ " " ++ time) "yellow" (0, 1)%nat
  | ERROR =>
      mkMessagePanel (RText (msg_content message) "red")
        ("[bold red]Error[/bold red] " ++ bullet ++ " " ++ time) "red" (0, 1)%nat
  end.

(** What the command line prints. *)
Inductive console_item : Type :=
| PrintMarkup (markup : string)
| PrintPanel (panel : MessagePanel).

(** [l[-k:]]. *)
Definition last_n {A : Type} (k : nat) (l : list A) : list A :=
  skipn (length l - k) l.

(** [CLIChatbot._display_history]: the items it prints. *)
Definition _display_history (messages : list Message) : list console_item :=
  match messages with
  | [] => [PrintMarkup "[yellow]No conversation history yet.[/yellow]"]
  | _ => map (fun message => PrintPanel (_render_message message)) (last_n 10 messages)
  end.

(** *** White space at the ends of a text *)

(** Only white space. *)
Fixpoint white (s : string) : bool :=
  match s with
  | EmptyString => true
  | String c1 s1 =>
      if is_space1 c1 then white s1
      else
        match s1 with
        | EmptyString => false
        | String c2 s2 =>
            if is_space2 c1 c2 then white s2
            else
              match s2 with
              | EmptyString => false
              | String c3 s3 => if is_space3 c1 c2 c3 then white s3 else false
              end
        end
  end.

(** No white space at either end: no part cut off the front or the back
    of the text is white space. *)
Definition trimmed (t : string) : Prop :=
  forall a b, t = a ++ b ->
    (a <> "" -> white a = false) /\ (b <> "" -> white b = false).

(** The text starts with a white space character. *)
Definition head_space (s : string) : bool :=
  match s with
  | EmptyString => false
  | String c1 s1 =>
      is_space1 c1
      || match s1 with
         | EmptyString => false
         | String c2 s2 =>
             is_space2 c1 c2
             || match s2 with
                | EmptyString => false
                | String c3 _ => is_space3 c1 c2 c3
                end
         end
  end.

(** ** A codec and an agent, to run the model on examples *)

(** A codec that reads two texts and writes a fixed one. *)
Definition sample_codec : JsonCodec := {|
  json_loads := fun s =>
    if String.eqb s "{}" then Some (JObj [])
    else if String.eqb s "[]" then Some (JList [])
    else None;
  json_dumps := fun _ => "{}"
|}.

(** An agent that answers every prompt with the same text and calls no
    tool. *)
Definition sample_agents : Agents := {|
  querier_run := fun _ m => (Some (Plain "Thought: done. Final answer: 42 rows"), m)
|}.

Definition not_enough_panel (title : string) : Panel :=
  text_panel "[yellow]Not enough numeric columns for correlation[/yellow]" (Some title).

Definition dates_only : DataFrame :=
  mkDataFrame [mkSeries "date" datetime64 [STimestamp 0; STimestamp 86400]] 2.

Definition known_prefixes : list string :=
  [ "mysql://"; "mysql+pymysql://"; "postgresql://"; "postgres://";
    "mongodb://"; "mongodb+srv://"; "redis://"; "sqlite://" ].

Definition session_view (s : DatabaseSession) : result_dict :=
  [ ("session_id", JStr (session_id s));
    ("db_uri", JStr (db_uri s));
    ("db_type", opt_str (db_type s));
    ("connected", JBool (connected s));
    ("analyzed", JBool (analyzed s));
    ("schema_info", schema_info s) ].

(** The keyword argument that would leave the session as it is: the
    value the session holds for the keyword. *)
Definition get_attr (a : attr) (s : DatabaseSession) : attr :=
  match a with
  | Set_db_uri _ => Set_db_uri (db_uri s)
  | Set_db_type _ => Set_db_type (db_type s)
  | Set_connection_code _ => Set_connection_code (connection_code s)
  | Set_schema_info _ => Set_schema_info (schema_info s)
  | Set_connected _ => Set_connected (connected s)
  | Set_analyzed _ => Set_analyzed (analyzed s)
  | Set_other key v free => Set_other key v free
  end.

(** Every session is stored under its own id. *)
Definition well_keyed (m : SessionManager) : Prop :=
  forall id s, sessions_get id (sessions m) = Some s -> session_id s = id.

(** The current id, when there is one, is stored. *)
Definition current_stored (m : SessionManager) : Prop :=
  match current_session_id m with
  | Some c => exists s, sessions_get c (sessions m) = Some s
  | None => True
  end.

Definition consistent (m : SessionManager) : Prop := well_keyed m /\ current_stored m.

(** The last [skip] characters of the marker. *)
Definition marker_tail_at (skip : nat) : string :=
  substring (14 - skip) skip final_answer_marker.

Ltac eval_marker_tails :=
  repeat match goal with
  | H : context [marker_tail_at ?n] |- _ =>
      let t := eval vm_compute in (marker_tail_at n) in
      change (marker_tail_at n) with t in H
  | |- context [marker_tail_at ?n] =>
      let t := eval vm_compute in (marker_tail_at n) in
      change (marker_tail_at n) with t
  end.

Definition query_answer (question : string) (result : run_result) : string :=
  "**QUERY RESULT**" ++ newline ++ "Question: " ++ question ++ newline ++ newline
    ++ clean_result result.

Definition fenced_sample : Message :=
  mkMessage ASSISTANT
    ("Run this:" ++ newline ++ "``` sql " ++ newline ++ "SELECT 1" ++ newline ++ "``` done")
    (mkDatetime 2024 1 2 3 4 5).

(** * Properties *)

(** ** Correlation tiers *)

Lemma Qlt_b_true (a b : Q) : Qlt_b a b = true <-> (a < b)%Q.
Proof.
  unfold Qlt_b. rewrite negb_true_iff. split; intro Hab.
  - apply Qnot_le_lt. intro Hle. apply Qle_bool_iff in Hle. congruence.
  - destruct (Qle_bool b a) eqn:E; [|reflexivity].
    apply Qle_bool_iff in E. exfalso. exact (Qlt_not_le _ _ Hab E).
Qed.

Lemma Qlt_b_false (a b : Q) : Qlt_b a b = false <-> (b <= a)%Q.
Proof.
  unfold Qlt_b. rewrite negb_false_iff. apply Qle_bool_iff.
Qed.

(** C5. The tier of a coefficient is decided by strict comparisons of its
    absolute value with 0.7 and 0.3: strong exactly when it exceeds 0.7,
    weak exactly when it does not exceed 0.3.  So 0.75 is strong, 0.70
    itself is moderate, 0.20 is weak, and the cell of 0.70 carries the
    moderate markup. *)
Theorem tier_boundaries_strict :
  tier_of (75 # 100) = strong
  /\ tier_of (70 # 100) = moderate
  /\ tier_of (20 # 100) = weak
  /\ tier_of (- (70 # 100)) = moderate
  /\ corr_cell (Some (70 # 100)) = "[yellow]0.70[/yellow]"
  /\ (forall v, tier_of v = strong <-> (7 # 10 < Qabs v)%Q)
  /\ (forall v, tier_of v = weak <-> (Qabs v <= 3 # 10)%Q).
Proof.
  repeat (split; [reflexivity|]).
  split; intro v; unfold tier_of.
  - destruct (Qlt_b (7 # 10) (Qabs v)) eqn:E7.
    + apply Qlt_b_true in E7. tauto.
    + apply Qlt_b_false in E7. split.
      * destruct (Qlt_b (3 # 10) (Qabs v)); discriminate.
      * intro Hlt. exfalso. exact (Qlt_not_le _ _ Hlt E7).
  - destruct (Qlt_b (7 # 10) (Qabs v)) eqn:E7.
    + apply Qlt_b_true in E7. split; [discriminate|].
      intro Hle. exfalso. apply (Qlt_not_le _ _ E7).
      apply Qle_trans with (3 # 10)%Q; [exact Hle | discriminate].
    + destruct (Qlt_b (3 # 10) (Qabs v)) eqn:E3.
      * apply Qlt_b_true in E3. split; [discriminate|].
        intro Hle. exfalso. exact (Qlt_not_le _ _ E3 Hle).
      * apply Qlt_b_false in E3. tauto.
Qed.

(** ** Empty input *)

(** C8. Whatever the view type, an input whose conversion gives an empty
    frame makes [display_analytics] print the one "no data" panel and
    return normally. *)
Theorem empty_dataset_placeholder `{Runtime} (now : string) (data : raw_data)
    (analytics_type title : string) (df : DataFrame) :
  to_frame data = Some (Some df) ->
  df_empty df = true ->
  display_analytics now data analytics_type title
    = Printed [APanel (no_analytics_panel title)].
Proof.
  intros Hconv Hempty. unfold display_analytics.
  rewrite Hconv, Hempty. reflexivity.
Qed.

Lemma empty_dataset_placeholder_witness :
  (forall vt, @display_analytics model_runtime "2024-01-01 00:00:00" (RawList []) vt "Data Analytics"
     = Printed [APanel (no_analytics_panel "Data Analytics")])
  /\ (forall vt, @display_analytics model_runtime "2024-01-01 00:00:00" (RawDict []) vt "Data Analytics"
     = Printed [APanel (no_analytics_panel "Data Analytics")]).
Proof.
  split; intro vt.
  - apply (@empty_dataset_placeholder model_runtime "2024-01-01 00:00:00" (RawList []) vt
             "Data Analytics" (mkDataFrame [] 0)); reflexivity.
  - apply (@empty_dataset_placeholder model_runtime "2024-01-01 00:00:00" (RawDict []) vt
             "Data Analytics" (mkDataFrame [] 1)); reflexivity.
Defined.

(** ** Dashboard panes *)

Section Panes.
Context `{Runtime}.
Variables (now title : string) (df : DataFrame).

(** The header pane holds the title and the clock reading. *)
Lemma header_pane :
  pane "header" (create_analytics_dashboard now df title)
  = Some (mkPanel (BColumns [ mkText title "bold bright_blue" "center";
                              mkText ("Generated: " ++ now) "dim" "center" ])
            None "blue").
Proof.
  unfold create_analytics_dashboard, add_charts.
  destruct (select_dtypes is_number df) as [|n0 [|n1 more]];
    destruct (select_dtypes is_text df) as [|c0 [|c1 cs]]; reflexivity.
Qed.

(** Exactly one numeric column and no text column: the first chart pane
    gets the distribution, the second is never updated. *)
Lemma single_numeric_panes (n0 : Series) :
  select_dtypes is_number df = [n0] ->
  select_dtypes is_text df = [] ->
  pane "chart1" (create_analytics_dashboard now df title)
    = Some (create_distribution_chart n0 (s_name n0 ++ " Distribution") 10)
  /\ pane "chart2" (create_analytics_dashboard now df title) = None.
Proof.
  intros Hnum Htxt. unfold create_analytics_dashboard, add_charts.
  rewrite Hnum, Htxt. split; reflexivity.
Qed.

(** The sibling branch: no numeric column and exactly one text column
    puts the informational panel into the second chart pane. *)
Lemma single_text_panes (c0 : Series) :
  select_dtypes is_number df = [] ->
  select_dtypes is_text df = [c0] ->
  pane "chart1" (create_analytics_dashboard now df title) = Some (top_values_chart c0)
  /\ pane "chart2" (create_analytics_dashboard now df title) = Some add_more_data_panel.
Proof.
  intros Hnum Htxt. unfold create_analytics_dashboard, add_charts.
  rewrite Hnum, Htxt. split; reflexivity.
Qed.
End Panes.

(** C1. On the frame whose only column is the numeric [sales], the
    composer leaves chart pane 2 as the layout created it: no panel is
    placed there, in particular not the "Add more data for additional
    charts" panel that the one-text-column branch places. *)
Theorem single_numeric_chart2_left_unpopulated :
  select_dtypes is_number Sample.sales_only = [Sample.sales]
  /\ select_dtypes is_text Sample.sales_only = []
  /\ pane "chart2"
       (@create_analytics_dashboard model_runtime "2024-01-01 00:00:00"
          Sample.sales_only "Analytics Dashboard") = None
  /\ pane "chart2"
       (@create_analytics_dashboard model_runtime "2024-01-01 00:00:00"
          Sample.sales_only "Analytics Dashboard") <> Some add_more_data_panel.
Proof.
  assert (Hp := @single_numeric_panes model_runtime "2024-01-01 00:00:00"
                  "Analytics Dashboard" Sample.sales_only Sample.sales eq_refl eq_refl).
  destruct Hp as [_ Hp2].
  split; [reflexivity|]. split; [reflexivity|]. split.
  - exact Hp2.
  - rewrite Hp2. discriminate.
Qed.

(** ** Chart titles *)

Lemma bar_chart_title `{Runtime} (data : chart_data) (title : string) (max_bars : Z) :
  p_title (create_bar_chart data title max_bars) = Some title.
Proof.
  unfold create_bar_chart. destruct (as_dict data); reflexivity.
Qed.

(** Whenever the column has a non-null value, the chart that comes back
    is titled with the given title followed by " Distribution". *)
Lemma distribution_chart_title `{Runtime} (data : Series) (title : string) (bins : Z) :
  s_values (dropna data) <> [] ->
  p_title (create_distribution_chart data title bins) = Some (title ++ " Distribution").
Proof.
  intro Hne. unfold create_distribution_chart, series_empty.
  destruct (Nat.eqb (length (s_values data)) 0) eqn:Edata.
  - apply Nat.eqb_eq, length_zero_iff_nil in Edata.
    exfalso. apply Hne. unfold dropna. simpl. rewrite Edata. reflexivity.
  - destruct (Nat.eqb (length (s_values (dropna data))) 0) eqn:Eclean.
    + apply Nat.eqb_eq, length_zero_iff_nil in Eclean. contradiction.
    + apply bar_chart_title.
Qed.

(** C3. Asked for the chart of [sales] under the title "sales", the
    distribution engine returns a chart titled "sales Distribution": it
    appends the suffix itself.  The dashboard, which already passes
    "sales Distribution", so shows "sales Distribution Distribution". *)
Theorem distribution_engine_appends_suffix :
  p_title (@create_distribution_chart model_runtime Sample.sales "sales" 10)
    = Some "sales Distribution"
  /\ p_title (@create_distribution_chart model_runtime Sample.sales "sales" 10)
    <> Some "sales"
  /\ option_map p_title
       (pane "chart1"
          (@create_analytics_dashboard model_runtime "2024-01-01 00:00:00"
             Sample.sales_only "Analytics Dashboard"))
     = Some (Some "sales Distribution Distribution").
Proof.
  assert (Ht := @distribution_chart_title model_runtime Sample.sales "sales" 10).
  assert (Hne : s_values (dropna Sample.sales) <> []) by (simpl; discriminate).
  split; [exact (Ht Hne)|]. split.
  - rewrite (Ht Hne). discriminate.
  - destruct (@single_numeric_panes model_runtime "2024-01-01 00:00:00"
                "Analytics Dashboard" Sample.sales_only Sample.sales eq_refl eq_refl)
      as [Hp1 _].
    rewrite Hp1. unfold option_map.
    rewrite (@distribution_chart_title model_runtime Sample.sales
               (s_name Sample.sales ++ " Distribution") 10 Hne).
    reflexivity.
Qed.

(** ** Repeated renders *)

(** Two dashboards of the same frame are equal only if they were built at
    the same clock reading: the header shows it. *)
Lemma dashboard_clock_injective `{Runtime} (now1 now2 : string) (df : DataFrame)
    (title : string) :
  create_analytics_dashboard now1 df title = create_analytics_dashboard now2 df title ->
  now1 = now2.
Proof.
  intro E.
  assert (Hh : pane "header" (create_analytics_dashboard now1 df title)
               = pane "header" (create_analytics_dashboard now2 df title))
    by (rewrite E; reflexivity).
  rewrite !header_pane in Hh. injection Hh as Hnow. exact Hnow.
Qed.

(** C2, as the claim states it, fails: the same one-column frame rendered
    as a dashboard one second apart gives two different artifacts. *)
Lemma dashboard_render_not_repeatable :
  @display_analytics model_runtime "2024-01-01 00:00:00"
     (RawFrame Sample.sales_only) "dashboard" "Data Analytics"
  <> @display_analytics model_runtime "2024-01-01 00:00:01"
       (RawFrame Sample.sales_only) "dashboard" "Data Analytics".
Proof.
  unfold display_analytics.
  cbv beta iota delta [to_frame].
  change (df_empty Sample.sales_only) with false.
  cbv beta iota delta [String.eqb Ascii.eqb Bool.eqb].
  intro E.
  assert (E' : @create_analytics_dashboard model_runtime "2024-01-01 00:00:00"
                 Sample.sales_only "Data Analytics"
               = @create_analytics_dashboard model_runtime "2024-01-01 00:00:01"
                   Sample.sales_only "Data Analytics") by congruence.
  clear E. apply dashboard_clock_injective in E'.
  apply String.eqb_eq in E'. vm_compute in E'. discriminate E'.
Qed.

(** A dashboard is the fixed tree; of its leaves only the header depends
    on the clock. *)
Lemma dashboard_shape `{Runtime} (df : DataFrame) :
  exists chart1 chart2, forall now title,
    create_analytics_dashboard now df title
    = dashboard_tree (header_panel title now)
        (create_summary_stats df "Dataset Overview")
        (create_data_table df "Data Preview" 10) chart1 chart2.
Proof.
  unfold create_analytics_dashboard, add_charts.
  destruct (select_dtypes is_number df) as [|n0 [|n1 more]];
    destruct (select_dtypes is_text df) as [|c0 [|c1 cs]];
    eexists; eexists; intros now title; reflexivity.
Qed.

Lemma dashboard_tree_header (h h' stats preview : Panel) (c1 c2 : option Panel) :
  update "header" h' (dashboard_tree h stats preview c1 c2)
  = dashboard_tree h' stats preview c1 c2.
Proof. reflexivity. Qed.

Lemma dashboard_tree_panes (h h' stats preview : Panel) (c1 c2 : option Panel)
    (name : string) :
  pane "header" (dashboard_tree h stats preview c1 c2) = Some h
  /\ (name <> "header" ->
      pane name (dashboard_tree h' stats preview c1 c2)
      = pane name (dashboard_tree h stats preview c1 c2)).
Proof.
  split; [reflexivity|]. intro Hn.
  unfold pane, dashboard_tree. cbn [get_name].
  destruct (String.eqb "root" name); [reflexivity|].
  destruct (String.eqb "header" name) eqn:E; [|reflexivity].
  apply String.eqb_eq in E. congruence.
Qed.

(** C2, amended. Two renders of the same input under the same view type
    and title print the same artifacts, whatever the two clock readings,
    when the view is the summary, the table or the correlation matrix,
    and when the input is unsupported or empty; and in every case when
    the two readings are the same.  For a frame with data under any other
    view type both renders print one dashboard, and the second dashboard
    is the first with its header panel replaced: the header panels show
    the title and their own "Generated:" reading, every other pane shows
    the same in both, and the two dashboards are equal exactly when the
    two readings are. *)
Theorem render_repeatable `{Runtime} (now1 now2 : string) (data : raw_data)
    (analytics_type title : string) :
  (analytics_type = "summary" \/ analytics_type = "table"
     \/ analytics_type = "correlation" \/ now1 = now2
     \/ (forall df, to_frame data = Some (Some df) -> df_empty df = true) ->
   display_analytics now1 data analytics_type title
     = display_analytics now2 data analytics_type title)
  /\ (forall df, to_frame data = Some (Some df) -> df_empty df = false ->
      analytics_type <> "summary" -> analytics_type <> "table" ->
      analytics_type <> "correlation" ->
      let L1 := create_analytics_dashboard now1 df title in
      let L2 := create_analytics_dashboard now2 df title in
      display_analytics now1 data analytics_type title = Printed [ALayout L1]
      /\ display_analytics now2 data analytics_type title = Printed [ALayout L2]
      /\ L2 = update "header" (header_panel title now2) L1
      /\ pane "header" L1 = Some (header_panel title now1)
      /\ pane "header" L2 = Some (header_panel title now2)
      /\ (forall name, name <> "header" -> pane name L2 = pane name L1)
      /\ (L1 = L2 <-> now1 = now2)).
Proof.
  split.
  - intros Hv. unfold display_analytics.
    destruct (to_frame data) as [[df|]|] eqn:Ef; try reflexivity.
    destruct (df_empty df) eqn:Ee; [reflexivity|].
    destruct Hv as [Hv | [Hv | [Hv | [Hnow | Hempty]]]]; try (subst analytics_type);
      try (subst now2; reflexivity);
      try (cbv beta iota delta [String.eqb Ascii.eqb Bool.eqb]; reflexivity).
    rewrite (Hempty df eq_refl) in Ee. discriminate Ee.
  - intros df Hf He Hs Ht Hc L1 L2.
    assert (Hd : forall now, display_analytics now data analytics_type title
                 = Printed [ALayout (create_analytics_dashboard now df title)]).
    { intro now. unfold display_analytics. rewrite Hf, He.
      destruct (String.eqb analytics_type "dashboard"); [reflexivity|].
      apply String.eqb_neq in Hs, Ht, Hc. rewrite Hs, Ht, Hc. reflexivity. }
    destruct (dashboard_shape df) as [c1 [c2 Hshape]].
    unfold L1, L2. rewrite !Hd, !Hshape.
    split; [reflexivity|]. split; [reflexivity|].
    split; [symmetry; apply dashboard_tree_header|].
    split; [reflexivity|]. split; [reflexivity|].
    split; [intros name Hn; apply dashboard_tree_panes; exact Hn|].
    split.
    + intro E. unfold dashboard_tree, header_panel in E.
      injection E as E. exact E.
    + intros ->. reflexivity.
Qed.

Lemma render_repeatable_witness :
  @display_analytics model_runtime "2024-01-01 00:00:00"
     (RawFrame Sample.shop) "summary" "Data Analytics"
  = @display_analytics model_runtime "2024-01-01 00:00:01"
      (RawFrame Sample.shop) "summary" "Data Analytics"
  /\ @create_analytics_dashboard model_runtime "2024-01-01 00:00:01" Sample.shop
       "Data Analytics"
     = update "header" (header_panel "Data Analytics" "2024-01-01 00:00:01")
         (@create_analytics_dashboard model_runtime "2024-01-01 00:00:00" Sample.shop
            "Data Analytics").
Proof.
  destruct (@render_repeatable model_runtime "2024-01-01 00:00:00" "2024-01-01 00:00:01"
              (RawFrame Sample.shop) "summary" "Data Analytics") as [Hsame _].
  destruct (@render_repeatable model_runtime "2024-01-01 00:00:00" "2024-01-01 00:00:01"
              (RawFrame Sample.shop) "dashboard" "Data Analytics") as [_ Hdash].
  split.
  - apply Hsame. left. reflexivity.
  - destruct (Hdash Sample.shop eq_refl eq_refl) as [_ [_ [Hup _]]];
      try (intro E; discriminate E).
    exact Hup.
Defined.

(** ** The value column of a bar chart line *)

Lemma repeat_char_length (c : ascii) (n : nat) :
  String.length (Fmt.repeat_char c n) = n.
Proof. induction n; simpl; congruence. Qed.

Lemma append_length (s t : string) :
  String.length (s ++ t) = (String.length s + String.length t)%nat.
Proof. induction s; simpl; congruence. Qed.

Lemma rjust_length (w : nat) (s : string) :
  String.length (Fmt.rjust w s) = Nat.max w (String.length s).
Proof.
  unfold Fmt.rjust. rewrite append_length, repeat_char_length. lia.
Qed.

Lemma str_of_Z_nonempty (z : Z) : (1 <= String.length (Fmt.str_of_Z z))%nat.
Proof.
  unfold Fmt.str_of_Z. destruct z as [|p|p]; simpl.
  - lia.
  - unfold NilZero.string_of_uint.
    destruct (Pos.to_uint p) eqn:E; simpl; lia.
  - lia.
Qed.

Lemma str_of_Z_neg (z : Z) :
  z < 0 -> Fmt.str_of_Z z = "-" ++ Fmt.str_of_Z (Z.abs z).
Proof.
  destruct z as [|p|p]; try lia. intros _. reflexivity.
Qed.

Lemma round_half_even_scale1 (q : Q) :
  Fmt.round_half_even (Qmult q (inject_Z (Fmt.pow10 0))) = Fmt.round_half_even q.
Proof.
  unfold Fmt.round_half_even, Fmt.pow10. destruct q as [n d]. simpl.
  rewrite Z.mul_1_r, Pos.mul_1_r. reflexivity.
Qed.

Lemma round_half_even_int (z : Z) : Fmt.round_half_even (inject_Z z) = z.
Proof.
  unfold Fmt.round_half_even. simpl. rewrite Z.div_1_r, Z.mod_1_r. reflexivity.
Qed.

(** [f"{q:.0f}"] is the sign and the digits of the nearest integer. *)
Lemma format_f0 (q : Q) :
  Fmt.format_f 0 q
  = (if Qnum q <? 0 then "-" else "") ++ Fmt.str_of_Z (Z.abs (Fmt.round_half_even q)).
Proof.
  unfold Fmt.format_f. rewrite round_half_even_scale1.
  assert (Hlen := str_of_Z_nonempty (Z.abs (Fmt.round_half_even q))).
  replace (1 - String.length (Fmt.str_of_Z (Z.abs (Fmt.round_half_even q))))%nat
    with 0%nat by lia.
  reflexivity.
Qed.

Lemma format_f0_int (z : Z) : Fmt.format_f 0 (inject_Z z) = Fmt.str_of_Z z.
Proof.
  rewrite format_f0, round_half_even_int. simpl Qnum.
  destruct (z <? 0) eqn:E.
  - apply Z.ltb_lt in E. symmetry. apply str_of_Z_neg. exact E.
  - apply Z.ltb_ge in E. rewrite Z.abs_eq by exact E. reflexivity.
Qed.

Lemma format_f0_integral (q : Q) (n : Z) :
  (q == inject_Z n)%Q -> Fmt.format_f 0 q = Fmt.str_of_Z n.
Proof.
  intro Hq. rewrite format_f0.
  assert (Hn : Qnum q = n * Zpos (Qden q)).
  { unfold Qeq in Hq. simpl in Hq. lia. }
  assert (Hr : Fmt.round_half_even q = n).
  { unfold Fmt.round_half_even. cbv zeta. rewrite Hn.
    rewrite Z.div_mul, Z.mod_mul by lia. reflexivity. }
  rewrite Hr.
  destruct (Qnum q <? 0) eqn:E.
  - apply Z.ltb_lt in E. symmetry. apply str_of_Z_neg. nia.
  - apply Z.ltb_ge in E. rewrite Z.abs_eq by nia. reflexivity.
Qed.

(** *** The conversion of an int to a double *)

Lemma float_of_int_small (z : Z) : Z.abs z < 2 ^ 53 -> float_of_int z = Some z.
Proof.
  intro Hz. unfold float_of_int.
  destruct (Z.eq_dec (Z.abs z) 0) as [E|E].
  - rewrite E. reflexivity.
  - assert (Hl : Z.log2 (Z.abs z) < 53) by (apply Z.log2_lt_pow2; lia).
    apply Z.ltb_lt in Hl. rewrite Hl. reflexivity.
Qed.

(** The rounding step written with quotient and remainder. *)
Lemma float_of_int_large (z : Z) :
  53 <= Z.log2 (Z.abs z) ->
  let a := Z.abs z in
  let P := 2 ^ (Z.log2 a - 52) in
  let half := 2 ^ (Z.log2 a - 53) in
  exists q r,
    a = q * P + r /\ 0 <= r < P /\ 2 ^ 52 <= q < 2 ^ 53 /\ P = 2 * half /\ 0 < half
    /\ float_of_int z
       = (let q' := if (half <? r) || ((r =? half) && Z.odd q) then q + 1 else q in
          if q' * P <? 2 ^ 1024 then Some (Z.sgn z * (q' * P)) else None).
Proof.
  intros He a P half.
  assert (Ha : 0 < a).
  { destruct (Z.eq_dec a 0) as [E|E]; [|unfold a in *; lia].
    unfold a in E. rewrite E in He. simpl in He. lia. }
  assert (Hlog := Z.log2_spec a Ha). fold a in He.
  set (e := Z.log2 a) in *.
  assert (HP : 0 < P) by (apply Z.pow_pos_nonneg; lia).
  assert (Hhalf : 0 < half) by (apply Z.pow_pos_nonneg; lia).
  assert (HPh : P = 2 * half).
  { unfold P, half. replace (e - 52) with (Z.succ (e - 53)) by lia.
    rewrite Z.pow_succ_r by lia. reflexivity. }
  assert (HeP : 2 ^ e = 2 ^ 52 * P).
  { unfold P. rewrite <- Z.pow_add_r by lia. f_equal. lia. }
  assert (HeP' : 2 ^ Z.succ e = 2 ^ 53 * P).
  { unfold P. rewrite <- Z.pow_add_r by lia. f_equal. lia. }
  exists (a / P), (a mod P).
  assert (Hdiv := Z.div_mod a P ltac:(lia)).
  assert (Hmod := Z.mod_pos_bound a P HP).
  split; [lia|]. split; [exact Hmod|]. split.
  { split.
    - apply Z.div_le_lower_bound; lia.
    - apply Z.div_lt_upper_bound; lia. }
  split; [exact HPh|]. split; [exact Hhalf|].
  unfold float_of_int. fold a. fold e.
  assert (Hlt : (e <? 53) = false) by (apply Z.ltb_ge; lia).
  rewrite Hlt.
  rewrite Z.shiftr_div_pow2 by lia.
  rewrite Z.land_ones by lia.
  rewrite Z.shiftl_1_l.
  replace (e - 52 - 1) with (e - 53) by lia.
  fold P. fold half. cbv zeta.
  rewrite Z.shiftl_mul_pow2 by lia. fold P. reflexivity.
Qed.

Lemma float_of_int_nearest (z d : Z) :
  float_of_int z = Some d ->
  (ulp z | d)
  /\ 2 * Z.abs (d - z) <= ulp z
  /\ (2 * Z.abs (d - z) = ulp z -> Z.even (d / ulp z) = true).
Proof.
  intro Hd. unfold ulp.
  destruct (Z_lt_le_dec (Z.log2 (Z.abs z)) 53) as [Hs|Hl].
  - assert (Hz : float_of_int z = Some z).
    { unfold float_of_int. apply Z.ltb_lt in Hs. rewrite Hs. reflexivity. }
    rewrite Hz in Hd. injection Hd as <-.
    destruct (Z.max_spec 0 (Z.log2 (Z.abs z) - 52)) as [[H1 H2]|[H1 H2]].
    + rewrite H2. assert (E : Z.log2 (Z.abs z) - 52 = 0) by lia. rewrite E.
      change (2 ^ 0) with 1. split; [apply Z.divide_1_l|]. split; lia.
    + rewrite H2. change (2 ^ 0) with 1. split; [apply Z.divide_1_l|]. split; lia.
  - destruct (float_of_int_large z Hl) as [q [r [Ha [Hr [Hq [HP [Hh Hf]]]]]]].
    rewrite Z.max_r by lia.
    set (P := 2 ^ (Z.log2 (Z.abs z) - 52)) in *.
    set (half := 2 ^ (Z.log2 (Z.abs z) - 53)) in *.
    rewrite Hf in Hd. cbv zeta in Hd.
    set (q' := if (half <? r) || ((r =? half) && Z.odd q) then q + 1 else q) in *.
    destruct (q' * P <? 2 ^ 1024); [|discriminate Hd]. injection Hd as <-.
    assert (Hs1 : Z.sgn z = 1 \/ Z.sgn z = -1).
    { destruct z; simpl in *; lia. }
    assert (Hdiff : Z.sgn z * (q' * P) - z = Z.sgn z * (q' * P - Z.abs z))
      by (destruct Hs1 as [E|E]; rewrite E; lia).
    assert (Habs : Z.abs (Z.sgn z * (q' * P) - z) = Z.abs (q' * P - Z.abs z)).
    { rewrite Hdiff. destruct Hs1 as [-> | ->]; lia. }
    assert (Hquot : Z.sgn z * (q' * P) / P = Z.sgn z * q').
    { replace (Z.sgn z * (q' * P)) with (Z.sgn z * q' * P) by ring.
      apply Z.div_mul. lia. }
    split; [exists (Z.sgn z * q'); ring|].
    rewrite Habs, Hquot.
    assert (Heven : Z.even (Z.sgn z * q') = Z.even q').
    { destruct Hs1 as [-> | ->]; [rewrite Z.mul_1_l; reflexivity|].
      replace (-1 * q') with (- q') by ring. apply Z.even_opp. }
    rewrite Heven. unfold q' in *. clear q' Hquot Heven Habs Hdiff.
    destruct (half <? r) eqn:E1; cbn [orb].
    + apply Z.ltb_lt in E1. split; [lia|]. intro Ht. lia.
    + apply Z.ltb_ge in E1. destruct (r =? half) eqn:E2; cbn [andb].
      * apply Z.eqb_eq in E2. destruct (Z.odd q) eqn:E3.
        -- split; [lia|]. intros _. rewrite Z.even_add. 
           rewrite <- Z.negb_odd, E3. reflexivity.
        -- split; [lia|]. intros _. rewrite <- Z.negb_odd, E3. reflexivity.
      * apply Z.eqb_neq in E2. split; [lia|]. intro Ht. lia.
Qed.

Lemma float_of_int_overflow (z : Z) :
  float_of_int z = None <-> 2 ^ 1024 - 2 ^ 970 <= Z.abs z.
Proof.
  assert (E1024 : 2 ^ 1024 = 2 ^ 53 * 2 ^ 971) by (rewrite <- Z.pow_add_r by lia; reflexivity).
  assert (E971 : 2 ^ 971 = 2 * 2 ^ 970)
    by (change 971 with (Z.succ 970); rewrite Z.pow_succ_r by lia; reflexivity).
  assert (Hp970 : 0 < 2 ^ 970) by (apply Z.pow_pos_nonneg; lia).
  assert (Hp53 : 2 ^ 53 = 9007199254740992) by reflexivity.
  assert (Hp52 : 2 ^ 52 = 4503599627370496) by reflexivity.
  destruct (Z_lt_le_dec (Z.log2 (Z.abs z)) 53) as [Hs|Hl].
  - assert (Hz : float_of_int z = Some z).
    { unfold float_of_int. apply Z.ltb_lt in Hs. rewrite Hs. reflexivity. }
    rewrite Hz. split; [discriminate|]. intro Hbig. exfalso.
    assert (Hlog : 1023 <= Z.log2 (Z.abs z)).
    { apply Z.log2_le_pow2; [lia|].
      assert (2 ^ 1023 <= 2 ^ 1024 - 2 ^ 970); [|lia].
      assert (E : 2 ^ 1024 = 2 * 2 ^ 1023)
        by (change 1024 with (Z.succ 1023); rewrite Z.pow_succ_r by lia; reflexivity).
      assert (2 ^ 970 <= 2 ^ 1023) by (apply Z.pow_le_mono_r; lia). lia. }
    lia.
  - destruct (float_of_int_large z Hl) as [q [r [Ha [Hr [Hq [HP [Hh Hf]]]]]]].
    assert (Hpos : 0 < Z.abs z).
    { destruct (Z.eq_dec (Z.abs z) 0) as [E|E]; [rewrite E in Hl; simpl in Hl; lia|lia]. }
    assert (Hlog := Z.log2_spec _ Hpos).
    set (e := Z.log2 (Z.abs z)) in *.
    set (P := 2 ^ (e - 52)) in *. set (half := 2 ^ (e - 53)) in *.
    rewrite Hf. cbv zeta.
    set (q' := if (half <? r) || ((r =? half) && Z.odd q) then q + 1 else q).
    assert (Hq' : q <= q' <= q + 1) by (unfold q'; destruct (_ || _); lia).
    assert (HeP : 2 ^ e = 2 ^ 52 * P).
    { unfold P. rewrite <- Z.pow_add_r by lia. f_equal. lia. }
    destruct (Z.compare_spec e 1023) as [E|E|E].
    + (* the top binade *)
      assert (EP : P = 2 ^ 971) by (unfold P; rewrite E; reflexivity).
      assert (Eh : half = 2 ^ 970) by (unfold half; rewrite E; reflexivity).
      destruct (q' * P <? 2 ^ 1024) eqn:Ed.
      * apply Z.ltb_lt in Ed. split; [discriminate|]. intro Hbig. exfalso.
        rewrite EP, E1024 in Ed.
        assert (Hq53 : q' < 2 ^ 53) by nia.
        assert (Hqtop : q = 2 ^ 53 - 1) by nia.
        unfold q' in Hq53.
        assert (Hr' : half <= r) by nia.
        destruct (half <? r) eqn:E1; cbn [orb] in Hq53; [lia|].
        apply Z.ltb_ge in E1. assert (Erh : r = half) by lia.
        rewrite Erh, Z.eqb_refl in Hq53. cbn [andb] in Hq53.
        rewrite Hqtop in Hq53. change (Z.odd (2 ^ 53 - 1)) with true in Hq53. lia.
      * apply Z.ltb_ge in Ed. split; [|reflexivity]. intros _.
        rewrite EP, E1024 in Ed.
        assert (Hq53 : 2 ^ 53 <= q') by nia.
        assert (Hqtop : q = 2 ^ 53 - 1) by lia.
        assert (Hup : q' = q + 1) by lia.
        unfold q' in Hup.
        destruct (half <? r) eqn:E1; cbn [orb] in Hup.
        -- apply Z.ltb_lt in E1. nia.
        -- destruct (r =? half) eqn:E2; cbn [andb] in Hup; [|lia].
           apply Z.eqb_eq in E2. nia.
    + (* below the top binade *)
      assert (Hle : 2 ^ Z.succ e <= 2 ^ 1023) by (apply Z.pow_le_mono_r; lia).
      assert (HeP' : 2 ^ Z.succ e = 2 ^ 53 * P).
      { unfold P. rewrite <- Z.pow_add_r by lia. f_equal. lia. }
      assert (E1023 : 2 ^ 1024 = 2 * 2 ^ 1023)
        by (change 1024 with (Z.succ 1023); rewrite Z.pow_succ_r by lia; reflexivity).
      assert (H970 : 2 ^ 970 <= 2 ^ 1023) by (apply Z.pow_le_mono_r; lia).
      assert (Hd : q' * P < 2 ^ 1024) by nia.
      apply Z.ltb_lt in Hd. rewrite Hd. split; [discriminate|].
      intro Hbig. exfalso. lia.
    + (* beyond the doubles *)
      assert (Hge : 2 ^ 1024 <= 2 ^ e) by (apply Z.pow_le_mono_r; lia).
      assert (Hd : 2 ^ 1024 <= q' * P) by nia.
      apply Z.ltb_ge in Hd. rewrite Hd. split; [|reflexivity]. intros _. lia.
Qed.

(** C9, as the claim states it, fails: the float 2.5 is printed as the
    integer 2 (and 3.7 as 4), exactly like the int 2; the fractional part
    does not survive.  Nor is an integral value always printed with its
    own digits: the int 2^53 + 1 is printed as 2^53. *)
Lemma value_str_drops_fraction :
  value_str (PyFloat (5 # 2)) = Some "       2"
  /\ value_str (PyFloat (5 # 2)) = value_str (PyInt 2)
  /\ value_str (PyFloat (37 # 10)) = Some "       4"
  /\ value_str (PyInt 9007199254740993) = Some "9007199254740992".
Proof. repeat split; reflexivity. Qed.

(** C9, amended. The value of a line is right-aligned to a width of at
    least 8.  A Python int of magnitude up to 2^53 prints as its digits;
    a larger one prints as the digits of the nearest double (a multiple
    of the spacing of the doubles around it, at most half a spacing away,
    the even multiple on a tie), and from 2^1024 - 2^970 on the
    conversion raises and nothing is printed.  A Python float prints with
    no decimals, as the nearest integer (ties to even) with the sign of
    the float, so an integral float prints as its digits; a value of
    another numeric type prints as given.  The text takes the value
    field of the line. *)
Theorem value_str_format `{Runtime} (v : number) :
  (forall s, value_str v = Some s -> (8 <= String.length s)%nat)
  /\ match v with
     | PyInt z =>
         (Z.abs z <= 2 ^ 53 -> value_str v = Some (Fmt.rjust 8 (Fmt.str_of_Z z)))
         /\ (value_str v = None <-> 2 ^ 1024 - 2 ^ 970 <= Z.abs z)
         /\ (forall s, value_str v = Some s ->
               exists d,
                 s = Fmt.rjust 8 (Fmt.str_of_Z d)
                 /\ (ulp z | d)
                 /\ 2 * Z.abs (d - z) <= ulp z
                 /\ (2 * Z.abs (d - z) = ulp z -> Z.even (d / ulp z) = true))
     | PyFloat q =>
         value_str v
         = Some (Fmt.rjust 8
                   ((if Qnum q <? 0 then "-" else "")
                      ++ Fmt.str_of_Z (Z.abs (Fmt.round_half_even q))))
         /\ (forall n : Z, (q == inject_Z n)%Q ->
               value_str v = Some (Fmt.rjust 8 (Fmt.str_of_Z n)))
     | NpInt z => value_str v = Some (Fmt.rjust 8 (Fmt.str_of_Z z))
     end
  /\ (forall (w : nat) (mx : Q) (label : scalar) (s : string),
        value_str v = Some s ->
        chart_line w mx (label, v)
        = label_str w label ++ " | " ++ Fmt.ljust 40 (bar (num_Q v) mx) ++ " | " ++ s
            ++ " (" ++ Fmt.rjust 5 (Fmt.format_f 1 (percentage (num_Q v) mx)) ++ "%)").
Proof.
  split; [|split].
  - intros s Hs. destruct v as [z|q|z]; cbn [value_str] in Hs.
    + destruct (float_of_int z); cbn [option_map] in Hs; [|discriminate Hs].
      injection Hs as <-. rewrite rjust_length. apply Nat.le_max_l.
    + injection Hs as <-. rewrite rjust_length. apply Nat.le_max_l.
    + injection Hs as <-. rewrite rjust_length. apply Nat.le_max_l.
  - destruct v as [z|q|z]; cbn [value_str].
    + split; [|split].
      * intro Hz. assert (Hf : float_of_int z = Some z).
        { destruct (Z.eq_dec (Z.abs z) (2 ^ 53)) as [E|E].
          - destruct (Z.abs_eq_or_opp z) as [Ez|Ez]; rewrite Ez in E.
            + rewrite E. reflexivity.
            + assert (Ez' : z = - 2 ^ 53) by lia. rewrite Ez'. reflexivity.
          - apply float_of_int_small. lia. }
        rewrite Hf. cbn [option_map]. rewrite format_f0_int. reflexivity.
      * rewrite <- float_of_int_overflow.
        destruct (float_of_int z); cbn [option_map]; split; congruence.
      * intros s Hs. destruct (float_of_int z) as [d|] eqn:Ed; [|discriminate Hs].
        cbn [option_map] in Hs. rewrite format_f0_int in Hs.
        injection Hs as <-. exists d. split; [reflexivity|].
        apply float_of_int_nearest. exact Ed.
    + split.
      * rewrite format_f0. reflexivity.
      * intros n Hn. rewrite (format_f0_integral q n Hn). reflexivity.
    + reflexivity.
  - intros w mx label s Hs. unfold chart_line. cbn [fst snd]. rewrite Hs. reflexivity.
Qed.

Lemma value_str_format_witness :
  value_str (PyInt 150) = Some "     150"
  /\ value_str (PyFloat (6 # 2)) = Some "       3"
  /\ value_str (PyInt (2 ^ 1024)) = None.
Proof.
  destruct (@value_str_format model_runtime (PyInt 150)) as [_ [[H1 _] _]].
  destruct (@value_str_format model_runtime (PyFloat (6 # 2))) as [_ [[_ H2] _]].
  destruct (@value_str_format model_runtime (PyInt (2 ^ 1024))) as [_ [[_ [H3 _]] _]].
  split; [|split].
  - rewrite H1 by (vm_compute; discriminate). reflexivity.
  - rewrite (H2 3) by reflexivity. reflexivity.
  - apply H3. vm_compute. discriminate.
Defined.

(** ** Per-column rows of the summary *)

Lemma numeric_rows_cases (col : Series) :
  numeric_rows col = if has_values col then stat_rows col else [].
Proof.
  unfold numeric_rows, has_values, stat_rows, numbers_of.
  rewrite length_map. reflexivity.
Qed.

Lemma numeric_rows_filter (cols : list Series) :
  flat_map numeric_rows cols = flat_map stat_rows (filter has_values cols).
Proof.
  induction cols as [|c cols IH]; [reflexivity|].
  simpl. rewrite numeric_rows_cases, IH.
  destruct (has_values c); reflexivity.
Qed.

(** C10. In the summary of a non-empty frame, the "Numeric Columns" row
    counts every numeric column; the five slots are the first five numeric
    columns in declaration order, whether or not they hold a value; and
    of those five exactly the columns with a non-null value contribute
    their "(avg)" and "(min-max)" rows, the others contribute nothing. *)
Theorem summary_numeric_rows `{Runtime} (df : DataFrame) (title : string) :
  df_empty df = false ->
  table_rows (create_summary_stats df title)
  = (basic_rows df
     ++ match select_dtypes is_number df with
        | [] => []
        | numeric_cols =>
            ["[bold]Numeric Columns[/bold]"; Fmt.str_of_Z (Z.of_nat (length numeric_cols))]
              :: flat_map stat_rows (filter has_values (firstn 5 numeric_cols))
        end
     ++ string_section df)%list
  /\ (forall col, has_values col = false -> numeric_rows col = [])
  /\ (forall col, has_values col = true -> numeric_rows col = stat_rows col).
Proof.
  intro Hne. split; [|split].
  - unfold create_summary_stats. rewrite Hne. unfold table_rows. simpl.
    unfold summary_rows. f_equal. f_equal.
    unfold numeric_section.
    destruct (select_dtypes is_number df) as [|c cs] eqn:E; [reflexivity|].
    change (0 <? length (c :: cs))%nat with true. cbv iota.
    rewrite numeric_rows_filter. reflexivity.
  - intros col Hv. rewrite numeric_rows_cases, Hv. reflexivity.
  - intros col Hv. rewrite numeric_rows_cases, Hv. reflexivity.
Qed.

Lemma summary_numeric_rows_witness :
  map (fun row => hd "" row)
      (table_rows (@create_summary_stats model_runtime six_numeric "Summary Statistics"))
  = [ "Total Records"; "Columns"; "Memory Usage"; "[bold]Numeric Columns[/bold]";
      "  n2 (avg)"; "  n2 (min-max)"; "  n3 (avg)"; "  n3 (min-max)";
      "  n4 (avg)"; "  n4 (min-max)"; "  n5 (avg)"; "  n5 (min-max)" ]
  /\ In ["[bold]Numeric Columns[/bold]"; "6"]
        (table_rows (@create_summary_stats model_runtime six_numeric "Summary Statistics")).
Proof.
  destruct (@summary_numeric_rows model_runtime six_numeric "Summary Statistics" eq_refl)
    as [Hrows _].
  rewrite Hrows. split.
  - reflexivity.
  - simpl. auto.
Defined.

(** ** Stable descending sort *)

Section StableSortFacts.
Context {A : Type} (key : A -> Q).

Lemma insert_desc_perm (x : A) (l : list A) :
  Permutation (insert_desc key x l) (x :: l).
Proof.
  induction l as [|y r IH]; simpl; [reflexivity|].
  destruct (Qle_bool (key y) (key x)); [reflexivity|].
  rewrite IH. apply perm_swap.
Qed.

Lemma sorted_desc_perm (l : list A) : Permutation (sorted_desc key l) l.
Proof.
  induction l as [|x r IH]; simpl; [reflexivity|].
  rewrite insert_desc_perm. constructor. exact IH.
Qed.

Lemma insert_desc_sorted (x : A) (l : list A) :
  StronglySorted (desc key) l -> StronglySorted (desc key) (insert_desc key x l).
Proof.
  induction 1 as [|y r Hr IH Hy]; simpl.
  - constructor; constructor.
  - destruct (Qle_bool (key y) (key x)) eqn:E.
    + apply Qle_bool_iff in E. constructor.
      * constructor; assumption.
      * constructor; [exact E|].
        eapply Forall_impl; [|exact Hy].
        intros z Hz. unfold desc in *. eapply Qle_trans; eassumption.
    + assert (Hxy : (key x <= key y)%Q).
      { destruct (Qlt_le_dec (key x) (key y)) as [Hlt|Hle].
        - apply Qlt_le_weak. exact Hlt.
        - apply Qle_bool_iff in Hle. congruence. }
      constructor; [exact IH|].
      apply (Permutation_Forall (Permutation_sym (insert_desc_perm x r))).
      constructor; assumption.
Qed.

Lemma sorted_desc_sorted (l : list A) : StronglySorted (desc key) (sorted_desc key l).
Proof.
  induction l as [|x r IH]; simpl; [constructor|].
  apply insert_desc_sorted. exact IH.
Qed.



End StableSortFacts.

(** ** Dicts *)

Lemma Qeq_bool_sym (a b : Q) : Qeq_bool a b = Qeq_bool b a.
Proof.
  destruct (Qeq_bool a b) eqn:E1; destruct (Qeq_bool b a) eqn:E2; try reflexivity.
  - apply Qeq_bool_iff in E1. apply Qeq_sym in E1. apply Qeq_bool_iff in E1. congruence.
  - apply Qeq_bool_iff in E2. apply Qeq_sym in E2. apply Qeq_bool_iff in E2. congruence.
Qed.

Lemma scalar_eqb_sym (a b : scalar) : scalar_eqb a b = scalar_eqb b a.
Proof.
  destruct a, b; simpl; try reflexivity.
  - apply Z.eqb_sym.
  - apply Qeq_bool_sym.
  - apply String.eqb_sym.
  - apply Z.eqb_sym.
Qed.

Lemma key_in_app (k : scalar) (d e : Dict) :
  key_in k (d ++ e)%list = key_in k d || key_in k e.
Proof.
  induction d as [|[k' v'] r IH]; simpl; [reflexivity|].
  rewrite IH. apply orb_assoc.
Qed.

Lemma dict_set_fresh (d : Dict) (k : scalar) (v : number) :
  key_in k d = false -> dict_set d k v = (d ++ [(k, v)])%list.
Proof.
  induction d as [|[k' v'] r IH]; simpl; [reflexivity|].
  intro Hk. apply orb_false_iff in Hk as [Hk' Hr].
  rewrite Hk', IH by exact Hr. reflexivity.
Qed.

Lemma dict_wf_app (d e : Dict) :
  dict_wf (d ++ e)%list = true ->
  dict_wf d = true /\ dict_wf e = true
  /\ forall k v, In (k, v) e -> key_in k d = false.
Proof.
  induction d as [|[k v] r IH]; simpl.
  - intro He. repeat split; auto.
  - intro Hw. apply andb_true_iff in Hw as [Hk Hr].
    rewrite key_in_app in Hk. apply negb_true_iff, orb_false_iff in Hk as [Hkr Hke].
    destruct (IH Hr) as [Hwr [Hwe Hfresh]].
    split; [rewrite Hkr, Hwr; reflexivity|]. split; [exact Hwe|].
    intros k' v' Hin. rewrite (Hfresh _ _ Hin), orb_false_r.
    clear - Hke Hin. induction e as [|[k2 v2] e IHe]; [contradiction|].
    simpl in Hke. apply orb_false_iff in Hke as [H1 H2].
    destruct Hin as [Heq|Hin].
    + inversion Heq; subst. rewrite scalar_eqb_sym. exact H1.
    + apply IHe; assumption.
Qed.

(** A list of items without repeated keys is its own dict. *)
Lemma dict_of_items_wf (items : Dict) :
  dict_wf items = true -> dict_of_items items = items.
Proof.
  unfold dict_of_items.
  assert (G : forall l acc, dict_wf (acc ++ l)%list = true ->
            fold_left (fun d kv => dict_set d (fst kv) (snd kv)) l acc = (acc ++ l)%list).
  { induction l as [|[k v] l IH]; intros acc Hw; simpl.
    - rewrite app_nil_r. reflexivity.
    - destruct (dict_wf_app _ _ Hw) as [_ [_ Hfresh]].
      rewrite dict_set_fresh by (apply (Hfresh k v); left; reflexivity).
      rewrite IH; rewrite <- app_assoc; [reflexivity|exact Hw]. }
  intro Hw. apply (G items []). exact Hw.
Qed.

Lemma key_in_insert_desc (key : scalar * number -> Q) (k : scalar)
    (x : scalar * number) (l : Dict) :
  key_in k (insert_desc key x l) = key_in k (x :: l).
Proof.
  induction l as [|y r IH]; [reflexivity|].
  simpl insert_desc. destruct (Qle_bool (key y) (key x)); [reflexivity|].
  destruct x as [kx vx], y as [ky vy]. simpl in *. rewrite IH.
  rewrite !orb_assoc. f_equal. apply orb_comm.
Qed.

Lemma dict_wf_insert_desc (key : scalar * number -> Q) (x : scalar * number) (l : Dict) :
  dict_wf (x :: l) = true -> dict_wf (insert_desc key x l) = true.
Proof.
  induction l as [|y r IH]; [auto|].
  intro Hw. simpl insert_desc. destruct (Qle_bool (key y) (key x)); [exact Hw|].
  destruct x as [kx vx], y as [ky vy]. simpl in Hw.
  apply andb_true_iff in Hw as [Hx Hyr].
  apply negb_true_iff, orb_false_iff in Hx as [Hxy Hxr].
  apply andb_true_iff in Hyr as [Hy Hr].
  change (dict_wf ((ky, vy) :: insert_desc key (kx, vx) r) = true).
  simpl. rewrite key_in_insert_desc. simpl.
  rewrite scalar_eqb_sym, Hxy. simpl. rewrite Hy. simpl.
  apply IH. simpl. rewrite Hxr, Hr. reflexivity.
Qed.

Lemma dict_wf_sorted_desc (key : scalar * number -> Q) (d : Dict) :
  dict_wf d = true -> dict_wf (sorted_desc key d) = true.
Proof.
  induction d as [|[k v] r IH]; [auto|].
  intro Hw. simpl sorted_desc. apply dict_wf_insert_desc.
  simpl in *. apply andb_true_iff in Hw as [Hk Hr].
  rewrite (IH Hr), andb_true_r.
  assert (G : forall l, key_in k (sorted_desc key l) = key_in k l).
  { induction l as [|y l IHl]; [reflexivity|].
    simpl sorted_desc. rewrite key_in_insert_desc.
    destruct y as [ky vy]. simpl. rewrite IHl. reflexivity. }
  rewrite G. exact Hk.
Qed.

Lemma key_in_firstn (k : scalar) (n : nat) (d : Dict) :
  key_in k d = false -> key_in k (firstn n d) = false.
Proof.
  revert n. induction d as [|[k' v'] r IH]; intros [|n] Hk; simpl; auto.
  simpl in Hk. apply orb_false_iff in Hk as [H1 H2].
  rewrite H1, (IH n H2). reflexivity.
Qed.

Lemma dict_wf_firstn (n : nat) (d : Dict) :
  dict_wf d = true -> dict_wf (firstn n d) = true.
Proof.
  revert n. induction d as [|[k v] r IH]; intros [|n] Hw; simpl; auto.
  simpl in Hw. apply andb_true_iff in Hw as [Hk Hr].
  apply negb_true_iff in Hk.
  rewrite (key_in_firstn _ n _ Hk), (IH n Hr). reflexivity.
Qed.

Lemma slice_to_firstn {A : Type} (k : Z) (l : list A) :
  exists n, slice_to k l = firstn n l /\ (0 <= k -> n = Z.to_nat k).
Proof.
  unfold slice_to. destruct (0 <=? k) eqn:E.
  - exists (Z.to_nat k). auto.
  - apply Z.leb_gt in E. eexists. split; [reflexivity|lia].
Qed.

Lemma in_firstn {A : Type} (x : A) (n : nat) (l : list A) :
  In x (firstn n l) -> In x l.
Proof.
  revert l. induction n as [|n IH]; intros [|y l]; simpl; try tauto.
  intros [->|Hin]; [left; reflexivity|right; apply IH; exact Hin].
Qed.

Lemma sorted_data_firstn (d : Dict) (max_bars : Z) :
  dict_wf d = true ->
  exists n, sorted_data d max_bars
              = firstn n (sorted_desc (fun kv => num_Q (snd kv)) d)
            /\ (0 <= max_bars -> n = Z.to_nat max_bars).
Proof.
  intro Hwf. unfold sorted_data.
  destruct (slice_to_firstn max_bars (sorted_desc (fun kv => num_Q (snd kv)) d))
    as [n [Hn Hk]].
  exists n. split; [|exact Hk]. rewrite Hn.
  apply dict_of_items_wf, dict_wf_firstn, dict_wf_sorted_desc. exact Hwf.
Qed.

(** ** Bar chart bounds *)










(** ** Correlation matrix *)

Lemma Qmult_comm_eq (a b : Q) : Qmult a b = Qmult b a.
Proof.
  unfold Qmult. rewrite (Z.mul_comm (Qnum a)), (Pos.mul_comm (Qden a)). reflexivity.
Qed.

Lemma combine_swap {A B : Type} (xs : list A) (ys : list B) :
  combine ys xs = map (fun p => (snd p, fst p)) (combine xs ys).
Proof.
  revert ys. induction xs as [|x xs IH]; intros [|y ys]; simpl; try reflexivity.
  rewrite IH. reflexivity.
Qed.

Lemma paired_swap (a b : Series) : paired b a = map swap (paired a b).
Proof.
  unfold paired. rewrite (combine_swap (s_values a) (s_values b)).
  induction (combine (s_values a) (s_values b)) as [|[u v] r IH]; [reflexivity|].
  simpl. rewrite (andb_comm (negb (is_null v))).
  destruct (negb (is_null u) && negb (is_null v)); simpl; rewrite IH; reflexivity.
Qed.

Lemma sum_dev_comm (xs ys : list Q) : sum_dev ys xs = sum_dev xs ys.
Proof.
  unfold sum_dev. rewrite (combine_swap xs ys), map_map. f_equal.
  apply map_ext. intros [u v]. simpl. apply Qmult_comm_eq.
Qed.

Lemma pearson_sym `{Runtime} (a b : Series) : pearson a b = pearson b a.
Proof.
  unfold pearson. rewrite (paired_swap a b).
  assert (Hf : map fst (map swap (paired a b)) = map snd (paired a b))
    by (rewrite map_map; reflexivity).
  assert (Hs : map snd (map swap (paired a b)) = map fst (paired a b))
    by (rewrite map_map; reflexivity).
  rewrite Hf, Hs.
  rewrite (Qmult_comm_eq (sum_dev (map snd (paired a b)) (map snd (paired a b)))).
  rewrite (sum_dev_comm (map fst (paired a b)) (map snd (paired a b))).
  destruct (paired a b); reflexivity.
Qed.

Lemma nth_map_error {A B : Type} (f : A -> B) (l : list A) (i : nat) (d : B) :
  nth i (map f l) d = match nth_error l i with Some a => f a | None => d end.
Proof.
  revert i. induction l as [|x l IH]; intros [|i]; simpl; auto.
Qed.

Lemma entry_corr `{Runtime} (cols : list Series) (i j : nat) :
  entry (corr cols) i j
  = match nth_error cols i, nth_error cols j with
    | Some a, Some b => pearson a b
    | _, _ => None
    end.
Proof.
  unfold entry, corr. rewrite nth_map_error.
  destruct (nth_error cols i) as [a|].
  - rewrite nth_map_error. destruct (nth_error cols j); reflexivity.
  - destruct j; reflexivity.
Qed.

Lemma combine_self {A : Type} (l : list A) : combine l l = map (fun x => (x, x)) l.
Proof. induction l; simpl; congruence. Qed.

Lemma paired_self (a : Series) :
  paired a a = map (fun q => (q, q)) (numbers_of (dropna a)).
Proof.
  unfold paired, numbers_of, dropna. simpl. rewrite combine_self.
  induction (s_values a) as [|v r IH]; [reflexivity|].
  simpl. rewrite andb_diag. destruct (negb (is_null v)); simpl; rewrite IH; reflexivity.
Qed.

Lemma Qsquare_nonneg (a : Q) : (0 <= a * a)%Q.
Proof.
  unfold Qle, Qmult. simpl. rewrite Z.mul_1_r. apply Z.square_nonneg.
Qed.

Lemma Qsum_nonneg (l : list Q) : Forall (fun q => (0 <= q)%Q) l -> (0 <= Qsum l)%Q.
Proof.
  induction 1 as [|q r Hq Hr IH]; simpl; [apply Qle_refl|].
  setoid_replace 0%Q with (0 + 0)%Q by ring. apply Qplus_le_compat; assumption.
Qed.

Lemma sum_dev_self_nonneg (xs : list Q) : (0 <= sum_dev xs xs)%Q.
Proof.
  unfold sum_dev. rewrite combine_self, map_map. apply Qsum_nonneg.
  apply Forall_forall. intros q Hin. apply in_map_iff in Hin as [x [<- _]].
  simpl. apply Qsquare_nonneg.
Qed.

Lemma clip_one (r : Q) : (r == 1)%Q -> (clip r == 1)%Q.
Proof.
  intro Hr. unfold clip.
  assert (H1 : Qlt_b 1 r = false) by (apply Qlt_b_false; rewrite Hr; apply Qle_refl).
  assert (H2 : Qlt_b r (-1) = false) by (apply Qlt_b_false; rewrite Hr; discriminate).
  rewrite H1, H2. exact Hr.
Qed.

(** A column with non-zero variance correlates with itself at 1. *)
Lemma pearson_self `{Runtime} (a : Series) :
  sqrt_exact ->
  ~ (variance (numbers_of (dropna a)) == 0)%Q ->
  exists r, pearson a a = Some r /\ (r == 1)%Q.
Proof.
  intros Hsqrt Hvar. unfold pearson. rewrite paired_self.
  set (xs := numbers_of (dropna a)) in *.
  assert (Hf : map fst (map (fun q : Q => (q, q)) xs) = xs)
    by (rewrite map_map; apply map_id).
  assert (Hs : map snd (map (fun q : Q => (q, q)) xs) = xs)
    by (rewrite map_map; apply map_id).
  rewrite Hf, Hs.
  set (ss := sum_dev xs xs) in *.
  assert (Hss : ~ (ss == 0)%Q).
  { intro E. apply Hvar. unfold variance. fold ss. rewrite E.
    unfold Qdiv. apply Qmult_0_l. }
  assert (Hpos : (0 < ss)%Q).
  { destruct (Qlt_le_dec 0 ss) as [Hlt|Hle]; [exact Hlt|].
    exfalso. apply Hss. apply Qle_antisym; [exact Hle|].
    apply sum_dev_self_nonneg. }
  assert (Hdiv := Hsqrt ss Hpos).
  destruct (map (fun q : Q => (q, q)) xs) as [|p ps] eqn:Eps.
  - exfalso. apply Hss. destruct xs; [reflexivity|discriminate].
  - destruct (Qeq_bool (fsqrt (ss * ss)) 0) eqn:Ez.
    + exfalso. apply Qeq_bool_iff in Ez. apply Hss. rewrite <- Hdiv. exact Ez.
    + eexists. split; [reflexivity|]. apply clip_one.
      rewrite Hdiv. field. exact Hss.
Qed.

(** C6. For a non-empty frame with at least two numeric columns, the
    correlation panel shows the matrix [corr] of the numeric columns; that
    matrix is symmetric; and, provided the square root is exact on
    squares, the diagonal entry of every column of non-zero variance
    equals 1. *)
Theorem correlation_symmetric_unit_diagonal `{Runtime} (df : DataFrame) (title : string) :
  df_empty df = false ->
  (2 <= length (select_dtypes is_number df))%nat ->
  let cols := select_dtypes is_number df in
  let M := corr cols in
  table_rows (create_correlation_matrix df title)
    = map (fun rc => Fmt.str_take 15 (s_name (fst rc)) :: map corr_cell (snd rc))
          (combine cols M)
  /\ (forall i j, entry M i j = entry M j i)
  /\ (sqrt_exact ->
      forall i col,
        nth_error cols i = Some col ->
        ~ (variance (numbers_of (dropna col)) == 0)%Q ->
        exists r, entry M i i = Some r /\ (r == 1)%Q).
Proof.
  intros Hne Hlen cols M. split; [|split].
  - unfold create_correlation_matrix. fold cols.
    assert (Hnd : df_empty (mkDataFrame cols (index_len df)) = false).
    { unfold df_empty in *. simpl. apply orb_false_iff in Hne as [_ Hrows].
      rewrite Hrows, orb_false_r. apply Nat.eqb_neq.
      unfold cols. lia. }
    rewrite Hnd. simpl orb.
    assert (Hlt : (length cols <? 2)%nat = false) by (apply Nat.ltb_ge; exact Hlen).
    rewrite Hlt. reflexivity.
  - intros i j. unfold M. rewrite !entry_corr.
    destruct (nth_error cols i) as [a|]; destruct (nth_error cols j) as [b|];
      try reflexivity.
    apply pearson_sym.
  - intros Hsqrt i col Hi Hvar. unfold M. rewrite entry_corr, Hi.
    apply pearson_self; assumption.
Qed.

Lemma model_sqrt_exact : @sqrt_exact model_runtime.
Proof.
  intros [n d] Hpos. unfold Qlt in Hpos. simpl in Hpos. rewrite Z.mul_1_r in Hpos.
  unfold fsqrt, model_runtime, model_sqrt.
  set (s := 2 ^ 53).
  assert (Hs : 0 < s) by (apply Z.pow_pos_nonneg; lia).
  cbn [Qmult Qnum Qden].
  replace (n * n * Zpos (d * d) * (s * s)) with ((n * Zpos d * s) * (n * Zpos d * s))
    by (rewrite Pos2Z.inj_mul; ring).
  rewrite Z.sqrt_square by nia.
  unfold Qeq. cbn [Qnum Qden].
  rewrite !Pos2Z.inj_mul, Z2Pos.id by exact Hs. ring.
Qed.

Lemma correlation_symmetric_unit_diagonal_witness :
  entry (@corr model_runtime [Sample.sales; Sample.profit]) 0 1
    = entry (@corr model_runtime [Sample.sales; Sample.profit]) 1 0
  /\ exists r, entry (@corr model_runtime [Sample.sales; Sample.profit]) 0 0 = Some r
               /\ (r == 1)%Q.
Proof.
  assert (Hne : df_empty Sample.shop = false) by reflexivity.
  assert (Hlen : (2 <= length (select_dtypes is_number Sample.shop))%nat) by (simpl; lia).
  destruct (@correlation_symmetric_unit_diagonal model_runtime Sample.shop
              "Correlation Matrix" Hne Hlen) as [_ [Hsym Hdiag]].
  split; [exact (Hsym 0%nat 1%nat)|].
  apply (Hdiag model_sqrt_exact 0%nat Sample.sales eq_refl).
  vm_compute. discriminate.
Defined.

(** ** Histogram bins *)










Section Edges.
Variables (first last : Q) (bins : nat).
Hypothesis Hrange : (first < last)%Q.
Hypothesis Hbins : (1 <= bins)%nat.

Local Abbreviation edge := (bin_edge first last bins).









End Edges.





Lemma dict_set_keys (d : Dict) (k : scalar) (v : number) (k' : scalar) :
  In k' (map fst (dict_set d k v)) -> In k' (map fst d) \/ k' = k.
Proof.
  induction d as [|[k0 v0] r IH]; simpl.
  - intros [<-|[]]. right. reflexivity.
  - destruct (scalar_eqb k0 k); simpl.
    + intros [<-|Hin]; auto.
    + intros [<-|Hin]; auto. destruct (IH Hin); auto.
Qed.


(** Every key written by the loop is the label of one of the bins. *)
Lemma fill_hist_keys (hist : list Z) (edges : list Q) (acc : Dict) (k : scalar) :
  In k (map fst (fill_hist hist edges acc)) ->
  In k (map fst acc)
  \/ exists iv, In iv (intervals edges)
                /\ k = SStr (bin_label (fst (fst iv)) (snd (fst iv))).
Proof.
  revert edges acc. induction hist as [|h hs IH]; intros edges acc; simpl; [auto|].
  destruct edges as [|lo [|hi rest]]; auto.
  intro Hin. apply IH in Hin as [Hin|[iv [Hiv Hk]]].
  - apply dict_set_keys in Hin as [Hin | ->]; [left; exact Hin|].
    right. eexists. split; [left; reflexivity|reflexivity].
  - right. exists iv. split; [right; exact Hiv|exact Hk].
Qed.




(** ** Dicts as lookup tables *)













(** ** Dicts stay dicts *)





(** ** The mapping charted *)





(** ** The frequency count *)












(** ** More on the bar chart *)

Lemma substring_take_length (n : nat) (s : string) :
  String.length (substring 0 n s) = Nat.min n (String.length s).
Proof.
  revert s. induction n as [|n IH]; intros [|c s]; simpl; auto.
Qed.


Lemma substring_take_append (a b : string) :
  substring 0 (String.length a) (a ++ b) = a.
Proof.
  induction a as [|c a IH]; simpl; [destruct b; reflexivity|]. rewrite IH. reflexivity.
Qed.

Lemma append_assoc (a b c : string) : (a ++ b) ++ c = a ++ (b ++ c).
Proof. induction a; simpl; congruence. Qed.





Lemma trunc_of_int (q : Q) (z : Z) : (q == inject_Z z)%Q -> Fmt.trunc q = z.
Proof.
  destruct q as [n d]. unfold Qeq, Fmt.trunc. simpl. intro E.
  rewrite Z.mul_1_r in E. rewrite E. apply Z.quot_mul. lia.
Qed.

Lemma round_half_even_of_int (q : Q) (z : Z) :
  (q == inject_Z z)%Q -> Fmt.round_half_even q = z.
Proof.
  destruct q as [n d]. unfold Qeq, Fmt.round_half_even. simpl. intro E.
  rewrite Z.mul_1_r in E. rewrite E.
  rewrite Z.div_mul, Z.mod_mul by lia. reflexivity.
Qed.

Lemma format_f1_hundred (q : Q) : (q == 100)%Q -> Fmt.format_f 1 q = "100.0".
Proof.
  intro E. unfold Fmt.format_f.
  rewrite (round_half_even_of_int _ 1000)
    by (rewrite E; reflexivity).
  assert (Hs : (Qnum q <? 0) = false).
  { apply Z.ltb_ge. destruct q as [n d]. unfold Qeq in E. simpl in *. lia. }
  rewrite Hs. reflexivity.
Qed.

Lemma Qmax_list_head (r : list Q) (q : Q) :
  Forall (fun x => (x <= q)%Q) r -> Qmax_list r q = q.
Proof.
  induction 1 as [|x r Hx Hr IH]; simpl; [reflexivity|].
  apply Qle_bool_iff in Hx. rewrite Hx. exact IH.
Qed.

Lemma Qpos_b_true (q : Q) : Qpos_b q = true <-> (0 < q)%Q.
Proof.
  unfold Qpos_b, Qlt. simpl. rewrite Z.ltb_lt. lia.
Qed.

(** X2. The first line of the chart is an entry of greatest value of the
    whole mapping, and [max_value] is its value; when that value is
    positive its bar is the full 40 characters and its percentage reads
    "100.0". *)
Theorem bar_chart_top_entry `{Runtime} (d : Dict) (max_bars : Z) :
  dict_wf d = true -> d <> [] -> 1 <= max_bars ->
  let value := fun kv : scalar * number => num_Q (snd kv) in
  let sd := sorted_data d max_bars in
  exists top rest,
    sd = top :: rest
    /\ In top d
    /\ (forall kv, In kv d -> (value kv <= value top)%Q)
    /\ max_value sd = value top
    /\ ((0 < value top)%Q ->
        bar (value top) (max_value sd) = Fmt.repeat_char "#" 40
        /\ Fmt.rjust 5 (Fmt.format_f 1 (percentage (value top) (max_value sd)))
           = "100.0").
Proof.
  intros Hwf Hne Hmb value sd.
  destruct (sorted_data_firstn d max_bars Hwf) as [n [Hsd Hn]].
  fold value in Hsd. fold sd in Hsd.
  assert (Hn1 : n = Z.to_nat max_bars) by (apply Hn; lia).
  assert (Hperm := sorted_desc_perm value d).
  assert (Hsorted := sorted_desc_sorted value d).
  destruct (sorted_desc value d) as [|top srest] eqn:Es.
  { apply Permutation_nil in Hperm. contradiction. }
  destruct n as [|n']; [lia|]. simpl in Hsd.
  inversion Hsorted as [|? ? Hs' Hall]; subst.
  exists top, (firstn n' srest). split; [exact Hsd|].
  assert (Hmax : max_value sd = value top).
  { rewrite Hsd. unfold max_value. simpl map. apply Qmax_list_head.
    apply Forall_forall. intros x Hx. apply in_map_iff in Hx as [kv [<- Hkv]].
    apply in_firstn in Hkv.
    rewrite Forall_forall in Hall. apply (Hall kv Hkv). }
  split; [apply (Permutation_in _ Hperm); left; reflexivity|].
  split.
  { intros kv Hkv. apply (Permutation_in _ (Permutation_sym Hperm)) in Hkv.
    destruct Hkv as [<-|Hkv]; [apply Qle_refl|].
    rewrite Forall_forall in Hall. apply (Hall kv Hkv). }
  split; [exact Hmax|].
  intro Hpos. rewrite Hmax.
  assert (Hp : Qpos_b (value top) = true) by (apply Qpos_b_true; exact Hpos).
  assert (Hnz : ~ (value top == 0)%Q).
  { intro E. rewrite E in Hpos. discriminate Hpos. }
  split.
  - unfold bar, bar_width. rewrite Hp.
    rewrite (trunc_of_int _ 40); [reflexivity|].
    change (inject_Z 40) with 40%Q. field. exact Hnz.
  - unfold percentage. rewrite Hp.
    rewrite format_f1_hundred; [reflexivity|].
    change (inject_Z 100) with 100%Q. field. exact Hnz.
Qed.

Lemma bar_chart_top_entry_witness :
  exists top rest,
    sorted_data chart_sample 20 = top :: rest
    /\ num_Q (snd top) = inject_Z 190
    /\ bar (num_Q (snd top)) (max_value (sorted_data chart_sample 20))
       = Fmt.repeat_char "#" 40.
Proof.
  assert (Hne : chart_sample <> []) by discriminate.
  assert (Hmb : 1 <= 20) by lia.
  destruct (@bar_chart_top_entry model_runtime chart_sample 20 eq_refl Hne Hmb)
    as [top [rest [Hsd [_ [_ [_ Hfull]]]]]].
  exists top, rest. split; [exact Hsd|].
  change (sorted_data chart_sample 20)
    with [ (SStr "A", PyInt 190); (SStr "B", PyInt 150); (SStr "D", PyInt 150);
           (SStr "CC", PyFloat (5 # 2)) ] in Hsd.
  injection Hsd as Htop _. subst top. split; [reflexivity|].
  apply Hfull. reflexivity.
Defined.



(** X4. An empty mapping gives the "No data for chart" panel; a non-empty
    mapping charted with [max_bars = 0] gives a chart panel with no line
    at all, not that panel. *)
Theorem bar_chart_no_lines `{Runtime} (d : Dict) (title : string) :
  create_bar_chart (OfDict []) title 20
    = text_panel "[red]No data for chart[/red]" (Some title)
  /\ (d <> [] ->
      create_bar_chart (OfDict d) title 0 = mkPanel (BText "") (Some title) "blue").
Proof.
  split; [reflexivity|]. intro Hne.
  unfold create_bar_chart, as_dict. destruct d as [|kv d]; [congruence|].
  unfold chart_lines, sorted_data, slice_to. simpl. reflexivity.
Qed.

Lemma bar_chart_no_lines_witness :
  @create_bar_chart model_runtime (OfDict chart_sample) "Bar Chart" 0
  = mkPanel (BText "") (Some "Bar Chart") "blue".
Proof.
  apply (@bar_chart_no_lines model_runtime chart_sample "Bar Chart"). discriminate.
Defined.

(** ** Data preview *)

Lemma head_length {A : Type} (n : Z) (l : list A) :
  0 <= n -> length (head n l) = Nat.min (Z.to_nat n) (length l).
Proof.
  intro Hn. unfold head, slice_to.
  assert (E : (0 <=? n) = true) by (apply Z.leb_le; exact Hn).
  rewrite E. apply length_firstn.
Qed.

Lemma str_take_length (n : nat) (s : string) :
  (String.length (Fmt.str_take n s) <= n)%nat.
Proof.
  unfold Fmt.str_take. rewrite substring_take_length. lia.
Qed.

Lemma data_table_layout `{Runtime} (df : DataFrame) (title : string) (max_rows : Z) :
  df_empty df = false -> 0 <= max_rows ->
  let shown := Nat.min (Z.to_nat max_rows) (index_len df) in
  exists rows,
    create_data_table df title max_rows
      = mkPanel
          (BTable (mkTable
                     (title ++ " (showing " ++ Fmt.str_of_Z (Z.of_nat shown)
                        ++ " of " ++ Fmt.str_of_Z (Z.of_nat (index_len df)) ++ " rows)")
                     "bold magenta"
                     (map (fun c => mkColumn (s_name c)
                                      [("overflow", "ellipsis"); ("max_width", "20")])
                          (columns df))
                     rows))
          None "cyan"
    /\ length rows = shown
    /\ Forall (fun row => length row = length (columns df)) rows
    /\ forall i j c, (i < shown)%nat -> nth_error (columns df) j = Some c ->
         nth_error (nth i rows []) j
           = Some (format_cell (row_upcast df) (nth i (s_values c) SNull)).
Proof.
  intros Hne Hmr shown.
  assert (Hshown : head max_rows (seq 0 (index_len df)) = seq 0 shown).
  { unfold head, slice_to.
    assert (E : (0 <=? max_rows) = true) by (apply Z.leb_le; exact Hmr).
    rewrite E. unfold shown.
    generalize (Z.to_nat max_rows) as k. generalize 0%nat as a.
    induction (index_len df) as [|n IH]; intros a k.
    - rewrite Nat.min_0_r. destruct k; reflexivity.
    - destruct k as [|k]; [reflexivity|]. simpl. rewrite IH. reflexivity. }
  eexists. unfold create_data_table. rewrite Hne, Hshown, length_seq.
  split; [reflexivity|]. split; [rewrite length_map, length_seq; reflexivity|].
  split.
  - apply Forall_forall. intros row Hrow. apply in_map_iff in Hrow as [i [<- _]].
    apply length_map.
  - intros i j c Hi Hj.
    rewrite (nth_map_error _ (seq 0 shown) i []).
    assert (Hnth : nth_error (seq 0 shown) i = Some i).
    { rewrite nth_error_nth' with (d := 0%nat) by (rewrite length_seq; exact Hi).
      rewrite seq_nth by exact Hi. reflexivity. }
    rewrite Hnth. rewrite nth_error_map, Hj. reflexivity.
Qed.

(** X5. The preview of a non-empty frame has one header per column, shows the
    first [min(max_rows, len)] rows, each with one cell per column, says
    so in its title, and the cell of row [i] and column [c] is the
    formatted value of that column at [i]. *)
Theorem data_table_shape `{Runtime} (df : DataFrame) (title : string) (max_rows : Z) :
  df_empty df = false -> 0 <= max_rows ->
  let shown := Nat.min (Z.to_nat max_rows) (index_len df) in
  exists rows,
    create_data_table df title max_rows
      = mkPanel
          (BTable (mkTable
                     (title ++ " (showing " ++ Fmt.str_of_Z (Z.of_nat shown)
                        ++ " of " ++ Fmt.str_of_Z (Z.of_nat (index_len df)) ++ " rows)")
                     "bold magenta"
                     (map (fun c => mkColumn (s_name c)
                                      [("overflow", "ellipsis"); ("max_width", "20")])
                          (columns df))
                     rows))
          None "cyan"
    /\ length rows = shown
    /\ Forall (fun row => length row = length (columns df)) rows
    /\ forall i j c, (i < shown)%nat -> nth_error (columns df) j = Some c ->
         nth_error (nth i rows []) j
           = Some (format_cell (row_upcast df) (nth i (s_values c) SNull)).
Proof. exact (data_table_layout df title max_rows). Qed.

Lemma data_table_shape_witness :
  exists rows,
    table_rows (@create_data_table model_runtime Sample.shop "Data Table" 2) = rows
    /\ length rows = 2%nat.
Proof.
  assert (Hmr : 0 <= 2) by lia.
  destruct (@data_table_shape model_runtime Sample.shop "Data Table" 2 eq_refl Hmr)
    as [rows [Hp [Hlen _]]].
  exists rows. rewrite Hp. split; [reflexivity|exact Hlen].
Defined.

(** X6. In the preview every cell of a column that holds only text and nulls
    is at most 50 characters long: text is cut to its first 50 characters
    and a null is shown as the dim NULL marker. *)
Theorem data_table_text_cells `{Runtime} (df : DataFrame) (title : string)
    (max_rows : Z) (j : nat) (c : Series) :
  df_empty df = false -> 0 <= max_rows ->
  nth_error (columns df) j = Some c ->
  Forall (fun v => match v with SStr _ | SNull => True | _ => False end) (s_values c) ->
  forall i, (i < Nat.min (Z.to_nat max_rows) (index_len df))%nat ->
    exists cell,
      nth_error (nth i (table_rows (create_data_table df title max_rows)) []) j
        = Some cell
      /\ (String.length cell <= 50)%nat
      /\ (cell = "[dim]NULL[/dim]"
          \/ exists s, In (SStr s) (s_values c) /\ cell = substring 0 50 s).
Proof.
  intros Hne Hmr Hj Htext i Hi.
  destruct (data_table_layout df title max_rows Hne Hmr) as [rows [Hp [_ [_ Hcell]]]].
  rewrite Hp. unfold table_rows. cbn [p_body tbl_rows].
  rewrite (Hcell i j c Hi Hj). eexists. split; [reflexivity|].
  destruct (nth_in_or_default i (s_values c) SNull) as [Hin|Hd].
  - rewrite Forall_forall in Htext. specialize (Htext _ Hin).
    destruct (nth i (s_values c) SNull) as [z|q|s|t|] eqn:E; try contradiction.
    + split; [apply str_take_length|]. right. exists s. split; [exact Hin|reflexivity].
    + split; [simpl; lia|]. left. reflexivity.
  - rewrite Hd. split; [simpl; lia|]. left. reflexivity.
Qed.

Lemma data_table_text_cells_witness :
  exists cell,
    nth_error (nth 1 (table_rows (@create_data_table model_runtime Sample.shop
                                    "Data Table" 2)) []) 0 = Some cell
    /\ (String.length cell <= 50)%nat.
Proof.
  assert (Hmr : 0 <= 2) by lia.
  assert (Htext : Forall (fun v => match v with SStr _ | SNull => True | _ => False end)
                    (s_values Sample.product)) by (repeat constructor).
  destruct (@data_table_text_cells model_runtime Sample.shop "Data Table" 2 0
              Sample.product eq_refl Hmr eq_refl Htext 1%nat) as [cell [Hc [Hl _]]].
  - simpl. lia.
  - exists cell. split; [exact Hc|exact Hl].
Defined.

(** ** Text section of the summary, and the empty frame *)

Lemma distinct_length_le (l : list scalar) : (length (distinct l) <= length l)%nat.
Proof.
  induction l as [|x l IH]; simpl; [lia|].
  assert (Hf := filter_length_le (fun y => negb (scalar_eqb x y)) (distinct l)). lia.
Qed.

(** X7. The summary of an empty frame is the "No data available" panel under
    the given title.  Otherwise the text section lists the number of all
    text columns and one "(unique)" row for each of the first three, in
    declaration order; a unique count never exceeds the number of non-null
    values of its column. *)
Theorem summary_text_rows `{Runtime} (df : DataFrame) (title : string) :
  (df_empty df = true -> create_summary_stats df title = no_data_panel title)
  /\ (df_empty df = false ->
      exists rest,
        table_rows (create_summary_stats df title)
          = app rest
              match select_dtypes is_text df with
              | [] => []
              | string_cols =>
                  ["[bold]Text Columns[/bold]";
                   Fmt.str_of_Z (Z.of_nat (length string_cols))]
                    :: map (fun col => ["  " ++ s_name col ++ " (unique)";
                                        Fmt.str_of_Z (Z.of_nat (nunique col))])
                           (firstn 3 string_cols)
              end)
  /\ (forall col, (nunique col <= length (s_values (dropna col)))%nat).
Proof.
  split; [|split].
  - intro He. unfold create_summary_stats. rewrite He. reflexivity.
  - intro Hne. exists (basic_rows df ++ numeric_section df)%list.
    unfold create_summary_stats. rewrite Hne. unfold table_rows. cbn [p_body tbl_rows].
    unfold summary_rows. rewrite <- app_assoc. f_equal. f_equal.
    unfold string_section.
    destruct (select_dtypes is_text df) as [|c cs]; reflexivity.
  - intro col. unfold nunique. apply distinct_length_le.
Qed.

Lemma summary_text_rows_witness :
  @create_summary_stats model_runtime (mkDataFrame [] 0) "Summary Statistics"
    = no_data_panel "Summary Statistics"
  /\ exists rest,
       table_rows (@create_summary_stats model_runtime Sample.shop "Summary Statistics")
       = (rest ++ [ ["[bold]Text Columns[/bold]"; "1"];
                    ["  product (unique)"; "2"] ])%list.
Proof.
  destruct (@summary_text_rows model_runtime (mkDataFrame [] 0) "Summary Statistics")
    as [He _].
  destruct (@summary_text_rows model_runtime Sample.shop "Summary Statistics")
    as [_ [Hne _]].
  split; [apply He; reflexivity|].
  destruct (Hne eq_refl) as [rest Hrows]. exists rest. exact Hrows.
Defined.

(** ** Placeholders of the distribution chart and the correlation matrix *)

(** X8. An empty column gives the "No data available" panel and a column of
    nulls only gives the "No valid data after removing nulls" panel, both
    under the title as given, whatever the bin count and the column type. *)
Theorem distribution_chart_placeholders `{Runtime} (data : Series) (title : string)
    (bins : Z) :
  (s_values data = [] ->
   create_distribution_chart data title bins = no_data_panel title)
  /\ (s_values data <> [] -> forallb is_null (s_values data) = true ->
      create_distribution_chart data title bins
        = text_panel "[red]No valid data after removing nulls[/red]" (Some title)).
Proof.
  split.
  - intro He. unfold create_distribution_chart, series_empty. rewrite He. reflexivity.
  - intros Hne Hnull. unfold create_distribution_chart, series_empty.
    destruct (s_values data) as [|v vs] eqn:Ev; [congruence|].
    change (Nat.eqb (length (v :: vs)) 0) with false. cbv iota.
    assert (Hclean : s_values (dropna data) = []).
    { unfold dropna. simpl. rewrite Ev. clear - Hnull.
      induction (v :: vs) as [|x l IH]; [reflexivity|].
      simpl in *. apply andb_true_iff in Hnull as [Hx Hl].
      rewrite Hx. simpl. apply IH. exact Hl. }
    rewrite Hclean. reflexivity.
Qed.

Lemma distribution_chart_placeholders_witness :
  @create_distribution_chart model_runtime (mkSeries "x" float64 []) "x" 10
    = no_data_panel "x"
  /\ @create_distribution_chart model_runtime
       (mkSeries "discount" float64 [SNull; SNull]) "discount" 10
     = text_panel "[red]No valid data after removing nulls[/red]" (Some "discount").
Proof.
  split.
  - apply (@distribution_chart_placeholders model_runtime (mkSeries "x" float64 []) "x" 10).
    reflexivity.
  - apply (@distribution_chart_placeholders model_runtime
             (mkSeries "discount" float64 [SNull; SNull]) "discount" 10).
    + discriminate.
    + reflexivity.
Defined.

(** X9. The correlation view is the "Not enough numeric columns" panel exactly
    when the frame has no row or fewer than two numeric columns. *)
Theorem correlation_placeholder_iff `{Runtime} (df : DataFrame) (title : string) :
  create_correlation_matrix df title = not_enough_panel title
  <-> (index_len df = 0%nat \/ (length (select_dtypes is_number df) < 2)%nat).
Proof.
  unfold create_correlation_matrix, df_empty. cbn [columns index_len].
  destruct (Nat.eqb (index_len df) 0) eqn:Er.
  - rewrite orb_true_r. simpl orb. apply Nat.eqb_eq in Er. split; auto.
  - rewrite orb_false_r. apply Nat.eqb_neq in Er.
    destruct (length (select_dtypes is_number df)) as [|[|n]] eqn:El.
    + simpl. split; [right; lia|reflexivity].
    + simpl. split; [right; lia|reflexivity].
    + simpl. split; [discriminate|]. intros [H0|H2]; [contradiction|lia].
Qed.

(** X10. With at least two numeric columns and a row, the correlation table
    has a blank header and then one header per numeric column (its name
    cut to 10 characters), one row per numeric column, and each row is the
    column's name cut to 15 characters followed by one cell per numeric
    column. *)
Theorem correlation_table_shape `{Runtime} (df : DataFrame) (title : string) :
  index_len df <> 0%nat ->
  (2 <= length (select_dtypes is_number df))%nat ->
  let cols := select_dtypes is_number df in
  exists rows,
    create_correlation_matrix df title
      = mkPanel
          (BTable (mkTable title "bold cyan"
                     (mkColumn "" [("style", "yellow")]
                        :: map (fun c => mkColumn (Fmt.str_take 10 (s_name c))
                                           [("justify", "center"); ("style", "dim")])
                               cols)
                     rows))
          None "magenta"
    /\ length rows = length cols
    /\ Forall (fun row => length row = S (length cols)) rows
    /\ map (fun row => hd "" row) rows = map (fun c => Fmt.str_take 15 (s_name c)) cols.
Proof.
  intros Hrows Hlen cols.
  exists (map (fun rc => Fmt.str_take 15 (s_name (fst rc)) :: map corr_cell (snd rc))
              (combine cols (corr cols))).
  unfold create_correlation_matrix. fold cols.
  assert (Hnd : df_empty (mkDataFrame cols (index_len df)) = false).
  { unfold df_empty. cbn [columns index_len]. apply orb_false_iff. split.
    - apply Nat.eqb_neq. unfold cols. lia.
    - apply Nat.eqb_neq. exact Hrows. }
  assert (Hlt : (length cols <? 2)%nat = false) by (apply Nat.ltb_ge; exact Hlen).
  rewrite Hnd, Hlt. cbn [orb].
  split; [reflexivity|].
  assert (Hc : length (combine cols (corr cols)) = length cols).
  { rewrite length_combine. unfold corr. rewrite length_map. lia. }
  split; [rewrite length_map; exact Hc|]. split.
  - apply Forall_forall. intros row Hrow.
    apply in_map_iff in Hrow as [[c r] [<- Hin]].
    apply in_combine_r in Hin. unfold corr in Hin.
    apply in_map_iff in Hin as [a [<- _]].
    cbn [fst snd length]. rewrite !length_map. reflexivity.
  - rewrite map_map. cbn [hd].
    unfold corr. generalize (fun a : Series => map (fun b => pearson a b) cols).
    intro f. clear. induction cols as [|c cs IH]; [reflexivity|].
    simpl. rewrite IH. reflexivity.
Qed.

Lemma correlation_table_shape_witness :
  exists rows,
    table_rows (@create_correlation_matrix model_runtime Sample.shop "Correlation Matrix")
      = rows
    /\ length rows = 2%nat.
Proof.
  assert (Hrows : index_len Sample.shop <> 0%nat) by discriminate.
  assert (Hlen : (2 <= length (select_dtypes is_number Sample.shop))%nat) by (simpl; lia).
  destruct (@correlation_table_shape model_runtime Sample.shop "Correlation Matrix"
              Hrows Hlen) as [rows [Hp [Hl _]]].
  exists rows. rewrite Hp. split; [reflexivity|exact Hl].
Defined.

(** ** What the dashboard puts where *)

(** X11. Whatever the frame, the header shows the title and the clock reading,
    the stats pane the summary titled "Dataset Overview", the preview pane
    the first ten rows titled "Data Preview"; the four inner nodes of the
    layout hold nothing of their own. *)
Theorem dashboard_fixed_panes `{Runtime} (now title : string) (df : DataFrame) :
  let layout := create_analytics_dashboard now df title in
  pane "header" layout
    = Some (mkPanel (BColumns [ mkText title "bold bright_blue" "center";
                                mkText ("Generated: " ++ now) "dim" "center" ])
              None "blue")
  /\ pane "stats" layout = Some (create_summary_stats df "Dataset Overview")
  /\ pane "preview" layout = Some (create_data_table df "Data Preview" 10)
  /\ pane "root" layout = None /\ pane "body" layout = None
  /\ pane "left" layout = None /\ pane "right" layout = None.
Proof.
  unfold create_analytics_dashboard, add_charts.
  destruct (select_dtypes is_number df) as [|n0 [|n1 more]];
    destruct (select_dtypes is_text df) as [|c0 [|c1 cs]];
    repeat split; reflexivity.
Qed.

(** X12. With a numeric column the first chart pane is the distribution of the
    first numeric column, asked for under the title "<name> Distribution"
    with ten bins.  With two or more numeric columns the second chart pane
    is the correlation matrix of the frame under its default title, text
    columns or not; with exactly one numeric column and a text column it
    is the top ten values of the first text column. *)
Theorem dashboard_numeric_branch `{Runtime} (now title : string) (df : DataFrame)
    (n0 : Series) (more : list Series) :
  select_dtypes is_number df = n0 :: more ->
  let layout := create_analytics_dashboard now df title in
  pane "chart1" layout
    = Some (create_distribution_chart n0 (s_name n0 ++ " Distribution") 10)
  /\ (more <> [] ->
      pane "chart2" layout = Some (create_correlation_matrix df "Correlation Matrix"))
  /\ (forall c0 cs, more = [] -> select_dtypes is_text df = c0 :: cs ->
      pane "chart2" layout
        = Some (create_bar_chart (OfSeries (head 10 (value_counts c0)))
                  ("Top " ++ s_name c0 ++ " Values") 20)).
Proof.
  intros Hnum layout. unfold layout, create_analytics_dashboard, add_charts.
  rewrite Hnum. split; [|split].
  - destruct more; destruct (select_dtypes is_text df); reflexivity.
  - intro Hm. destruct more; [congruence|reflexivity].
  - intros c0 cs Hm Htxt. rewrite Hm, Htxt. reflexivity.
Qed.

Lemma dashboard_numeric_branch_witness :
  pane "chart2" (@create_analytics_dashboard model_runtime "2024-01-01 00:00:00"
                   Sample.shop "Analytics Dashboard")
  = Some (@create_correlation_matrix model_runtime Sample.shop "Correlation Matrix").
Proof.
  destruct (@dashboard_numeric_branch model_runtime "2024-01-01 00:00:00"
              "Analytics Dashboard" Sample.shop Sample.sales [Sample.profit] eq_refl)
    as [_ [H2 _]].
  apply H2. discriminate.
Defined.

(** X13. Without a numeric column: two or more text columns fill the chart
    panes with the top ten values of the first and of the second; with no
    text column either (say, only date columns) neither chart pane is
    ever filled. *)
Theorem dashboard_text_branch `{Runtime} (now title : string) (df : DataFrame) :
  select_dtypes is_number df = [] ->
  let layout := create_analytics_dashboard now df title in
  (forall c0 c1 cs, select_dtypes is_text df = c0 :: c1 :: cs ->
     pane "chart1" layout = Some (top_values_chart c0)
     /\ pane "chart2" layout = Some (top_values_chart c1))
  /\ (select_dtypes is_text df = [] ->
      pane "chart1" layout = None /\ pane "chart2" layout = None).
Proof.
  intros Hnum layout. unfold layout, create_analytics_dashboard, add_charts.
  rewrite Hnum. split.
  - intros c0 c1 cs Htxt. rewrite Htxt. split; reflexivity.
  - intro Htxt. rewrite Htxt. split; reflexivity.
Qed.

Lemma dashboard_text_branch_witness :
  pane "chart1" (@create_analytics_dashboard model_runtime "2024-01-01 00:00:00"
                   dates_only "Analytics Dashboard") = None
  /\ pane "chart2" (@create_analytics_dashboard model_runtime "2024-01-01 00:00:00"
                      dates_only "Analytics Dashboard") = None.
Proof.
  destruct (@dashboard_text_branch model_runtime "2024-01-01 00:00:00"
              "Analytics Dashboard" dates_only eq_refl) as [_ H0].
  apply H0. reflexivity.
Defined.

(** ** Dispatch of [display_analytics] *)

(** X14. Any view type other than "summary", "table" and "correlation" is the
    dashboard: an unknown name, a name in another case, the empty string. *)
Theorem unknown_view_is_dashboard `{Runtime} (now : string) (data : raw_data)
    (analytics_type title : string) :
  analytics_type <> "summary" -> analytics_type <> "table" ->
  analytics_type <> "correlation" ->
  display_analytics now data analytics_type title
    = display_analytics now data "dashboard" title.
Proof.
  intros Hs Ht Hc. unfold display_analytics.
  destruct (to_frame data) as [[df|]|]; try reflexivity.
  destruct (df_empty df); [reflexivity|].
  apply String.eqb_neq in Hs, Ht, Hc. rewrite Hs, Ht, Hc.
  change (String.eqb "dashboard" "dashboard") with true.
  destruct (String.eqb analytics_type "dashboard"); reflexivity.
Qed.

Lemma unknown_view_is_dashboard_witness :
  @display_analytics model_runtime "2024-01-01 00:00:00" (RawFrame Sample.shop)
     "Summary" "Data Analytics"
  = @display_analytics model_runtime "2024-01-01 00:00:00" (RawFrame Sample.shop)
      "dashboard" "Data Analytics".
Proof.
  apply (@unknown_view_is_dashboard model_runtime); intro E;
    apply String.eqb_eq in E; discriminate E.
Defined.

(** ** Session manager *)

Lemma sessions_get_set_same (l : list (string * DatabaseSession)) (id : string)
    (s : DatabaseSession) :
  sessions_get id (sessions_set l id s) = Some s.
Proof.
  induction l as [|[k s'] r IH]; simpl.
  - rewrite String.eqb_refl. reflexivity.
  - destruct (String.eqb k id) eqn:E; simpl; rewrite E; [reflexivity|exact IH].
Qed.

Lemma sessions_get_set_other (l : list (string * DatabaseSession)) (id id' : string)
    (s : DatabaseSession) :
  id' <> id -> sessions_get id' (sessions_set l id s) = sessions_get id' l.
Proof.
  intro Hne. induction l as [|[k s'] r IH]; simpl.
  - assert (E : String.eqb id id' = false) by (apply String.eqb_neq; congruence).
    rewrite E. reflexivity.
  - destruct (String.eqb k id) eqn:E; simpl.
    + apply String.eqb_eq in E. subst k.
      assert (E' : String.eqb id id' = false) by (apply String.eqb_neq; congruence).
      rewrite E'. reflexivity.
    + destruct (String.eqb k id'); [reflexivity|exact IH].
Qed.

(** X15. A new session is the current one and is found under its id; it starts
    unconnected, unanalyzed, with no type, code or schema; the sessions
    that were there under other ids are still found as they were. *)
Theorem create_then_get (uuid uri : string) (m : SessionManager) :
  uuid <> "" ->
  let fresh := mkSession uuid uri None None JNull false false in
  let m' := snd (create_session uuid uri m) in
  fst (create_session uuid uri m) = fresh
  /\ get_session None m' = Some fresh
  /\ get_session (Some uuid) m' = Some fresh
  /\ forall id, id <> "" -> id <> uuid -> get_session (Some id) m' = get_session (Some id) m.
Proof.
  intros Hne fresh m'.
  assert (Hn : nonempty uuid = true).
  { unfold nonempty. apply negb_true_iff, String.eqb_neq. exact Hne. }
  split; [reflexivity|]. unfold m', create_session, get_session. cbn [snd sessions current_session_id].
  rewrite Hn, sessions_get_set_same.
  split; [reflexivity|]. split; [reflexivity|].
  intros id Hid Hdiff.
  assert (Hi : nonempty id = true).
  { unfold nonempty. apply negb_true_iff, String.eqb_neq. exact Hid. }
  rewrite Hi. apply sessions_get_set_other. exact Hdiff.
Qed.

Lemma create_then_get_witness :
  get_session None (snd (create_session "6f1c" "sqlite:///shop.db" new_manager))
  = Some (mkSession "6f1c" "sqlite:///shop.db" None None JNull false false).
Proof.
  assert (Hne : "6f1c" <> "") by discriminate.
  destruct (create_then_get "6f1c" "sqlite:///shop.db" new_manager Hne) as [_ [Hg _]].
  exact Hg.
Defined.

Lemma sessions_set_keys (l : list (string * DatabaseSession)) (id : string)
    (s s0 : DatabaseSession) :
  sessions_get id l = Some s0 -> map fst (sessions_set l id s) = map fst l.
Proof.
  induction l as [|[k s'] r IH]; simpl; [discriminate|].
  destruct (String.eqb k id) eqn:E; simpl; [reflexivity|].
  intro Hg. rewrite IH by exact Hg. reflexivity.
Qed.

Lemma update_session_cases (id : string) (kwargs : list attr) (m : SessionManager) :
  (sessions_get id (sessions m) = None -> update_session id kwargs m = m)
  /\ (forall s, sessions_get id (sessions m) = Some s ->
      let m' := update_session id kwargs m in
      current_session_id m' = current_session_id m
      /\ map fst (sessions m') = map fst (sessions m)
      /\ sessions_get id (sessions m') = Some (fold_left set_attr kwargs s)
      /\ forall id', id' <> id -> sessions_get id' (sessions m') = sessions_get id' (sessions m))
  /\ (forall s key v free, set_attr s (Set_other key v free) = s).
Proof.
  split; [|split].
  - intro Hmiss. unfold update_session. rewrite Hmiss. reflexivity.
  - intros s Hs m'. unfold m', update_session. rewrite Hs.
    cbn [sessions current_session_id]. split; [reflexivity|].
    split; [apply (sessions_set_keys _ _ _ s Hs)|].
    split; [apply sessions_get_set_same|].
    intros id' Hd. apply sessions_get_set_other. exact Hd.
  - reflexivity.
Qed.

Lemma session_id_kept (kwargs : list attr) (s : DatabaseSession) :
  session_id (fold_left set_attr kwargs s) = session_id s.
Proof.
  revert s. induction kwargs as [|a l IH]; intro s; [reflexivity|].
  simpl. rewrite IH. destruct a; reflexivity.
Qed.

Lemma get_attr_set_same (a : attr) (s : DatabaseSession) :
  get_attr a (set_attr s a) = a.
Proof. destruct a; reflexivity. Qed.

Lemma get_attr_set_other (a b : attr) (s : DatabaseSession) :
  keyword a <> keyword b -> get_attr a (set_attr s b) = get_attr a s.
Proof.
  intro Hk. destruct a, b; try reflexivity; exfalso; apply Hk; reflexivity.
Qed.

Lemma fold_set_attr (kwargs : list attr) (s : DatabaseSession) :
  NoDup (map keyword kwargs) ->
  (forall a, In a kwargs -> get_attr a (fold_left set_attr kwargs s) = a)
  /\ (forall a, ~ In (keyword a) (map keyword kwargs) ->
        get_attr a (fold_left set_attr kwargs s) = get_attr a s).
Proof.
  revert s. induction kwargs as [|b l IH]; intros s Hnd.
  - split; [intros a []|reflexivity].
  - inversion Hnd as [|k ks Hb Hl]; subst. cbn [fold_left].
    destruct (IH (set_attr s b) Hl) as [Hin Hout]. split.
    + intros a [<-|Ha]; [|apply Hin; exact Ha].
      rewrite (Hout b Hb). apply get_attr_set_same.
    + intros a Ha. cbn [map In] in Ha.
      rewrite Hout by (intro; apply Ha; right; assumption).
      apply get_attr_set_other. intro E. apply Ha. left. symmetry. exact E.
Qed.

(** X16. An update under an id that is not stored changes nothing.  An
    update of a stored session changes neither the current id, nor the
    ids stored, nor any other session, nor the id of the session; the
    session then found under the id holds, for every keyword passed, the
    value passed, and for every keyword not passed what it held before.
    A keyword that is not an attribute is skipped. *)
Theorem update_session_effect (id : string) (kwargs : list attr) (m : SessionManager) :
  NoDup (map keyword kwargs) ->
  (sessions_get id (sessions m) = None -> update_session id kwargs m = m)
  /\ (forall s, sessions_get id (sessions m) = Some s ->
      let m' := update_session id kwargs m in
      current_session_id m' = current_session_id m
      /\ map fst (sessions m') = map fst (sessions m)
      /\ (forall id', id' <> id ->
            sessions_get id' (sessions m') = sessions_get id' (sessions m))
      /\ exists s',
           sessions_get id (sessions m') = Some s'
           /\ s' = fold_left set_attr kwargs s
           /\ session_id s' = session_id s
           /\ (forall a, In a kwargs -> get_attr a s' = a)
           /\ (forall a, ~ In (keyword a) (map keyword kwargs) ->
                 get_attr a s' = get_attr a s))
  /\ (forall s key v free, set_attr s (Set_other key v free) = s).
Proof.
  intro Hnd. destruct (update_session_cases id kwargs m) as [Hmiss [Hhit Hother]].
  split; [exact Hmiss|]. split; [|exact Hother].
  intros s Hs m'. destruct (Hhit s Hs) as [Hc [Hk [Hg Ho]]].
  split; [exact Hc|]. split; [exact Hk|]. split; [exact Ho|].
  exists (fold_left set_attr kwargs s).
  split; [exact Hg|]. split; [reflexivity|]. split; [apply session_id_kept|].
  apply fold_set_attr. exact Hnd.
Qed.

Lemma update_session_effect_witness :
  let m := snd (create_session "6f1c" "sqlite:///shop.db" new_manager) in
  let kwargs := [Set_connected true; Set_other "colour" (JStr "red") eq_refl] in
  update_session "nope" kwargs m = m
  /\ sessions_get "6f1c" (sessions (update_session "6f1c" kwargs m))
     = Some (mkSession "6f1c" "sqlite:///shop.db" None None JNull true false).
Proof.
  intros m kwargs.
  assert (Hnd : NoDup (map keyword kwargs)).
  { constructor; [|constructor; [intros []|constructor]].
    intros [E|[]]. discriminate E. }
  destruct (update_session_effect "nope" kwargs m Hnd) as [Hmiss _].
  destruct (update_session_effect "6f1c" kwargs m Hnd) as [_ [Hhit _]].
  split; [apply Hmiss; reflexivity|].
  destruct (Hhit (mkSession "6f1c" "sqlite:///shop.db" None None JNull false false) eq_refl)
    as [_ [_ [_ [s' [Hg [-> _]]]]]].
  exact Hg.
Defined.

(** ** Tools *)

(** X17. The type of a database is read off the scheme of its URI: each of the
    eight known prefixes gives its type whatever follows it, and the type
    is "unknown" exactly when the URI starts with none of them (the
    comparison is case-sensitive). *)
Theorem db_type_by_prefix (uri rest : string) :
  db_type_of ("mysql://" ++ rest) = "mysql"
  /\ db_type_of ("mysql+pymysql://" ++ rest) = "mysql"
  /\ db_type_of ("postgresql://" ++ rest) = "postgresql"
  /\ db_type_of ("postgres://" ++ rest) = "postgresql"
  /\ db_type_of ("mongodb://" ++ rest) = "mongodb"
  /\ db_type_of ("mongodb+srv://" ++ rest) = "mongodb"
  /\ db_type_of ("redis://" ++ rest) = "redis"
  /\ db_type_of ("sqlite://" ++ rest) = "sqlite"
  /\ (db_type_of uri = "unknown" <-> startswith uri known_prefixes = false)
  /\ db_type_of ("MySQL://" ++ rest) = "unknown".
Proof.
  assert (Hp : forall p s, String.prefix p (p ++ s) = true).
  { intros p s. apply prefix_correct. apply substring_take_append. }
  repeat (split; [unfold db_type_of, startswith; cbn [existsb];
                  repeat match goal with
                  | |- context [String.prefix ?p (?p ++ rest)] => rewrite (Hp p rest)
                  end; reflexivity|]).
  split; [|reflexivity].
  unfold db_type_of, startswith, known_prefixes. cbn [existsb].
  destruct (String.prefix "mysql://" uri); [split; discriminate|].
  destruct (String.prefix "mysql+pymysql://" uri); [split; discriminate|].
  destruct (String.prefix "postgresql://" uri); [split; discriminate|].
  destruct (String.prefix "postgres://" uri); [split; discriminate|].
  destruct (String.prefix "mongodb://" uri); [split; discriminate|].
  destruct (String.prefix "mongodb+srv://" uri); [split; discriminate|].
  destruct (String.prefix "redis://" uri); [split; discriminate|].
  destruct (String.prefix "sqlite://" uri); [split; discriminate|].
  split; reflexivity.
Qed.

(** X18. Before any session is created the current-session tool answers with
    its error; right after [create_database_session] it answers with the
    new session: the id and URI given, the type read off the URI, not
    connected, not analyzed, no schema.  The tool's own answer names the
    same id and type. *)
Theorem create_tool_then_current (uuid uri : string) (m : SessionManager) :
  uuid <> "" ->
  get_current_session new_manager
    = [("error", JStr "No active session. Please create one first.")]
  /\ get_current_session (snd (create_database_session uuid uri m))
     = session_view (mkSession uuid uri (Some (db_type_of uri)) None JNull false false)
  /\ fst (create_database_session uuid uri m)
     = [ ("session_id", JStr uuid); ("db_uri", JStr uri);
         ("db_type", JStr (db_type_of uri)); ("status", JStr "created");
         ("message", JStr ("Session " ++ uuid ++ " created for " ++ db_type_of uri
                             ++ " database")) ].
Proof.
  intro Hne.
  assert (Hn : nonempty uuid = true).
  { unfold nonempty. apply negb_true_iff, String.eqb_neq. exact Hne. }
  split; [reflexivity|]. split; [|reflexivity].
  unfold create_database_session, create_session, update_session.
  cbn [session_id sessions current_session_id].
  rewrite sessions_get_set_same. cbn [snd fold_left set_attr].
  unfold get_current_session, get_session. cbn [current_session_id sessions].
  rewrite Hn, sessions_get_set_same. reflexivity.
Qed.

Lemma create_tool_then_current_witness :
  get_current_session (snd (create_database_session "6f1c" "postgres://db/shop" new_manager))
  = session_view (mkSession "6f1c" "postgres://db/shop" (Some "postgresql")
                    None JNull false false).
Proof.
  assert (Hne : "6f1c" <> "") by discriminate.
  destruct (create_tool_then_current "6f1c" "postgres://db/shop" new_manager Hne)
    as [_ [Hc _]].
  exact Hc.
Defined.

Lemma save_connection_code_cases (id code : string) (m : SessionManager) :
  fst (save_connection_code id code m)
    = [("status", JStr "success"); ("message", JStr "Connection code saved")]
  /\ (sessions_get id (sessions m) = None -> snd (save_connection_code id code m) = m)
  /\ (forall s, sessions_get id (sessions m) = Some s ->
      let m' := snd (save_connection_code id code m) in
      sessions_get id (sessions m')
        = Some (mkSession (session_id s) (db_uri s) (db_type s) (Some code)
                  (schema_info s) true (analyzed s))
      /\ current_session_id m' = current_session_id m
      /\ forall id', id' <> id ->
           sessions_get id' (sessions m') = sessions_get id' (sessions m)).
Proof.
  split; [reflexivity|]. unfold save_connection_code. cbn [snd].
  destruct (update_session_cases id [Set_connection_code (Some code); Set_connected true] m)
    as [Hmiss [Hhit _]].
  split; [exact Hmiss|].
  intros s Hs. cbv zeta. destruct (Hhit s Hs) as [Hc [_ [Hg Ho]]].
  split; [exact Hg|]. split; [exact Hc|exact Ho].
Qed.

(** X19. Saving connection code always answers "success".  Under a stored id
    it records the code and marks the session connected, leaving its other
    attributes and every other session alone; under an id that is not
    stored it changes nothing, although the answer is the same. *)
Theorem save_connection_code_effect (id code : string) (m : SessionManager) :
  fst (save_connection_code id code m)
    = [("status", JStr "success"); ("message", JStr "Connection code saved")]
  /\ (sessions_get id (sessions m) = None -> snd (save_connection_code id code m) = m)
  /\ (forall s, sessions_get id (sessions m) = Some s ->
      let m' := snd (save_connection_code id code m) in
      sessions_get id (sessions m')
        = Some (mkSession (session_id s) (db_uri s) (db_type s) (Some code)
                  (schema_info s) true (analyzed s))
      /\ current_session_id m' = current_session_id m
      /\ forall id', id' <> id ->
           sessions_get id' (sessions m') = sessions_get id' (sessions m)).
Proof. exact (save_connection_code_cases id code m). Qed.

Lemma save_connection_code_effect_witness :
  snd (save_connection_code "nope" "import sqlite3" new_manager) = new_manager.
Proof.
  destruct (save_connection_code_effect "nope" "import sqlite3" new_manager)
    as [_ [Hm _]].
  apply Hm. reflexivity.
Defined.

(** X20. Saving schema text that is not JSON answers with the error and
    changes nothing.  Text that parses is stored parsed, as the value
    [json.loads] returned, and the session is marked analyzed; its
    connection state is left as it was. *)
Theorem save_schema_info_effect `{JsonCodec} (id text : string) (m : SessionManager) :
  (json_loads text = None ->
   save_schema_info id text m
     = ([("error", JStr "Invalid JSON format for schema_info")], m))
  /\ (forall v s, json_loads text = Some v -> sessions_get id (sessions m) = Some s ->
      fst (save_schema_info id text m)
        = [("status", JStr "success"); ("message", JStr "Schema information saved")]
      /\ sessions_get id (sessions (snd (save_schema_info id text m)))
         = Some (mkSession (session_id s) (db_uri s) (db_type s) (connection_code s)
                   v (connected s) true)).
Proof.
  split.
  - intro He. unfold save_schema_info. rewrite He. reflexivity.
  - intros v s Hv Hs. unfold save_schema_info. rewrite Hv. cbn [fst snd].
    split; [reflexivity|].
    destruct (update_session_cases id [Set_schema_info v; Set_analyzed true] m)
      as [_ [Hhit _]].
    destruct (Hhit s Hs) as [_ [_ [Hg _]]]. exact Hg.
Qed.

Lemma save_schema_info_effect_witness :
  let m := snd (create_session "6f1c" "sqlite:///shop.db" new_manager) in
  @save_schema_info sample_codec "6f1c" "not json" m
    = ([("error", JStr "Invalid JSON format for schema_info")], m)
  /\ option_map analyzed
       (sessions_get "6f1c" (sessions (snd (@save_schema_info sample_codec "6f1c" "{}" m))))
     = Some true.
Proof.
  intro m. split.
  - destruct (@save_schema_info_effect sample_codec "6f1c" "not json" m) as [He _].
    apply He. reflexivity.
  - destruct (@save_schema_info_effect sample_codec "6f1c" "{}" m) as [_ Hok].
    destruct (Hok (JObj []) (mkSession "6f1c" "sqlite:///shop.db" None None JNull false false)
                eq_refl eq_refl) as [_ Hg].
    rewrite Hg. reflexivity.
Defined.

(** ** Consistency of the manager under the tools *)

Lemma update_keeps_consistent (id : string) (kwargs : list attr) (m : SessionManager) :
  consistent m -> consistent (update_session id kwargs m).
Proof.
  intros [Hwk Hcs].
  destruct (update_session_cases id kwargs m) as [Hmiss [Hhit _]].
  destruct (sessions_get id (sessions m)) as [s|] eqn:Es.
  - destruct (Hhit s eq_refl) as [Hc [_ [Hg Ho]]].
    assert (Hid := session_id_kept kwargs s).
    split.
    + intros id' s' Hs'. destruct (String.eqb id' id) eqn:E.
      * apply String.eqb_eq in E. subst id'. rewrite Hg in Hs'.
        injection Hs' as <-. rewrite Hid. apply Hwk. exact Es.
      * apply String.eqb_neq in E. rewrite (Ho id' E) in Hs'. apply Hwk. exact Hs'.
    + unfold current_stored in *. rewrite Hc.
      destruct (current_session_id m) as [c|]; [|exact I].
      destruct Hcs as [sc Hsc]. destruct (String.eqb c id) eqn:E.
      * apply String.eqb_eq in E. subst c. eexists. exact Hg.
      * apply String.eqb_neq in E. exists sc. rewrite (Ho c E). exact Hsc.
  - rewrite (Hmiss eq_refl). split; assumption.
Qed.

Lemma create_keeps_consistent (uuid uri : string) (m : SessionManager) :
  consistent m -> consistent (snd (create_session uuid uri m)).
Proof.
  intros [Hwk Hcs]. unfold create_session. cbn [snd]. split.
  - intros id s Hs. cbn [sessions] in Hs. destruct (String.eqb id uuid) eqn:E.
    + apply String.eqb_eq in E. subst id. rewrite sessions_get_set_same in Hs.
      injection Hs as <-. reflexivity.
    + apply String.eqb_neq in E. rewrite sessions_get_set_other in Hs by exact E.
      apply Hwk. exact Hs.
  - unfold current_stored. cbn [current_session_id sessions].
    eexists. apply sessions_get_set_same.
Qed.

(** X21. Starting from a new manager, and however the three writing tools are
    called, every session stays stored under its own id and the current
    id stays stored: the current-session tool then never reports its
    error once a session exists. *)
Theorem tools_keep_manager_consistent `{JsonCodec} (m : SessionManager)
    (uuid uri id code text : string) :
  consistent new_manager
  /\ (consistent m ->
      consistent (snd (create_database_session uuid uri m))
      /\ consistent (snd (save_connection_code id code m))
      /\ consistent (snd (save_schema_info id text m)))
  /\ (consistent m -> forall c, current_session_id m = Some c -> c <> "" ->
      exists s, get_session None m = Some s /\ session_id s = c
                /\ get_current_session m = session_view s).
Proof.
  split; [|split].
  - split; [intros id0 s Hs; discriminate Hs|exact I].
  - intro Hc. split; [|split].
    + unfold create_database_session.
      assert (Hcr := create_keeps_consistent uuid uri m Hc).
      destruct (create_session uuid uri m) as [session m1] eqn:Ecs. cbn [snd] in *.
      apply update_keeps_consistent. exact Hcr.
    + unfold save_connection_code. cbn [snd].
      apply update_keeps_consistent. exact Hc.
    + unfold save_schema_info. destruct (json_loads text); cbn [snd]; [|exact Hc].
      apply update_keeps_consistent. exact Hc.
  - intros [Hwk Hcs] c Hcur Hne. unfold current_stored in Hcs. rewrite Hcur in Hcs.
    destruct Hcs as [s Hs]. exists s.
    assert (Hn : nonempty c = true).
    { unfold nonempty. apply negb_true_iff, String.eqb_neq. exact Hne. }
    assert (Hg : get_session None m = Some s).
    { unfold get_session. rewrite Hcur, Hn. exact Hs. }
    split; [exact Hg|]. split; [apply Hwk; exact Hs|].
    unfold get_current_session. rewrite Hg. reflexivity.
Qed.

Lemma tools_keep_manager_consistent_witness :
  let m := snd (create_database_session "6f1c" "sqlite:///shop.db" new_manager) in
  consistent (snd (@save_schema_info sample_codec "6f1c" "{}" m))
  /\ exists s, get_session None m = Some s /\ session_id s = "6f1c".
Proof.
  intro m.
  destruct (@tools_keep_manager_consistent sample_codec new_manager
              "6f1c" "sqlite:///shop.db" "6f1c" "" "{}") as [Hnew [Hstep _]].
  destruct (Hstep Hnew) as [Hm _].
  destruct (@tools_keep_manager_consistent sample_codec m
              "6f1c" "sqlite:///shop.db" "6f1c" "" "{}") as [_ [Hstep' Hcur]].
  split.
  - destruct (Hstep' Hm) as [_ [_ Hs]]. exact Hs.
  - destruct (Hcur Hm "6f1c" eq_refl) as [s [Hg [Hid _]]]; [discriminate|].
    exists s. split; assumption.
Defined.

(** ** Extraction of the final answer *)

Lemma py_split_aux_nonempty (sep : string) (s : string) (skip : nat) (cur : string) :
  py_split_aux sep skip s cur <> [].
Proof.
  revert skip cur. induction s as [|c s IH]; intros skip cur; cbn [py_split_aux];
    [discriminate|].
  destruct skip; [|apply IH].
  destruct (String.prefix sep (String c s)); [discriminate|apply IH].
Qed.

Lemma last_cons_nonempty {A : Type} (x : A) (l : list A) (d : A) :
  l <> [] -> last (x :: l) d = last l d.
Proof. destruct l; [congruence|reflexivity]. Qed.

Lemma append_nil_r (s : string) : s ++ "" = s.
Proof. induction s; simpl; congruence. Qed.

Lemma append_snoc_split (a b cur : string) (c : ascii) :
  a ++ b = cur ++ String c "" -> b <> "" ->
  exists b', b = b' ++ String c "" /\ cur = a ++ b'.
Proof.
  revert cur. induction a as [|x a IH]; intros cur E Hb; simpl in E.
  - exists cur. split; [exact E|reflexivity].
  - destruct cur as [|y cur]; simpl in E.
    + injection E as _ E. destruct a; [simpl in E; congruence|discriminate E].
    + injection E as -> E. destruct (IH cur E Hb) as [b' [H1 H2]].
      exists b'. split; [exact H1|]. simpl. rewrite H2. reflexivity.
Qed.

Section Marker.
Variable sep : string.
Hypothesis sep_nonempty : sep <> "".

Lemma prefix_sep_empty : String.prefix sep "" = false.
Proof using sep_nonempty. destruct sep; [congruence|reflexivity]. Qed.

Lemma no_start_contains (cur : string) : no_start sep cur "" -> contains_str sep cur = false.
Proof using sep_nonempty.
  induction cur as [|c cur IH]; intro Hn.
  - cbn [contains_str]. rewrite prefix_sep_empty. reflexivity.
  - cbn [contains_str].
    assert (Hp : String.prefix sep (String c cur) = false).
    { rewrite <- (append_nil_r (String c cur)).
      apply (Hn "" (String c cur) eq_refl). discriminate. }
    rewrite Hp. cbn [orb].
    apply IH. intros a b E Hb. apply (Hn (String c a) b); [simpl; congruence|exact Hb].
Qed.

(** The last piece holds no occurrence of the separator. *)
Lemma last_piece_clean (s : string) (skip : nat) (cur : string) :
  (skip = 0%nat \/ cur = "") -> no_start sep cur s ->
  contains_str sep (last (py_split_aux sep skip s cur) "") = false.
Proof using sep_nonempty.
  revert skip cur. induction s as [|c s IH]; intros skip cur Hsk Hn.
  - cbn [py_split_aux last]. apply no_start_contains. exact Hn.
  - cbn [py_split_aux]. destruct skip as [|k].
    + destruct (String.prefix sep (String c s)) eqn:Ep.
      * rewrite last_cons_nonempty by apply py_split_aux_nonempty.
        apply IH; [right; reflexivity|].
        intros a b E Hb. destruct a; destruct b; simpl in E; congruence.
      * apply IH; [left; reflexivity|].
        intros a b E Hb. destruct (append_snoc_split a b cur c (eq_sym E) Hb)
          as [b' [-> Hcur]].
        rewrite append_assoc. simpl.
        destruct b' as [|y b'].
        -- simpl. exact Ep.
        -- apply (Hn a (String y b') Hcur). discriminate.
    + destruct Hsk as [Hsk|Hcur]; [discriminate|]. subst cur.
      apply IH; [right; reflexivity|].
      intros a b E Hb. destruct a; destruct b; simpl in E; congruence.
Qed.

(** The last piece is what the text ends with. *)
Lemma last_piece_suffix (s : string) (skip : nat) (cur : string) :
  (skip = 0%nat \/ cur = "") ->
  exists before, cur ++ s = before ++ last (py_split_aux sep skip s cur) "".
Proof using Type.
  revert skip cur. induction s as [|c s IH]; intros skip cur Hsk.
  - exists "". cbn [py_split_aux last]. apply append_nil_r.
  - cbn [py_split_aux]. destruct skip as [|k].
    + destruct (String.prefix sep (String c s)).
      * rewrite last_cons_nonempty by apply py_split_aux_nonempty.
        destruct (IH (String.length sep - 1)%nat "" (or_intror eq_refl)) as [before Hb].
        exists (cur ++ String c before). rewrite append_assoc. simpl.
        f_equal. f_equal. exact Hb.
      * destruct (IH 0%nat (cur ++ String c "") (or_introl eq_refl)) as [before Hb].
        exists before. rewrite <- Hb, append_assoc. reflexivity.
    + destruct Hsk as [Hsk|Hcur]; [discriminate|]. subst cur.
      destruct (IH k "" (or_intror eq_refl)) as [before Hb].
      exists (String c before). simpl. f_equal. exact Hb.
Qed.

(** Without an occurrence of the separator the text is the only piece. *)
Lemma split_without_separator (s cur : string) :
  contains_str sep s = false -> py_split_aux sep 0 s cur = [cur ++ s].
Proof using Type.
  revert cur. induction s as [|c s IH]; intros cur Hc.
  - cbn [py_split_aux]. rewrite append_nil_r. reflexivity.
  - cbn [contains_str] in Hc. apply orb_false_iff in Hc as [Hp Hc].
    cbn [py_split_aux]. rewrite Hp, (IH _ Hc), append_assoc. reflexivity.
Qed.

(** Passing the rest of a separator just found. *)
Lemma split_skip (u s cur : string) :
  py_split_aux sep (String.length u) (u ++ s) cur = py_split_aux sep 0 s cur.
Proof using Type.
  induction u as [|c u IH]; [reflexivity|]. simpl. exact IH.
Qed.

End Marker.

Lemma prefix_cons_inv (a c : ascii) (p s : string) :
  String.prefix (String a p) (String c s) = true -> String.prefix p s = true.
Proof.
  cbn [String.prefix]. destruct (ascii_dec a c); [auto|discriminate].
Qed.

Lemma marker_tail_step (k : nat) (c : ascii) (s : string) :
  (k <= 12)%nat ->
  String.prefix (marker_tail_at (S k)) (String c s) = true ->
  String.prefix (marker_tail_at k) s = true.
Proof.
  intros Hk Hp.
  do 13 (destruct k as [|k];
         [ eval_marker_tails; apply prefix_cons_inv in Hp; exact Hp |]).
  lia.
Qed.

(** The marker does not overlap itself: its only "F" is its first
    character. *)
Lemma marker_no_overlap (k : nat) (ans : string) :
  (k <= 12)%nat ->
  String.prefix (marker_tail_at (S k)) (final_answer_marker ++ ans) = false.
Proof.
  intro Hk.
  do 13 (destruct k as [|k]; [reflexivity|]).
  lia.
Qed.

Lemma marker_found_tail (c : ascii) (s : string) :
  String.prefix final_answer_marker (String c s) = true ->
  String.prefix (marker_tail_at 13) s = true.
Proof.
  intro Hp. eval_marker_tails. unfold final_answer_marker in Hp.
  apply prefix_cons_inv in Hp. exact Hp.
Qed.

Lemma prefix_nil (s : string) : String.prefix "" s = true.
Proof. destruct s; reflexivity. Qed.

Lemma marker_nonempty : final_answer_marker <> "".
Proof. discriminate. Qed.

Lemma prefix_append (p s : string) : String.prefix p (p ++ s) = true.
Proof. apply prefix_correct. apply substring_take_append. Qed.

(** After the last marker: when the text ends with the marker followed by
    marker-free text, that text is the last piece, however many markers
    come before. *)
Lemma after_last_marker (ans x : string) (skip : nat) (cur : string) :
  (skip <= 13)%nat ->
  String.prefix (marker_tail_at skip) (x ++ final_answer_marker ++ ans) = true ->
  contains_str final_answer_marker ans = false ->
  last (py_split_aux final_answer_marker skip (x ++ final_answer_marker ++ ans) cur) ""
    = ans.
Proof.
  intros Hsk Hinv Hans. revert skip cur Hsk Hinv.
  induction x as [|c x IH]; intros skip cur Hsk Hinv.
  - cbn [append] in *. destruct skip as [|k].
    + change (final_answer_marker ++ ans) with (String "F" ("inal answer: " ++ ans)).
      cbn [py_split_aux].
      change (String "F" ("inal answer: " ++ ans)) with (final_answer_marker ++ ans).
      rewrite prefix_append.
      rewrite last_cons_nonempty by apply py_split_aux_nonempty.
      change (String.length final_answer_marker - 1)%nat
        with (String.length "inal answer: ").
      rewrite split_skip, split_without_separator by exact Hans.
      reflexivity.
    + rewrite marker_no_overlap in Hinv by lia. discriminate Hinv.
  - change (String c x ++ final_answer_marker ++ ans)
      with (String c (x ++ final_answer_marker ++ ans)) in *.
    cbn [py_split_aux]. destruct skip as [|k].
    + destruct (String.prefix final_answer_marker
                  (String c (x ++ final_answer_marker ++ ans))) eqn:Ep.
      * rewrite last_cons_nonempty by apply py_split_aux_nonempty.
        apply IH; [simpl; lia|].
        apply marker_found_tail in Ep. exact Ep.
      * apply IH; [lia|]. eval_marker_tails. apply prefix_nil.
    + apply IH; [lia|]. apply (marker_tail_step k c); [lia|exact Hinv].
Qed.

(** X22. The answer taken from the text of a run: it holds no "Final answer: "
    marker; the text ends with it; it is the text itself when the text
    holds no marker, and in every case the last piece of the split (the
    test for the marker changes nothing); when the text ends with the
    marker followed by marker-free text, it is that text.  An object with
    a [final_answer] is taken as it is. *)
Theorem clean_result_extracts (text before ans : string) :
  contains_str final_answer_marker (clean_result (Plain text)) = false
  /\ (exists front, text = front ++ clean_result (Plain text))
  /\ clean_result (Plain text) = last (py_split final_answer_marker text) ""
  /\ (contains_str final_answer_marker ans = false ->
      clean_result (Plain (before ++ final_answer_marker ++ ans)) = ans)
  /\ clean_result (WithFinalAnswer text) = text.
Proof.
  assert (Hlast : clean_result (Plain text) = last (py_split final_answer_marker text) "").
  { unfold clean_result.
    destruct (contains_str final_answer_marker text) eqn:Ec; [reflexivity|].
    unfold py_split. rewrite split_without_separator by exact Ec. reflexivity. }
  split; [|split; [|split; [exact Hlast|split; [|reflexivity]]]].
  - rewrite Hlast. unfold py_split.
    apply (last_piece_clean _ marker_nonempty); [left; reflexivity|].
    intros a b E Hb. destruct a; destruct b; simpl in E; congruence.
  - rewrite Hlast. unfold py_split.
    destruct (last_piece_suffix final_answer_marker text 0 "" (or_introl eq_refl))
      as [front Hf].
    exists front. exact Hf.
  - intro Hans.
    assert (Hl : clean_result (Plain (before ++ final_answer_marker ++ ans))
                 = last (py_split final_answer_marker
                           (before ++ final_answer_marker ++ ans)) "").
    { unfold clean_result.
      destruct (contains_str final_answer_marker (before ++ final_answer_marker ++ ans))
        eqn:Ec; [reflexivity|].
      unfold py_split. rewrite split_without_separator by exact Ec. reflexivity. }
    rewrite Hl. unfold py_split.
    apply after_last_marker; [lia| |exact Hans]. eval_marker_tails. apply prefix_nil.
Qed.

Lemma clean_result_extracts_witness :
  clean_result (Plain "Thought: done. Final answer: 42 rows") = "42 rows".
Proof.
  destruct (clean_result_extracts "" "Thought: done. " "42 rows") as [_ [_ [_ [H _]]]].
  apply H. reflexivity.
Defined.

(** ** Queries need a connected session *)

Lemma query_refusal `{JsonCodec} `{Agents}
    (question : string) (m : SessionManager) :
  (forall s, get_session None m = Some s -> connected s = false) ->
  query_database question m = (Some no_connection_message, m).
Proof.
  intro Hno. unfold query_database.
  destruct (get_session None m) as [s|] eqn:Es; [|reflexivity].
  rewrite (Hno s eq_refl). reflexivity.
Qed.

(** X23. Without a current session, or with one that is not marked connected,
    a query is answered with the fixed refusal and the session manager is
    left as it was, whatever the agent is: it is not run. *)
Theorem query_refused_without_connection `{JsonCodec} `{Agents}
    (question : string) (m : SessionManager) :
  (forall s, get_session None m = Some s -> connected s = false) ->
  query_database question m = (Some no_connection_message, m).
Proof. exact (query_refusal question m). Qed.

Lemma query_refused_without_connection_witness :
  @query_database sample_codec sample_agents "how many rows?" new_manager
  = (Some no_connection_message, new_manager).
Proof.
  apply (@query_refused_without_connection sample_codec sample_agents).
  intros s Hs. discriminate Hs.
Defined.

(** X24. A session just created by the tool cannot be queried, and saving its
    schema does not change that; once its connection code is saved the
    querier is run, on a prompt built from the session as saved, and its
    cleaned answer comes back under the "QUERY RESULT" heading. *)
Theorem query_needs_saved_connection `{JsonCodec} `{Agents}
    (uuid uri code schema question : string) (m : SessionManager) :
  uuid <> "" ->
  let m1 := snd (create_database_session uuid uri m) in
  let m2 := snd (save_schema_info uuid schema m1) in
  let m3 := snd (save_connection_code uuid code m1) in
  let saved := mkSession uuid uri (Some (db_type_of uri)) (Some code) JNull true false in
  query_database question m1 = (Some no_connection_message, m1)
  /\ query_database question m2 = (Some no_connection_message, m2)
  /\ get_session None m3 = Some saved
  /\ query_database question m3
     = (option_map (query_answer question)
          (fst (querier_run (querier_prompt question saved) m3)),
        snd (querier_run (querier_prompt question saved) m3)).
Proof.
  intros Hne m1 m2 m3 saved.
  assert (Hn : nonempty uuid = true).
  { unfold nonempty. apply negb_true_iff, String.eqb_neq. exact Hne. }
  set (s1 := mkSession uuid uri (Some (db_type_of uri)) None JNull false false).
  assert (Hm1 : m1 = mkManager
                      (sessions_set
                         (sessions_set (sessions m) uuid
                            (mkSession uuid uri None None JNull false false))
                         uuid s1)
                      (Some uuid)).
  { unfold m1, create_database_session, create_session, update_session.
    cbn [session_id sessions current_session_id].
    rewrite sessions_get_set_same. reflexivity. }
  assert (Hcur1 : current_session_id m1 = Some uuid) by (rewrite Hm1; reflexivity).
  assert (Hget1 : sessions_get uuid (sessions m1) = Some s1).
  { rewrite Hm1. cbn [sessions]. apply sessions_get_set_same. }
  assert (Hg1 : get_session None m1 = Some s1).
  { unfold get_session. rewrite Hcur1, Hn. exact Hget1. }
  split; [|split; [|split]].
  - apply query_refusal. intros s Hs.
    rewrite Hg1 in Hs. injection Hs as <-. reflexivity.
  - apply query_refusal. intros s Hs.
    unfold m2, save_schema_info in Hs.
    destruct (json_loads schema) as [v|]; cbn [snd] in Hs.
    + destruct (update_session_cases uuid [Set_schema_info v; Set_analyzed true] m1)
        as [_ [Hhit _]].
      destruct (Hhit s1 Hget1) as [Hc [_ [Hg _]]].
      unfold get_session in Hs. rewrite Hc, Hcur1, Hn, Hg in Hs.
      injection Hs as <-. reflexivity.
    + rewrite Hg1 in Hs. injection Hs as <-. reflexivity.
  - destruct (save_connection_code_cases uuid code m1) as [_ [_ Hhit]].
    destruct (Hhit s1 Hget1) as [Hg [Hc _]]. fold m3 in Hg, Hc.
    unfold get_session. rewrite Hc, Hcur1, Hn. exact Hg.
  - destruct (save_connection_code_cases uuid code m1) as [_ [_ Hhit]].
    destruct (Hhit s1 Hget1) as [Hg [Hc _]]. fold m3 in Hg, Hc.
    assert (Hg3 : get_session None m3 = Some saved).
    { unfold get_session. rewrite Hc, Hcur1, Hn. exact Hg. }
    unfold query_database. rewrite Hg3. cbn [connected negb].
    destruct (querier_run (querier_prompt question saved) m3) as [[r|] m'];
      reflexivity.
Qed.

Lemma query_needs_saved_connection_witness :
  let m1 := snd (create_database_session "6f1c" "sqlite:///shop.db" new_manager) in
  let m3 := snd (save_connection_code "6f1c" "import sqlite3" m1) in
  fst (@query_database sample_codec sample_agents "how many rows?" m1)
    = Some no_connection_message
  /\ fst (@query_database sample_codec sample_agents "how many rows?" m3)
     = Some ("**QUERY RESULT**" ++ newline ++ "Question: how many rows?" ++ newline
               ++ newline ++ "42 rows").
Proof.
  assert (Hne : "6f1c" <> "") by discriminate.
  destruct (@query_needs_saved_connection sample_codec sample_agents
              "6f1c" "sqlite:///shop.db" "import sqlite3" "{}" "how many rows?"
              new_manager Hne) as [H1 [_ [_ H3]]].
  split.
  - rewrite H1. reflexivity.
  - rewrite H3. reflexivity.
Defined.

(** ** Splitting and joining *)

Lemma prefix_decompose (p s : string) :
  String.prefix p s = true -> exists rest, s = p ++ rest.
Proof.
  revert s. induction p as [|a p IH]; intros s Hp.
  - exists s. reflexivity.
  - destruct s as [|c s]; [discriminate Hp|].
    cbn [String.prefix] in Hp. destruct (ascii_dec a c) as [->|]; [|discriminate Hp].
    destruct (IH s Hp) as [rest ->]. exists rest. reflexivity.
Qed.

Lemma prefix_extend (p a s : string) :
  String.prefix p a = true -> String.prefix p (a ++ s) = true.
Proof.
  intro Hp. destruct (prefix_decompose p a Hp) as [rest ->].
  rewrite append_assoc. apply prefix_append.
Qed.

Lemma join_cons (sep x : string) (r : list string) :
  r <> [] -> Fmt.join sep (x :: r) = x ++ sep ++ Fmt.join sep r.
Proof. destruct r; [congruence|reflexivity]. Qed.

Section SplitJoin.
Variable sep : string.
Hypothesis sep_nonempty : sep <> "".

(** Joining the pieces with the separator gives the text back. *)
Lemma join_split_aux (s : string) (skip : nat) (cur u rest : string) :
  s = u ++ rest -> String.length u = skip -> (skip = 0%nat \/ cur = "") ->
  Fmt.join sep (py_split_aux sep skip s cur) = cur ++ rest.
Proof using sep_nonempty.
  revert skip cur u rest. induction s as [|c s IH]; intros skip cur u rest Hs Hu Hsk.
  - destruct u; [|discriminate Hs]. simpl in Hs. subst rest.
    cbn [py_split_aux Fmt.join]. rewrite append_nil_r. reflexivity.
  - cbn [py_split_aux]. destruct skip as [|k].
    + destruct u; [|discriminate Hu]. simpl in Hs. subst rest.
      destruct (String.prefix sep (String c s)) eqn:Ep.
      * rewrite join_cons by apply py_split_aux_nonempty.
        destruct (prefix_decompose _ _ Ep) as [rest' Hr].
        destruct sep as [|a sep']; [congruence|].
        simpl in Hr. injection Hr as <- Hr.
        rewrite (IH (String.length (String c sep') - 1)%nat "" sep' rest' Hr);
          [|simpl; lia|right; reflexivity].
        rewrite Hr. reflexivity.
      * rewrite (IH 0%nat (cur ++ String c "") "" s eq_refl eq_refl (or_introl eq_refl)).
        rewrite append_assoc. reflexivity.
    + destruct Hsk as [Hsk|Hcur]; [discriminate Hsk|]. subst cur.
      destruct u as [|a u]; [discriminate Hu|].
      simpl in Hs, Hu. injection Hs as <- Hs. injection Hu as Hu.
      apply (IH k "" u rest Hs Hu). right. reflexivity.
Qed.

Lemma no_start_clean (cur s : string) :
  no_start sep cur s -> contains_str sep cur = false.
Proof using sep_nonempty.
  intro Hn. apply (no_start_contains sep sep_nonempty).
  intros a b E Hb. specialize (Hn a b E Hb).
  destruct (String.prefix sep (b ++ "")) eqn:Ep; [|reflexivity].
  rewrite append_nil_r in Ep. rewrite (prefix_extend _ _ s Ep) in Hn. discriminate Hn.
Qed.

(** No piece holds an occurrence of the separator. *)
Lemma pieces_clean (s : string) (skip : nat) (cur : string) :
  (skip = 0%nat \/ cur = "") -> no_start sep cur s ->
  Forall (fun p => contains_str sep p = false) (py_split_aux sep skip s cur).
Proof using sep_nonempty.
  revert skip cur. induction s as [|c s IH]; intros skip cur Hsk Hn.
  - cbn [py_split_aux]. constructor; [|constructor]. apply (no_start_clean cur ""). exact Hn.
  - cbn [py_split_aux]. destruct skip as [|k].
    + destruct (String.prefix sep (String c s)) eqn:Ep.
      * constructor; [apply (no_start_clean cur (String c s)); exact Hn|].
        apply IH; [right; reflexivity|].
        intros a b E Hb. destruct a; destruct b; simpl in E; congruence.
      * apply IH; [left; reflexivity|].
        intros a b E Hb. destruct (append_snoc_split a b cur c (eq_sym E) Hb)
          as [b' [-> Hcur]].
        rewrite append_assoc. simpl.
        destruct b' as [|y b'].
        -- simpl. exact Ep.
        -- apply (Hn a (String y b') Hcur). discriminate.
    + destruct Hsk as [Hsk|Hcur]; [discriminate|]. subst cur.
      apply IH; [right; reflexivity|].
      intros a b E Hb. destruct a; destruct b; simpl in E; congruence.
Qed.

(** A text that holds the separator splits in two pieces at least. *)
Lemma split_found (s cur : string) :
  contains_str sep s = true -> (2 <= length (py_split_aux sep 0 s cur))%nat.
Proof using sep_nonempty.
  revert cur. induction s as [|c s IH]; intros cur Hc.
  - cbn [contains_str] in Hc. rewrite (prefix_sep_empty sep sep_nonempty) in Hc.
    discriminate Hc.
  - cbn [contains_str] in Hc. cbn [py_split_aux].
    destruct (String.prefix sep (String c s)) eqn:Ep.
    + assert (Hne := py_split_aux_nonempty sep s (String.length sep - 1) "").
      destruct (py_split_aux sep (String.length sep - 1) s ""); [congruence|simpl; lia].
    + apply IH. exact Hc.
Qed.

End SplitJoin.

(** ** Rendering of messages *)

Lemma split_first_line_correct (s first rest : string) :
  split_first_line s = Some (first, rest) ->
  s = first ++ newline ++ rest /\ contains_str newline first = false.
Proof.
  revert first rest. induction s as [|c s IH]; intros first rest Hs; [discriminate Hs|].
  cbn [split_first_line] in Hs.
  destruct (Ascii.eqb c (ascii_of_nat 10)) eqn:Ec.
  - apply Ascii.eqb_eq in Ec. subst c. injection Hs as <- <-. split; reflexivity.
  - destruct (split_first_line s) as [[f r]|]; [|discriminate Hs].
    injection Hs as <- <-. destruct (IH f r eq_refl) as [-> Hclean].
    split; [reflexivity|].
    cbn [contains_str]. rewrite Hclean, orb_false_r.
    unfold newline. cbn [String.prefix].
    destruct (ascii_dec (ascii_of_nat 10) c) as [E|]; [|reflexivity].
    subst c. rewrite Ascii.eqb_refl in Ec. discriminate Ec.
Qed.

Lemma render_parts_nth (parts : list string) (i0 i : nat) (p : string) :
  nth_error parts i = Some p ->
  nth_error (render_parts i0 parts) i = Some (render_part (i0 + i) p).
Proof.
  revert i0 i. induction parts as [|q parts IH]; intros i0 [|i] Hp; try discriminate Hp.
  - injection Hp as ->. rewrite Nat.add_0_r. reflexivity.
  - cbn [render_parts nth_error]. rewrite (IH (S i0) i Hp).
    replace (S i0 + i)%nat with (i0 + S i)%nat by lia. reflexivity.
Qed.

Lemma render_parts_length (parts : list string) (i0 : nat) :
  length (render_parts i0 parts) = length parts.
Proof.
  revert i0. induction parts as [|q parts IH]; intro i0; simpl; [reflexivity|].
  rewrite IH. reflexivity.
Qed.

(** ** White space *)

Lemma by_length (P : string -> Prop) :
  (forall s, (forall t, (String.length t < String.length s)%nat -> P t) -> P s) ->
  forall s, P s.
Proof.
  intros Hstep s.
  assert (G : forall n t, (String.length t < n)%nat -> P t).
  { induction n as [|n IH]; intros t Ht; [lia|].
    apply Hstep. intros u Hu. apply IH. lia. }
  apply (G (S (String.length s))). lia.
Qed.

Ltac space_cases s c1 s1 c2 s2 c3 s3 E1 E2 E3 :=
  destruct s as [|c1 s1];
  [|destruct (is_space1 c1) eqn:E1;
    [|destruct s1 as [|c2 s2];
      [|destruct (is_space2 c1 c2) eqn:E2;
        [|destruct s2 as [|c3 s3];
          [|destruct (is_space3 c1 c2 c3) eqn:E3]]]]].

Lemma lstrip_split (s : string) :
  exists lead, s = lead ++ lstrip s /\ white lead = true.
Proof.
  induction s as [s IH] using by_length.
  space_cases s c1 s1 c2 s2 c3 s3 E1 E2 E3.
  - exists "". split; reflexivity.
  - destruct (IH s1) as [lead [Hs Hw]]; [simpl; lia|].
    exists (String c1 lead). cbn [lstrip white append]. rewrite E1.
    split; [f_equal; exact Hs|exact Hw].
  - exists "". cbn [lstrip]. rewrite E1. split; reflexivity.
  - destruct (IH s2) as [lead [Hs Hw]]; [simpl; lia|].
    exists (String c1 (String c2 lead)). cbn [lstrip white append]. rewrite E1, E2.
    split; [do 2 f_equal; exact Hs|exact Hw].
  - exists "". cbn [lstrip]. rewrite E1, E2. split; reflexivity.
  - destruct (IH s3) as [lead [Hs Hw]]; [simpl; lia|].
    exists (String c1 (String c2 (String c3 lead))). cbn [lstrip white append].
    rewrite E1, E2, E3. split; [do 3 f_equal; exact Hs|exact Hw].
  - exists "". cbn [lstrip]. rewrite E1, E2, E3. split; reflexivity.
Qed.

Lemma lstrip_head (s : string) : head_space (lstrip s) = false.
Proof.
  induction s as [s IH] using by_length.
  space_cases s c1 s1 c2 s2 c3 s3 E1 E2 E3; cbn [lstrip];
    rewrite ?E1, ?E2, ?E3; try (apply IH; simpl; lia);
    cbn [head_space]; rewrite ?E1, ?E2, ?E3; reflexivity.
Qed.

Lemma white_head (a b : string) :
  white a = true -> a <> "" -> head_space (a ++ b) = true.
Proof.
  intros Hw Hne.
  space_cases a c1 s1 c2 s2 c3 s3 E1 E2 E3; try congruence;
    cbn [white] in Hw; rewrite ?E1, ?E2, ?E3 in Hw; try discriminate Hw;
    cbn [append head_space]; rewrite ?E1, ?E2, ?E3; reflexivity.
Qed.

Lemma lstrip_white (s : string) : String.eqb (lstrip s) "" = white s.
Proof.
  induction s as [s IH] using by_length.
  space_cases s c1 s1 c2 s2 c3 s3 E1 E2 E3; cbn [lstrip white];
    rewrite ?E1, ?E2, ?E3; try (apply IH; simpl; lia); reflexivity.
Qed.

Lemma white_app (x y : string) : white x = true -> white (x ++ y) = white y.
Proof.
  induction x as [x IH] using by_length. intro Hw.
  space_cases x c1 s1 c2 s2 c3 s3 E1 E2 E3;
    cbn [white] in Hw; rewrite ?E1, ?E2, ?E3 in Hw; try discriminate Hw;
    cbn [append white]; rewrite ?E1, ?E2, ?E3; try reflexivity;
    (apply IH; [simpl; lia|exact Hw]).
Qed.

Lemma rstrip_split (u : string) :
  exists trail, u = rstrip u ++ trail /\ white trail = true.
Proof.
  induction u as [|c u IH].
  - exists "". split; reflexivity.
  - cbn [rstrip]. rewrite lstrip_white.
    destruct (white (String c u)) eqn:Ew.
    + exists (String c u). split; [reflexivity|exact Ew].
    + destruct IH as [trail [Hu Hw]]. exists trail.
      split; [cbn [append]; f_equal; exact Hu|exact Hw].
Qed.

Lemma rstrip_tail (u a b : string) :
  rstrip u = a ++ b -> b <> "" -> white b = false.
Proof.
  revert a. induction u as [|c u IH]; intros a Hr Hb.
  - cbn [rstrip] in Hr. destruct a; [simpl in Hr; congruence|discriminate Hr].
  - assert (Hsplit := rstrip_split (String c u)).
    cbn [rstrip] in Hr, Hsplit. rewrite lstrip_white in Hr, Hsplit.
    destruct (white (String c u)) eqn:Ew.
    + destruct a; [simpl in Hr; congruence|discriminate Hr].
    + destruct a as [|c' a].
      * simpl in Hr. subst b. destruct Hsplit as [trail [Hu Hw]].
        destruct (white (String c (rstrip u))) eqn:Eb; [|reflexivity].
        rewrite Hu, (white_app _ trail Eb), Hw in Ew. discriminate Ew.
      * simpl in Hr. injection Hr as _ Hr. apply (IH a Hr Hb).
Qed.

(** [strip] removes white space, and only white space, from both ends. *)
Lemma strip_spec (s : string) :
  (exists lead trail,
     s = lead ++ strip s ++ trail /\ white lead = true /\ white trail = true)
  /\ trimmed (strip s).
Proof.
  unfold strip.
  destruct (lstrip_split s) as [lead [Hs Hl]].
  destruct (rstrip_split (lstrip s)) as [trail [Hu Ht]].
  split.
  - exists lead, trail. split; [|split; assumption].
    rewrite <- Hu. exact Hs.
  - intros a b Hab. split.
    + intros Ha. destruct (white a) eqn:Ew; [|reflexivity].
      assert (Hh := lstrip_head s).
      rewrite Hu, Hab, append_assoc in Hh.
      rewrite (white_head a (b ++ trail) Ew Ha) in Hh. discriminate Hh.
    + intro Hb. apply (rstrip_tail (lstrip s) a b Hab Hb).
Qed.

(** X25. An assistant message that holds a code fence is shown as a group
    with one part per piece between the fences, two at least.  The pieces
    hold no fence and, joined by fences, give the message back.  The
    pieces in even position are Markdown as they are.  A piece in odd
    position is code in the monokai theme: a piece of a single line is
    the code and its language is "text"; otherwise the code is what
    follows the first line, and the language is the first line without
    the white space at its two ends, or "text" when nothing is left. *)
Theorem fenced_message_parts (message : Message) :
  msg_type message = ASSISTANT ->
  contains_str fence (msg_content message) = true ->
  let pieces := py_split fence (msg_content message) in
  mp_content (_render_message message) = RGroup (render_parts 0 pieces)
  /\ length (render_parts 0 pieces) = length pieces
  /\ (2 <= length pieces)%nat
  /\ Fmt.join fence pieces = msg_content message
  /\ Forall (fun p => contains_str fence p = false) pieces
  /\ forall i p, nth_error pieces i = Some p ->
       nth_error (render_parts 0 pieces) i = Some (render_part i p)
       /\ (Nat.even i = true -> render_part i p = RMarkdown p)
       /\ (Nat.even i = false ->
           exists code lexer,
             render_part i p = RSyntax code lexer "monokai"
             /\ lexer <> ""
             /\ ((contains_str newline p = false /\ code = p /\ lexer = "text")
                 \/ exists first lead trail,
                      p = first ++ newline ++ code
                      /\ contains_str newline first = false
                      /\ first = lead ++ strip first ++ trail
                      /\ white lead = true /\ white trail = true
                      /\ trimmed (strip first)
                      /\ lexer = (if String.eqb (strip first) ""
                                  then "text" else strip first))).
Proof.
  intros Hty Hfence pieces.
  assert (Hsep : fence <> "") by discriminate.
  split; [|split; [|split; [|split; [|split]]]].
  - unfold _render_message. rewrite Hty, Hfence. reflexivity.
  - apply render_parts_length.
  - apply split_found; assumption.
  - unfold pieces, py_split.
    apply (join_split_aux fence Hsep _ 0 "" "" (msg_content message));
      [reflexivity|reflexivity|left; reflexivity].
  - unfold pieces, py_split. apply (pieces_clean fence Hsep); [left; reflexivity|].
    intros a b E Hb. destruct a; destruct b; simpl in E; congruence.
  - intros i p Hp. split; [apply (render_parts_nth pieces 0 i p Hp)|]. split.
    + intro He. unfold render_part. rewrite He. reflexivity.
    + intro Ho. unfold render_part. rewrite Ho.
      destruct (split_first_line p) as [[first rest]|] eqn:Es.
      * destruct (split_first_line_correct p first rest Es) as [Hp' Hclean].
        destruct (strip_spec first) as [[lead [trail [Hf [Hl Ht]]]] Htrim].
        eexists. eexists. split; [reflexivity|]. split.
        -- unfold nonempty. destruct (String.eqb (strip first) "") eqn:En;
             cbn [negb]; [discriminate|].
           apply String.eqb_neq in En. exact En.
        -- right. exists first, lead, trail.
           split; [exact Hp'|]. split; [exact Hclean|]. split; [exact Hf|].
           split; [exact Hl|]. split; [exact Ht|]. split; [exact Htrim|].
           unfold nonempty. destruct (String.eqb (strip first) ""); reflexivity.
      * exists p, "text". split; [reflexivity|]. split; [discriminate|].
        left. split; [|split; reflexivity].
        clear - Es. induction p as [|c p IH]; [reflexivity|].
        cbn [split_first_line] in Es. cbn [contains_str].
        destruct (Ascii.eqb c (ascii_of_nat 10)) eqn:Ec; [discriminate Es|].
        destruct (split_first_line p) as [[f r]|]; [discriminate Es|].
        rewrite (IH eq_refl), orb_false_r.
        unfold newline. cbn [String.prefix].
        destruct (ascii_dec (ascii_of_nat 10) c) as [E|]; [|reflexivity].
        subst c. rewrite Ascii.eqb_refl in Ec. discriminate Ec.
Qed.

Lemma fenced_message_parts_witness :
  mp_content (_render_message fenced_sample)
  = RGroup [ RMarkdown ("Run this:" ++ newline);
             RSyntax ("SELECT 1" ++ newline) "sql" "monokai";
             RMarkdown " done" ].
Proof.
  destruct (fenced_message_parts fenced_sample eq_refl eq_refl) as [Hc _].
  rewrite Hc. reflexivity.
Defined.

(** X26. The history view prints the notice when there is no message, and
    otherwise the panels of the last ten messages, oldest first: all of
    them when there are ten or fewer. *)
Theorem history_shows_last_ten (messages : list Message) :
  _display_history [] = [PrintMarkup "[yellow]No conversation history yet.[/yellow]"]
  /\ (messages <> [] ->
      exists earlier shown,
        messages = (earlier ++ shown)%list
        /\ length shown = Nat.min 10 (length messages)
        /\ _display_history messages
           = map (fun message => PrintPanel (_render_message message)) shown).
Proof.
  split; [reflexivity|]. intro Hne.
  exists (firstn (length messages - 10) messages), (last_n 10 messages).
  split; [unfold last_n; symmetry; apply firstn_skipn|].
  split; [unfold last_n; rewrite length_skipn; lia|].
  unfold _display_history. destruct messages; [congruence|reflexivity].
Qed.

Lemma history_shows_last_ten_witness :
  _display_history [fenced_sample] = [PrintPanel (_render_message fenced_sample)].
Proof.
  destruct (history_shows_last_ten [fenced_sample]) as [_ H].
  destruct H as [earlier [shown [Hm [Hl Hd]]]]; [discriminate|].
  rewrite Hd. destruct shown as [|x [|y shown]]; try discriminate Hl.
  destruct earlier as [|e earlier].
  - simpl in Hm. injection Hm as <-. reflexivity.
  - destruct earlier; discriminate Hm.
Defined.
